(** * doc-agent: the workflow engine, embedded and verified

    A shallow embedding of [doc_agent/types.py], [doc_agent/steps/base.py],
    [doc_agent/steps/dummy.py], [doc_agent/steps/llm.py], [doc_agent/steps/__init__.py]
    and [doc_agent/workflowyaml.py].

    Conventions of the embedding:
    - a Python [str] is a [string] of bytes (its UTF-8 encoding); the reference
      pattern is pure ASCII, so searching and replacing on bytes agrees with
      searching and replacing on code points; where Python works on code
      points, in [str.strip] and in the iteration over a [str], the code
      points are read off the bytes;
    - a Python [dict] is an association list in insertion order, keys unique;
    - an [int] is a [Z]; a [float] is the bit pattern of its IEEE-754 binary64,
      and the conversions to and from floats are taken from the runtime;
    - the values of the embedding are the scalars: None, pydantic's undefined
      marker, booleans, integers, floats and strings.  A list or a mapping is
      no value, so a parameter, a context entry or a member of a JSON reply
      that holds one is outside of it; in particular a step is not given a
      [context] keyword that is a mapping, which a validated step cannot be
      given either (it is no declared input);
    - the LLM provider is part of the environment a call of [run] happens in:
      within one environment a request has one reply, and two calls of [run]
      may happen in two environments, whose providers reply differently;
    - mutable objects are threaded explicitly: a function returns the objects it
      may have mutated next to its outcome;
    - the [while True] loop of [fill_value] is given fuel, and running out of it
      is an outcome of its own, distinct from returning and from raising;
    - the wall-clock fields [started_at] and [finished_at] of the result records
      are left out. *)

From Stdlib Require Import String Ascii List ZArith Lia Bool Arith.
From Stdlib Require Import DecimalString.
Import ListNotations.
Open Scope list_scope.
Open Scope string_scope.

(* ================================================================== *)
(** * Strings *)

Definition is_space (c : ascii) : bool := Ascii.eqb c " "%char.

(** The class [[a-zA-Z0-9_]]. *)
Definition is_word (c : ascii) : bool :=
  let n := nat_of_ascii c in
  (((97 <=? n) && (n <=? 122)) || ((65 <=? n) && (n <=? 90))
   || ((48 <=? n) && (n <=? 57)) || (n =? 95))%nat.

(** What [str.isspace] accepts among ASCII characters. *)
Definition is_whitespace (c : ascii) : bool :=
  let n := nat_of_ascii c in
  (((9 <=? n) && (n <=? 13)) || ((28 <=? n) && (n <=? 32)))%nat.

Fixpoint all_chars (p : ascii -> bool) (s : string) : bool :=
  match s with
  | EmptyString => true
  | String c r => p c && all_chars p r
  end.

(** The longest prefix of [s] made of characters in [p], and the rest: what a
    greedy [[p]*] consumes. *)
Fixpoint span (p : ascii -> bool) (s : string) : string * string :=
  match s with
  | EmptyString => (EmptyString, EmptyString)
  | String c r =>
      if p c then let (a, b) := span p r in (String c a, b)
      else (EmptyString, s)
  end.

Fixpoint skip (n : nat) (s : string) : string :=
  match n, s with
  | O, _ => s
  | S k, EmptyString => EmptyString
  | S k, String _ r => skip k r
  end.

Fixpoint count_char (c : ascii) (s : string) : nat :=
  match s with
  | EmptyString => 0
  | String d r => (if Ascii.eqb c d then 1 else 0) + count_char c r
  end.

Definition is_empty (s : string) : bool :=
  match s with EmptyString => true | _ => false end.

(** [s.replace(old, new)] for a non-empty [old]: occurrences are found left to
    right and do not overlap. [pending] counts the characters of the occurrence
    just replaced that are still to be dropped. *)
Fixpoint replace_from (old new : string) (pending : nat) (s : string) : string :=
  match s with
  | EmptyString => EmptyString
  | String c r =>
      match pending with
      | S k => replace_from old new k r
      | O =>
          if String.prefix old s
          then new ++ replace_from old new (String.length old - 1) r
          else String c (replace_from old new 0 r)
      end
  end.

(** A continuation byte of UTF-8: [10xxxxxx]. *)
Definition is_continuation (c : ascii) : bool :=
  let n := nat_of_ascii c in ((128 <=? n) && (n <=? 191))%nat.

(** The continuation bytes [s] starts with, and the code points behind them,
    each a first byte with its continuation bytes. *)
Fixpoint split_code_points (s : string) : string * list string :=
  match s with
  | EmptyString => (EmptyString, [])
  | String c r =>
      let (k, l) := split_code_points r in
      if is_continuation c then (String c k, l) else (EmptyString, String c k :: l)
  end.

(** [list(s)]: the characters of a [str], which are its code points. *)
Definition chars (s : string) : list string := snd (split_code_points s).

(** With an empty [old], Python puts [new] before every character and at the
    end. *)
Definition intersperse (new s : string) : string :=
  new ++ String.concat EmptyString (map (fun c => c ++ new) (chars s)).

Definition replace (old new s : string) : string :=
  if is_empty old then intersperse new s else replace_from old new 0 s.

(** [sep.join(l)] *)
Definition join (sep : string) (l : list string) : string := String.concat sep l.

Definition str_of_int (z : Z) : string := NilZero.string_of_int (Z.to_int z).

(* ================================================================== *)
(** * Dictionaries *)

Definition dict (V : Type) : Type := list (string * V).

Fixpoint dict_get {V} (k : string) (d : dict V) : option V :=
  match d with
  | [] => None
  | (k', v) :: r => if String.eqb k k' then Some v else dict_get k r
  end.

Definition dict_has {V} (k : string) (d : dict V) : bool :=
  match dict_get k d with Some _ => true | None => false end.

(** [d[k] = v]: an existing key keeps its place, a new key goes last. *)
Fixpoint dict_set {V} (k : string) (v : V) (d : dict V) : dict V :=
  match d with
  | [] => [(k, v)]
  | (k', v') :: r =>
      if String.eqb k k' then (k', v) :: r else (k', v') :: dict_set k v r
  end.

(** [del d[k]] *)
Fixpoint dict_del {V} (k : string) (d : dict V) : dict V :=
  match d with
  | [] => []
  | (k', v') :: r =>
      if String.eqb k k' then dict_del k r else (k', v') :: dict_del k r
  end.

Definition dict_keys {V} (d : dict V) : list string := map fst d.
Definition dict_values {V} (d : dict V) : list V := map snd d.

(** [{key(x): val(x) for x in l}] *)
Definition dict_of {A V} (key : A -> string) (val : A -> V) (l : list A) : dict V :=
  fold_left (fun d x => dict_set (key x) (val x) d) l [].

(* ================================================================== *)
(** * Values, exceptions, outcomes *)

(** The values a parameter or a context entry holds. The spec's context maps to
    scalars; containers are outside the embedding. [VUndefined] is pydantic's
    [PydanticUndefined] marker, which [Parameter.v] tests for. *)
Inductive pyvalue : Type :=
| VNone
| VUndefined
| VBool (b : bool)
| VInt (z : Z)
| VFloat (bits : Z)
| VStr (s : string).

Definition is_none (v : pyvalue) : bool :=
  match v with VNone => true | _ => false end.

(** What [json.loads] returns, and so what [LLMStep.process] may return: a
    mapping, or a JSON value that is no object, known by the name of its
    Python type. *)
Inductive document : Type :=
| Mapping (items : list (string * pyvalue))
| NotMapping (type_name : string).

(** Instances of [Exception]. [ValueReferenceError] keeps its three attributes;
    any other exception is its class name and its message. *)
Inductive exn : Type :=
| ValueReferenceError (step_name incorrect_variable : string)
                      (available_variables : list string)
| PyError (cls msg : string).

(** [str(e)] *)
Definition str_exn (e : exn) : string :=
  match e with
  | ValueReferenceError step_name incorrect_variable available_variables =>
      "Value for " ++ step_name ++ "." ++ incorrect_variable ++ " not found, "
      ++ "available variables are: " ++ join ", " available_variables
  | PyError _ msg => msg
  end.

Inductive outcome (A : Type) : Type :=
| Ok (a : A)
| Raise (e : exn)
| OutOfFuel.
Arguments Ok {A} a.
Arguments Raise {A} e.
Arguments OutOfFuel {A}.

Definition bind {A B} (m : outcome A) (f : A -> outcome B) : outcome B :=
  match m with
  | Ok a => f a
  | Raise e => Raise e
  | OutOfFuel => OutOfFuel
  end.

Notation "x <- m ;; k" := (bind m (fun x => k))
  (at level 61, m at next level, right associativity).

(** What the embedding takes from the Python runtime and from the outside
    world: float conversions, [repr] of a string, the text pydantic gives a
    validation error, the LLM provider and [json.loads].  All but the provider
    are functions of Python itself.  The provider is a remote service called
    anew by every live run of an LLM step: [llm_qa] is what it replies in one
    environment, and a statement about two calls of [run] speaks of two
    environments that may differ in it ([same_but_provider]). *)
Record Runtime : Type := {
  float_of_int : Z -> option Z;          (* [float(n)], [None] on overflow *)
  float_of_str : string -> option Z;     (* [float(s)], [None] on ValueError *)
  float_str : Z -> string;               (* [str(x)] of a float *)
  float_eq_int : Z -> Z -> bool;         (* [x == n], a float against an int *)
  repr_str : string -> string;           (* [repr(s)] of a str *)
  validation_error_str : string -> string;
  llm_qa : pyvalue -> pyvalue -> pyvalue -> outcome string;
                                         (* [llm_qa(system_message, prompt, model)] *)
  json_loads : string -> option document  (* [None] on JSONDecodeError *)
}.

(** A runtime for the examples, none of which converts a float or reaches the
    provider: the conversions fail, a repr is the string between single quotes,
    a validation error reads as its inner message, the provider is down. *)
Definition example_runtime : Runtime :=
  {| float_of_int := fun _ => None;
     float_of_str := fun _ => None;
     float_str := fun _ => "";
     float_eq_int := fun _ _ => false;
     repr_str := fun s => "'" ++ s ++ "'";
     validation_error_str := fun msg => msg;
     llm_qa := fun _ _ _ => Raise (PyError "OpenAIError" "Connection error.");
     json_loads := fun _ => None |}.

(** A runtime whose provider answers every question with [reply]. *)
Definition answering_runtime (reply : string) : Runtime :=
  {| float_of_int := float_of_int example_runtime;
     float_of_str := float_of_str example_runtime;
     float_str := float_str example_runtime;
     float_eq_int := float_eq_int example_runtime;
     repr_str := repr_str example_runtime;
     validation_error_str := validation_error_str example_runtime;
     llm_qa := fun _ _ _ => Ok reply;
     json_loads := json_loads example_runtime |}.

(** A runtime whose provider answers every question with [reply], which
    [json.loads] reads as [parsed]. *)
Definition parsing_runtime (reply : string) (parsed : option document) : Runtime :=
  {| float_of_int := float_of_int example_runtime;
     float_of_str := float_of_str example_runtime;
     float_str := float_str example_runtime;
     float_eq_int := float_eq_int example_runtime;
     repr_str := repr_str example_runtime;
     validation_error_str := validation_error_str example_runtime;
     llm_qa := fun _ _ _ => Ok reply;
     json_loads := fun s => if String.eqb s reply then parsed else None |}.

(** The environment [rt] with another provider. *)
Definition with_provider (rt : Runtime)
    (provider : pyvalue -> pyvalue -> pyvalue -> outcome string) : Runtime :=
  {| float_of_int := float_of_int rt;
     float_of_str := float_of_str rt;
     float_str := float_str rt;
     float_eq_int := float_eq_int rt;
     repr_str := repr_str rt;
     validation_error_str := validation_error_str rt;
     llm_qa := provider;
     json_loads := json_loads rt |}.

(** Two environments that differ at most in what the provider replies. *)
Definition same_but_provider (rt rt' : Runtime) : Prop :=
  float_of_int rt = float_of_int rt' /\ float_of_str rt = float_of_str rt'
  /\ float_str rt = float_str rt' /\ float_eq_int rt = float_eq_int rt'
  /\ repr_str rt = repr_str rt'
  /\ validation_error_str rt = validation_error_str rt'
  /\ json_loads rt = json_loads rt'.

(** A float is falsy exactly when it is [0.0] or [-0.0]. *)
Definition float_truthy (bits : Z) : bool :=
  negb ((bits =? 0)%Z || (bits =? 2 ^ 63)%Z).

Definition float_one : Z := 4607182418800017408%Z.  (* 0x3FF0000000000000 *)


(** [==] on floats: a NaN equals nothing, the two zeros are equal. *)
Definition float_is_nan (bits : Z) : bool :=
  (9218868437227405312 <? bits mod 2 ^ 63)%Z.   (* 0x7FF0000000000000 *)

Definition float_eqb (a b : Z) : bool :=
  negb (float_is_nan a) && negb (float_is_nan b)
  && ((a =? b)%Z || (negb (float_truthy a) && negb (float_truthy b))).

(* ================================================================== *)
(** * [types.py]: enumerations and records

    [Parameter] is a reserved word of Rocq: the class is [Param] here. *)

Module WorkflowRunStatus.
Inductive t : Type := SUBMITTED | RUNNING | SUCCESS | FAILURE | CANCELLED.
End WorkflowRunStatus.

Module WorkflowStepStatus.
Inductive t : Type := SUCCESS | FAILURE.
Definition eqb (a b : t) : bool :=
  match a, b with
  | SUCCESS, SUCCESS | FAILURE, FAILURE => true
  | _, _ => false
  end.
End WorkflowStepStatus.

Inductive ParameterDataType : Type :=
| STRING | MARKDOWN | NUMBER | BOOLEAN | OBJECT | DATETIME | FILE | OPTION | OUTPUT.

Inductive FileTypes : Type := PDF | MP3 | PNG | ICS.

Inductive InputPermissionLevel : Type := READ_ONLY | READ_WRITE | NO_ACCESS.

Module Param.
Record t : Type := {
  name : string;
  data_type : ParameterDataType;
  value : pyvalue;
  optional : bool;
  default : pyvalue;
  description : option string;
  content_type : option FileTypes;
  choices : option (list string);
  invisible : bool;
  mention_data_only : bool
}.

(** [Parameter(name=..., data_type=...)] with every other field at its
    declared default. *)
Definition make (name : string) (data_type : ParameterDataType) : t :=
  {| name := name; data_type := data_type; value := VNone; optional := false;
     default := VNone; description := None; content_type := None;
     choices := None; invisible := false; mention_data_only := false |}.

(** The object with its [value] attribute rebound. *)
Definition with_value (p : t) (v : pyvalue) : t :=
  {| name := name p; data_type := data_type p; value := v;
     optional := optional p; default := default p;
     description := description p; content_type := content_type p;
     choices := choices p; invisible := invisible p;
     mention_data_only := mention_data_only p |}.
End Param.

Module InputParameter.
Record t : Type := {
  base : Param.t;
  user_permission : option InputPermissionLevel
}.

Definition with_value (p : t) (v : pyvalue) : t :=
  {| base := Param.with_value (base p) v;
     user_permission := user_permission p |}.
End InputParameter.

Module WorkflowStepResult.
Record t : Type := {
  step_name : string;
  step_type : string;
  status : WorkflowStepStatus.t;
  status_reason : option string;
  inputs : list Param.t;
  outputs : list Param.t
}.
End WorkflowStepResult.

Module WorkflowRunResult.
Record t : Type := {
  status : WorkflowRunStatus.t;
  result : list WorkflowStepResult.t
}.
End WorkflowRunResult.

Module ValidationError.
Record t : Type := {
  loc : option string;
  msg : string;
  type : string
}.
End ValidationError.

(* ================================================================== *)
(** * [steps/base.py], [workflowyaml.py]: step instances and definitions *)

(** The instance attributes of a step: [self.name], [self.context],
    [self.inputs], [self.outputs]. [context] is [None] when the constructor
    received no [context] keyword, in which case the attribute is [{}]. *)
Module Self.
Record t : Type := {
  name : string;
  context : option pyvalue;
  inputs : dict Param.t;
  outputs : dict Param.t
}.
End Self.

(** What the [output_names] argument of [BaseStep.__init__] may be bound to. *)
Inductive output_names_arg : Type :=
| NamesNone
| NamesList (l : list string)
| NamesRaw (v : pyvalue).

(** A subclass of [BaseStep]: its class attributes, what its constructor does
    with the keyword arguments before [BaseStep.__init__] runs, and its
    [process]. *)
Module StepClass.
Record t : Type := {
  __name__ : string;
  allow_dynamic_outputs : bool;
  registered_names : list string;
  input_parameters : list Param.t;
  output_parameters : list Param.t;
  description : string;
  required_integrations : list string;
  init_args : dict pyvalue -> outcome (output_names_arg * dict pyvalue);
  (* [self.process(dry_run=...)] and the [result.items()] that [run] starts
     with, which raises when the result is no mapping *)
  process : Self.t -> bool -> outcome (dict pyvalue)
}.
End StepClass.

Module BaseStep.
Record t : Type := {
  class : StepClass.t;
  self : Self.t
}.
End BaseStep.

Module WorkflowStep.
Record t : Type := {
  name : string;
  type : string;
  description : option string;
  inputs : dict pyvalue;
  skip_validation : bool;
  _step_class : option StepClass.t;
  _step : option BaseStep.t      (* [None]: the attribute is not set *)
}.
End WorkflowStep.

Module WorkflowDef.
Record t : Type := {
  name : string;
  description : option string;
  inputs : list InputParameter.t;
  steps : list WorkflowStep.t;
  layout_attributes : option (dict pyvalue);
  skip_validation : bool
}.
End WorkflowDef.

Section WithRuntime.

Variable rt : Runtime.

(** [str(v)] *)
Definition py_str (v : pyvalue) : string :=
  match v with
  | VNone => "None"
  | VUndefined => "PydanticUndefined"
  | VBool true => "True"
  | VBool false => "False"
  | VInt z => str_of_int z
  | VFloat f => float_str rt f
  | VStr s => s
  end.

(** [bool(v)] *)
Definition py_bool (v : pyvalue) : bool :=
  match v with
  | VNone => false
  | VUndefined => true
  | VBool b => b
  | VInt z => negb (z =? 0)%Z
  | VFloat f => float_truthy f
  | VStr s => negb (is_empty s)
  end.

(** [type(v).__name__] *)
Definition type_name (v : pyvalue) : string :=
  match v with
  | VNone => "NoneType"
  | VUndefined => "PydanticUndefinedType"
  | VBool _ => "bool"
  | VInt _ => "int"
  | VFloat _ => "float"
  | VStr _ => "str"
  end.

(** [float(v)] *)
Definition py_float (v : pyvalue) : outcome pyvalue :=
  match v with
  | VNone =>
      Raise (PyError "TypeError"
        "float() argument must be a string or a real number, not 'NoneType'")
  | VUndefined =>
      Raise (PyError "TypeError"
        "float() argument must be a string or a real number, not 'PydanticUndefinedType'")
  | VBool b => Ok (VFloat (if b then float_one else 0%Z))
  | VInt z =>
      match float_of_int rt z with
      | Some f => Ok (VFloat f)
      | None => Raise (PyError "OverflowError" "int too large to convert to float")
      end
  | VFloat f => Ok (VFloat f)
  | VStr s =>
      match float_of_str rt s with
      | Some f => Ok (VFloat f)
      | None =>
          Raise (PyError "ValueError"
            ("could not convert string to float: " ++ repr_str rt s))
      end
  end.

(** [context.get(key)]: [None] for a missing key. *)
Definition py_get (key : string) (context : dict pyvalue) : pyvalue :=
  match dict_get key context with
  | Some v => v
  | None => VNone
  end.

(* ================================================================== *)
(** * Variable resolution: [fill_value] *)

Record Match : Type := {
  group0 : string;   (* the whole token *)
  group1 : string;   (* step name *)
  group2 : string    (* parameter name *)
}.

(** A literal character of the pattern. *)
Definition expect (c : ascii) (s : string) : option string :=
  match s with
  | String d r => if Ascii.eqb d c then Some r else None
  | EmptyString => None
  end.

(** A match of
    [@{[\ ]*([a-zA-Z0-9_]+)[\ ]*\.[\ ]*([a-zA-Z0-9_]+)[\ ]*}]
    at the head of [s], read left to right. Spaces, word characters, the dot
    and the brace are pairwise disjoint, so each greedy run is forced and the
    match is unique. *)
Definition match_here (s : string) : option Match :=
  match expect "@" s with None => None | Some r =>
  match expect "{" r with None => None | Some r0 =>
  let (sp1, r1) := span is_space r0 in
  let (w1, r2) := span is_word r1 in
  if is_empty w1 then None else
  let (sp2, r3) := span is_space r2 in
  match expect "." r3 with None => None | Some r4 =>
  let (sp3, r5) := span is_space r4 in
  let (w2, r6) := span is_word r5 in
  if is_empty w2 then None else
  let (sp4, r7) := span is_space r6 in
  match expect "}" r7 with None => None | Some _ =>
  Some {| group0 := "@{" ++ sp1 ++ w1 ++ sp2 ++ "." ++ sp3 ++ w2 ++ sp4 ++ "}";
          group1 := w1;
          group2 := w2 |}
  end end end end.

(** [re.search]: the match at the leftmost position that has one. *)
Fixpoint re_search (s : string) : option Match :=
  match match_here s with
  | Some m => Some m
  | None =>
      match s with
      | EmptyString => None
      | String _ r => re_search r
      end
  end.

(** One turn of the [while True] loop. *)
Inductive turn : Type :=
| Break
| Fail (e : exn)
| Continue (value_str : string).

Definition fill_turn (value_str : string) (context : dict pyvalue)
    (current_step_name : string) : turn :=
  match re_search value_str with
  | None => Break
  | Some m =>
      let step_name := group1 m in
      let parameter_name := group2 m in
      let value := py_get (step_name ++ "." ++ parameter_name) context in
      if is_none value
      then Fail (ValueReferenceError current_step_name
                   (step_name ++ "." ++ parameter_name) (dict_keys context))
      else Continue (replace (group0 m) (py_str value) value_str)
  end.

Fixpoint fill_loop (fuel : nat) (value_str : string) (context : dict pyvalue)
    (current_step_name : string) : outcome string :=
  match fuel with
  | O => OutOfFuel
  | S fuel' =>
      match fill_turn value_str context current_step_name with
      | Break => Ok value_str
      | Fail e => Raise e
      | Continue value_str' => fill_loop fuel' value_str' context current_step_name
      end
  end.

Definition fill_value (fuel : nat) (v : pyvalue) (context : dict pyvalue)
    (current_step_name : string) : outcome pyvalue :=
  match v with
  | VStr value_str =>
      s <- fill_loop fuel value_str context current_step_name ;; Ok (VStr s)
  | _ => Ok v
  end.


(* ================================================================== *)
(** * [types.py]: the methods of [Parameter] *)

Definition is_undefined (v : pyvalue) : bool :=
  match v with VUndefined => true | _ => false end.

Definition is_str (v : pyvalue) : bool :=
  match v with VStr _ => true | _ => false end.

(** [a == b] *)
Definition py_eq (a b : pyvalue) : bool :=
  let as_int v :=
    match v with
    | VBool b => Some (if b then 1 else 0)%Z
    | VInt z => Some z
    | _ => None
    end in
  match a, b with
  | VNone, VNone => true
  | VUndefined, VUndefined => true
  | VStr s, VStr t => String.eqb s t
  | VFloat x, VFloat y => float_eqb x y
  | VFloat x, _ =>
      match as_int b with Some n => float_eq_int rt x n | None => false end
  | _, VFloat y =>
      match as_int a with Some n => float_eq_int rt y n | None => false end
  | _, _ =>
      match as_int a, as_int b with
      | Some m, Some n => (m =? n)%Z
      | _, _ => false
      end
  end.

(** [x in l] for a list of strings. *)
Definition py_in (x : pyvalue) (l : list string) : bool :=
  match x with
  | VStr s => existsb (String.eqb s) l
  | _ => false
  end.

(** [str(l)] of a list of strings. *)
Definition str_list (l : list string) : string :=
  "[" ++ join ", " (map (repr_str rt) l) ++ "]".

(** The property [Parameter.v]. *)
Definition Param_v (self : Param.t) : outcome pyvalue :=
  let v := Param.value self in
  let v := if is_none v then Param.default self else v in
  let v := if is_undefined v then VNone else v in
  match Param.data_type self with
  | STRING => Ok (VStr (py_str v))
  | NUMBER => if is_none v then Ok VNone else py_float v
  | BOOLEAN => Ok (VBool (py_bool v))
  | _ => Ok v
  end.

(** The three [model_validator(mode="after")]; each gives the message of the
    [ValueError] it raises, if any. *)
Definition check_content_type_for_file (obj : Param.t) : option string :=
  match Param.data_type obj, Param.content_type obj with
  | FILE, None => Some "Content type is required for file parameter"
  | _, _ => None
  end.

Definition check_choices_for_option (obj : Param.t) : option string :=
  match Param.data_type obj with
  | OPTION =>
      match Param.choices obj with
      | None | Some [] => Some "Choices are required for option parameter"
      | Some l =>
          if negb (is_none (Param.default obj)) && negb (py_in (Param.default obj) l)
          then Some ("Default value " ++ py_str (Param.default obj)
                     ++ " is not in the list of choices " ++ str_list l)
          else None
      end
  | _ => None
  end.

Definition check_value_for_option (obj : Param.t) : option string :=
  match Param.data_type obj, Param.choices obj with
  | OPTION, Some l =>
      if negb (is_none (Param.value obj)) && negb (py_in (Param.value obj) l)
      then Some ("Value " ++ py_str (Param.value obj)
                 ++ " is not in the list of choices " ++ str_list l)
      else None
  | _, _ => None
  end.

Definition model_validators (obj : Param.t) : outcome unit :=
  let fail msg := Raise (PyError "ValidationError" (validation_error_str rt msg)) in
  match check_content_type_for_file obj with
  | Some msg => fail msg
  | None =>
      match check_choices_for_option obj with
      | Some msg => fail msg
      | None =>
          match check_value_for_option obj with
          | Some msg => fail msg
          | None => Ok tt
          end
      end
  end.

(** [obj.value = v] under [validate_assignment=True]. The after-validators run
    on the object already updated, so the attribute is rebound even when one of
    them raises. *)
Definition set_value (obj : Param.t) (v : pyvalue) : Param.t * outcome unit :=
  let obj' := Param.with_value obj v in
  (obj', model_validators obj').

Definition get_dry_run_value (self : Param.t) : outcome pyvalue :=
  match Param.data_type self with
  | STRING => Ok (VStr "dummy")
  | NUMBER => Ok (VInt 0)
  | BOOLEAN => Ok (VBool false)
  | _ => Raise (PyError "AssertionError" "")
  end.

Definition value_validation (self : Param.t) : outcome (list string) :=
  let name := Param.name self in
  let value := Param.value self in
  let errors : list string :=
    if is_none value && negb (Param.optional self)
    then ["Parameter " ++ name ++ " is required"] else [] in
  if is_none value then Ok errors else
  match Param.data_type self with
  | STRING =>
      if negb (is_str value)
      then Ok (app errors ["Invalid data type for " ++ name ++ ": " ++ py_str value
                           ++ ", expected string, got " ++ type_name value])
      else Ok errors
  | NUMBER =>
      match value with
      | VBool _ | VInt _ | VFloat _ => Ok errors
      | _ =>
          match py_float value with
          | Ok _ => Ok errors
          | Raise (PyError "ValueError" _) =>
              Ok (app errors ["Invalid data type for " ++ name ++ ": " ++ py_str value
                              ++ ", expected number"])
          | Raise e => Raise e
          | OutOfFuel => OutOfFuel
          end
      end
  | BOOLEAN => Ok errors        (* [bool(value)] never raises *)
  | _ => Ok errors
  end.

(* ================================================================== *)
(** * [steps/base.py]: [BaseStep] *)

(** A loop over the entries of a dict that rebinds values and may raise. *)
Fixpoint for_items {V} (f : string -> V -> outcome V) (d : dict V) : outcome (dict V) :=
  match d with
  | [] => Ok []
  | (k, v) :: r =>
      v' <- f k v ;;
      r' <- for_items f r ;;
      Ok ((k, v') :: r')
  end.

(** [obj.value = v] where the object is dropped if the assignment raises. *)
Definition assign (obj : Param.t) (v : pyvalue) : outcome Param.t :=
  let (obj', o) := set_value obj v in
  _ <- o ;; Ok obj'.

Definition truthy_names (output_names : output_names_arg) : bool :=
  match output_names with
  | NamesNone => false
  | NamesList l => negb (match l with [] => true | _ => false end)
  | NamesRaw v => py_bool v
  end.

(** [for name in output_names] *)
Definition iter_names (output_names : output_names_arg) : outcome (list string) :=
  match output_names with
  | NamesNone => Raise (PyError "TypeError" "'NoneType' object is not iterable")
  | NamesList l => Ok l
  | NamesRaw (VStr s) => Ok (chars s)
  | NamesRaw v =>
      Raise (PyError "TypeError" ("'" ++ type_name v ++ "' object is not iterable"))
  end.

(** [BaseStep.__init__(self, name, output_names, **kwargs)] for an instance of
    class [cls]. *)
Definition BaseStep_init (cls : StepClass.t) (name : string)
    (output_names : output_names_arg) (kwargs : dict pyvalue) : outcome BaseStep.t :=
  let context := dict_get "context" kwargs in
  output_parameters <-
    (if StepClass.allow_dynamic_outputs cls && truthy_names output_names
     then names <- iter_names output_names ;;
          Ok (map (fun name => Param.make name STRING) names)
     else Ok (StepClass.output_parameters cls)) ;;
  let inputs := dict_of Param.name (fun k => k) (StepClass.input_parameters cls) in
  inputs <- for_items (fun _ p => assign p VNone) inputs ;;
  let outputs := dict_of Param.name (fun k => k) output_parameters in
  outputs <- for_items (fun _ p => assign p VNone) outputs ;;
  inputs <- for_items (fun k p =>
      match dict_get k kwargs with
      | Some v => assign p v
      | None =>
          if negb (Param.optional p)
          then Raise (PyError "ValueError" ("Missing required input parameter " ++ k))
          else if negb (is_none (Param.default p))
          then assign p (Param.default p)
          else Ok p
      end) inputs ;;
  _ <- for_items (fun k p =>
      if dict_has k outputs
      then Raise (PyError "ValueError" ("Duplicate parameter name " ++ k))
      else Ok p) inputs ;;
  Ok {| BaseStep.class := cls;
        BaseStep.self := {| Self.name := name; Self.context := context;
                            Self.inputs := inputs; Self.outputs := outputs |} |}.

(** [cls(name, **kwargs)] *)
Definition construct (cls : StepClass.t) (name : string) (kwargs : dict pyvalue)
    : outcome BaseStep.t :=
  a <- StepClass.init_args cls kwargs ;;
  BaseStep_init cls name (fst a) (snd a).

(** The first keyword of [cls(name, **kwargs)], in the order of [kwargs], that
    names a parameter the call has bound by position: [self] or [name]. *)
Definition bound_twice (kwargs : dict pyvalue) : option string :=
  find (fun k => String.eqb k "self" || String.eqb k "name") (dict_keys kwargs).

Definition multiple_values (qualname k : string) : exn :=
  PyError "TypeError"
    (qualname ++ ".__init__() got multiple values for argument '" ++ k ++ "'").

(** How Python binds [**kwargs] to [__init__(self, name, output_names=None, **kwargs)],
    the signature every class inherits unless it defines its own. *)
Definition inherited_init_args (qualname : string) (kwargs : dict pyvalue)
    : outcome (output_names_arg * dict pyvalue) :=
  match bound_twice kwargs with
  | Some k => Raise (multiple_values qualname k)
  | None =>
      match dict_get "output_names" kwargs with
      | Some v => Ok (NamesRaw v, dict_del "output_names" kwargs)
      | None => Ok (NamesNone, kwargs)
      end
  end.


(** [context.update(self.context)]; the attribute is [{}] unless a [context]
    keyword reached the constructor.  The keyword can only hold a scalar here,
    and a scalar is no mapping: the empty string is an empty sequence of
    pairs, any other scalar makes [update] raise.  The merge of a [context]
    mapping, which writes the keys of that mapping, is outside the values of
    the embedding. *)
Definition context_update (context : dict pyvalue) (other : option pyvalue)
    : outcome (dict pyvalue) :=
  match other with
  | None => Ok context
  | Some (VStr EmptyString) => Ok context
  | Some (VStr _) =>
      Raise (PyError "ValueError"
        "dictionary update sequence element #0 has length 1; 2 is required")
  | Some v =>
      Raise (PyError "TypeError" ("'" ++ type_name v ++ "' object is not iterable"))
  end.

(** [[p for p in d.values() if p.value is not None]] *)
Definition bound (d : dict Param.t) : list Param.t :=
  filter (fun p => negb (is_none (Param.value p))) (dict_values d).

(** The first loop of the [try] block: resolve each bound input against the
    context and publish it under ["<step>.<input>"]. *)
Fixpoint fill_inputs (fuel : nat) (name : string) (items : dict Param.t)
    (context : dict pyvalue) : (dict Param.t * dict pyvalue) * outcome unit :=
  match items with
  | [] => (([], context), Ok tt)
  | (k, v) :: rest =>
      if is_none (Param.value v)
      then let '((rest', context'), o) := fill_inputs fuel name rest context in
           (((k, v) :: rest', context'), o)
      else
        match fill_value fuel (Param.value v) context name with
        | Ok x =>
            let (v', o) := set_value v x in
            match o with
            | Ok _ =>
                let context1 := dict_set (name ++ "." ++ k) (Param.value v') context in
                let '((rest', context'), o') := fill_inputs fuel name rest context1 in
                (((k, v') :: rest', context'), o')
            | Raise e => (((k, v') :: rest, context), Raise e)
            | OutOfFuel => (((k, v') :: rest, context), OutOfFuel)
            end
        | Raise e => ((items, context), Raise e)
        | OutOfFuel => ((items, context), OutOfFuel)
        end
  end.

(** The second loop: bind each declared output that [process] returned and
    publish it; an undeclared key is only logged. *)
Fixpoint publish_outputs (name : string) (result : dict pyvalue)
    (outputs : dict Param.t) (context : dict pyvalue)
    : (dict Param.t * dict pyvalue) * outcome unit :=
  match result with
  | [] => ((outputs, context), Ok tt)
  | (k, v) :: rest =>
      match dict_get k outputs with
      | Some p =>
          let (p', o) := set_value p v in
          let outputs' := dict_set k p' outputs in
          match o with
          | Ok _ => publish_outputs name rest outputs'
                      (dict_set (name ++ "." ++ k) v context)
          | Raise e => ((outputs', context), Raise e)
          | OutOfFuel => ((outputs', context), OutOfFuel)
          end
      | None => publish_outputs name rest outputs context
      end
  end.

(** The third loop: a shallow copy of each declared output that was returned. *)
Fixpoint build_outputs (result : dict pyvalue) (outputs : dict Param.t)
    : outcome (list Param.t) :=
  match result with
  | [] => Ok []
  | (k, v) :: rest =>
      match dict_get k outputs with
      | Some p =>
          _p <- assign p v ;;
          _outputs <- build_outputs rest outputs ;;
          Ok (_p :: _outputs)
      | None => build_outputs rest outputs
      end
  end.

(** [result.items()], the first use [run] makes of what [process] returned. *)
Definition py_items (result : document) : outcome (dict pyvalue) :=
  match result with
  | Mapping items => Ok items
  | NotMapping type_name =>
      Raise (PyError "AttributeError"
               ("'" ++ type_name ++ "' object has no attribute 'items'"))
  end.

Definition with_inputs (s : Self.t) (inputs : dict Param.t) : Self.t :=
  {| Self.name := Self.name s; Self.context := Self.context s;
     Self.inputs := inputs; Self.outputs := Self.outputs s |}.

Definition with_outputs (s : Self.t) (outputs : dict Param.t) : Self.t :=
  {| Self.name := Self.name s; Self.context := Self.context s;
     Self.inputs := Self.inputs s; Self.outputs := outputs |}.

Definition with_self (step : BaseStep.t) (s : Self.t) : BaseStep.t :=
  {| BaseStep.class := BaseStep.class step; BaseStep.self := s |}.

(** The body of the [try] in [BaseStep.run], with the step and the context as
    it leaves them. *)
Definition try_body (fuel : nat) (step : BaseStep.t) (context : dict pyvalue)
    (dry_run : bool) : (BaseStep.t * dict pyvalue) * outcome WorkflowStepResult.t :=
  let cls := BaseStep.class step in
  let self := BaseStep.self step in
  let '((inputs, context1), o1) :=
    fill_inputs fuel (Self.name self) (Self.inputs self) context in
  let self1 := with_inputs self inputs in
  match o1 with
  | Raise e => ((with_self step self1, context1), Raise e)
  | OutOfFuel => ((with_self step self1, context1), OutOfFuel)
  | Ok _ =>
      match StepClass.process cls self1 dry_run with
      | Raise e => ((with_self step self1, context1), Raise e)
      | OutOfFuel => ((with_self step self1, context1), OutOfFuel)
      | Ok result =>
          let '((outputs, context2), o2) :=
            publish_outputs (Self.name self) result (Self.outputs self1) context1 in
          let self2 := with_outputs self1 outputs in
          ((with_self step self2, context2),
           _ <- o2 ;;
           _outputs <- build_outputs result outputs ;;
           Ok {| WorkflowStepResult.step_name := Self.name self;
                 WorkflowStepResult.step_type := StepClass.__name__ cls;
                 WorkflowStepResult.status := WorkflowStepStatus.SUCCESS;
                 WorkflowStepResult.status_reason := None;
                 WorkflowStepResult.inputs := bound inputs;
                 WorkflowStepResult.outputs := _outputs |})
      end
  end.

(** The result built in the [except] branch. *)
Definition failure_result (step : BaseStep.t) (e : exn) : WorkflowStepResult.t :=
  {| WorkflowStepResult.step_name := Self.name (BaseStep.self step);
     WorkflowStepResult.step_type := StepClass.__name__ (BaseStep.class step);
     WorkflowStepResult.status := WorkflowStepStatus.FAILURE;
     WorkflowStepResult.status_reason := None;
     WorkflowStepResult.inputs := bound (Self.inputs (BaseStep.self step));
     WorkflowStepResult.outputs :=
       [Param.with_value (Param.make "error" STRING) (VStr (str_exn e))] |}.

(** [BaseStep.run(self, context, dry_run=...)] *)
Definition BaseStep_run (fuel : nat) (step : BaseStep.t) (context : dict pyvalue)
    (dry_run : bool) : (BaseStep.t * dict pyvalue) * outcome WorkflowStepResult.t :=
  match context_update context (Self.context (BaseStep.self step)) with
  | Raise e => ((step, context), Raise e)
  | OutOfFuel => ((step, context), OutOfFuel)
  | Ok context0 =>
      let '((step', context'), o) := try_body fuel step context0 dry_run in
      match o with
      | Ok r => ((step', context'), Ok r)
      | Raise e =>
          if dry_run then ((step', context'), Raise e)
          else ((step', context'), Ok (failure_result step' e))
      | OutOfFuel => ((step', context'), OutOfFuel)
      end
  end.

(** The class [BaseStep] itself: [process] is not implemented. *)
Definition BaseStep_class : StepClass.t :=
  {| StepClass.__name__ := "BaseStep";
     StepClass.allow_dynamic_outputs := false;
     StepClass.registered_names := [];
     StepClass.input_parameters := [];
     StepClass.output_parameters := [];
     StepClass.description := "";
     StepClass.required_integrations := [];
     StepClass.init_args := inherited_init_args "BaseStep";
     StepClass.process := fun _ _ => Raise (PyError "NotImplementedError" "") |}.

(* ================================================================== *)
(** * [steps/dummy.py] *)

Definition DummyStep : StepClass.t :=
  {| StepClass.__name__ := "DummyStep";
     StepClass.allow_dynamic_outputs := false;
     StepClass.registered_names := ["dummy"];
     StepClass.input_parameters := [Param.make "input" STRING];
     StepClass.output_parameters := [Param.make "output" STRING];
     StepClass.description :=
       "This is a dummy step, which takes an input and returns the same as output."
       ++ "This is useful for testing purposes.";
     StepClass.required_integrations := [];
     StepClass.init_args := inherited_init_args "BaseStep";
     StepClass.process := fun self dry_run =>
       match dict_get "input" (Self.inputs self) with
       | None => Raise (PyError "KeyError" "'input'")
       | Some p =>
           let input_value := Param.value p in
           if is_none input_value
           then Raise (PyError "ValueError" "Input is not provided")
           else Ok [("output", input_value)]
       end |}.


(* ================================================================== *)
(** * [steps/llm.py] *)

(** [s.split(",")] *)
Fixpoint split_comma (s : string) : list string :=
  match s with
  | EmptyString => [EmptyString]
  | String c r =>
      if Ascii.eqb c ","%char then EmptyString :: split_comma r
      else match split_comma r with
           | [] => [String c EmptyString]
           | w :: ws => String c w :: ws
           end
  end.

Definition is_byte (c : ascii) (n : nat) : bool := (nat_of_ascii c =? n)%nat.

(** The two-byte encodings of the white space of [str.isspace]: U+0085 and
    U+00A0. *)
Definition is_whitespace2 (c1 c2 : ascii) : bool :=
  is_byte c1 194 && (is_byte c2 133 || is_byte c2 160).

(** Its three-byte encodings: U+1680, U+2000 to U+200A, U+2028, U+2029,
    U+202F, U+205F and U+3000. *)
Definition is_whitespace3 (c1 c2 c3 : ascii) : bool :=
  let n3 := nat_of_ascii c3 in
  (is_byte c1 225 && is_byte c2 154 && is_byte c3 128)
  || (is_byte c1 226 && is_byte c2 128
      && (((128 <=? n3) && (n3 <=? 138)) || (n3 =? 168) || (n3 =? 169)
          || (n3 =? 175))%nat)
  || (is_byte c1 226 && is_byte c2 129 && is_byte c3 159)
  || (is_byte c1 227 && is_byte c2 128 && is_byte c3 128).

(** [s.lstrip()]: the white space of [str.isspace], ASCII or not, is dropped
    code point by code point from the left. *)
Fixpoint lstrip (s : string) : string :=
  match s with
  | EmptyString => EmptyString
  | String c1 r1 =>
      if is_whitespace c1 then lstrip r1 else
      match r1 with
      | EmptyString => s
      | String c2 r2 =>
          if is_whitespace2 c1 c2 then lstrip r2 else
          match r2 with
          | EmptyString => s
          | String c3 r3 => if is_whitespace3 c1 c2 c3 then lstrip r3 else s
          end
      end
  end.

(** [s.rstrip()]: what is left of [s] once the white space that ends it is
    dropped.  No encoding of a white-space code point starts with a
    continuation byte, so a suffix that is all white space starts at a code
    point. *)
Fixpoint rstrip (s : string) : string :=
  match s with
  | EmptyString => EmptyString
  | String c r => if is_empty (lstrip s) then EmptyString else String c (rstrip r)
  end.

(** [s.strip()] *)
Definition strip (s : string) : string := rstrip (lstrip s).

Definition newline : string := String (ascii_of_nat 10) EmptyString.
Definition dquote : string := String (ascii_of_nat 34) EmptyString.

(** [LLMStep.__init__(self, name, **kwargs)] up to [super().__init__]. *)
Definition LLMStep_init_args (kwargs : dict pyvalue)
    : outcome (output_names_arg * dict pyvalue) :=
  match bound_twice kwargs with
  | Some k => Raise (multiple_values "LLMStep" k)
  | None =>
    match dict_get "output_names" kwargs with
    | Some v =>
        output_names <-
          (if py_bool v
           then match v with
                | VStr s => Ok (NamesList (map strip (split_comma s)))
                | _ => Raise (PyError "AttributeError"
                         ("'" ++ type_name v ++ "' object has no attribute 'split'"))
                end
           else Ok NamesNone) ;;
        Ok (output_names, dict_del "output_names" kwargs)
    | None => Ok (NamesNone, kwargs)
    end
  end.

(** [self.inputs[k].value] *)
Definition input_value (self : Self.t) (k : string) : outcome pyvalue :=
  match dict_get k (Self.inputs self) with
  | Some p => Ok (Param.value p)
  | None => Raise (PyError "KeyError" ("'" ++ k ++ "'"))
  end.

(** [self._get_completion(client, prompt, model)]; creating the client is part
    of the provider call. *)
Definition _get_completion (self : Self.t) (prompt model : pyvalue)
    : outcome string :=
  system_message <- input_value self "system_message" ;;
  llm_qa rt (if py_bool system_message then system_message else VStr "")
         prompt model.

Definition LLMStep_process (self : Self.t) (dry_run : bool) : outcome document :=
  prompt <- input_value self "prompt" ;;
  model <- input_value self "model" ;;
  if is_none prompt then Raise (PyError "ValueError" "Prompt is not provided") else
  if is_none model then Raise (PyError "ValueError" "Model is not provided") else
  let names := dict_keys (Self.outputs self) in
  if dry_run
  then Ok (Mapping (dict_of (fun name => name)
             (fun name => VStr ("This is the " ++ name ++ " of the LLM Dry Run")) names))
  else if (List.length names <=? 1)%nat
  then completion <- _get_completion self prompt model ;;
       Ok (Mapping [("result", VStr completion)])
  else
    let modified_prompt :=
      py_str prompt ++ newline ++ newline
      ++ "Please provide your response in JSON format with the following keys: "
      ++ join ", " names
      ++ "Important: Return only the JSON object, no markdown, no code blocks." in
    completion <- _get_completion self (VStr modified_prompt) model ;;
    match json_loads rt completion with
    | Some result => Ok result
    | None =>
        Ok (Mapping (dict_of (fun name => name) (fun _ => VStr completion) names))
    end.

Definition LLMStep : StepClass.t :=
  {| StepClass.__name__ := "LLMStep";
     StepClass.allow_dynamic_outputs := true;
     StepClass.registered_names := ["llm"];
     StepClass.input_parameters :=
       [ {| Param.name := "prompt"; Param.data_type := STRING; Param.value := VNone;
            Param.optional := false; Param.default := VNone;
            Param.description := Some "Default (content above), should be hidden";
            Param.content_type := None; Param.choices := None;
            Param.invisible := true; Param.mention_data_only := false |};
         {| Param.name := "model"; Param.data_type := OPTION; Param.value := VNone;
            Param.optional := false; Param.default := VStr "gpt-4o";
            Param.description := Some
              "Placeholder Selection (GPT, Claude, LLaMA), Selection (gpt-4o, gpt-4o-mini)";
            Param.content_type := None;
            Param.choices := Some ["gpt-4o"; "gpt-4o-mini"];
            Param.invisible := false; Param.mention_data_only := false |};
         {| Param.name := "chat_history"; Param.data_type := BOOLEAN;
            Param.value := VNone; Param.optional := true;
            Param.default := VBool false;
            Param.description := Some "Placeholder ON/OFF";
            Param.content_type := None; Param.choices := None;
            Param.invisible := false; Param.mention_data_only := false |};
         {| Param.name := "system_message"; Param.data_type := STRING;
            Param.value := VNone; Param.optional := true; Param.default := VStr "";
            Param.description := Some "Placeholder";
            Param.content_type := None; Param.choices := None;
            Param.invisible := false; Param.mention_data_only := false |};
         {| Param.name := "output_names"; Param.data_type := OUTPUT;
            Param.value := VNone; Param.optional := true; Param.default := VStr "";
            Param.description := Some
              ("Output Parameters: Comma-separated output names, e.g. "
               ++ dquote ++ "summary, keywords, sentiment" ++ dquote);
            Param.content_type := None; Param.choices := None;
            Param.invisible := false; Param.mention_data_only := false |} ];
     StepClass.output_parameters := [Param.make "result" STRING];
     StepClass.description := "Get the LLM";
     StepClass.required_integrations := [];
     StepClass.init_args := LLMStep_init_args;
     StepClass.process := fun self dry_run =>
       result <- LLMStep_process self dry_run ;; py_items result |}.

(* ================================================================== *)
(** * [steps/__init__.py]: the registry *)

Definition active_steps : list StepClass.t := [DummyStep; LLMStep].

Definition registered_steps : dict StepClass.t :=
  fold_left
    (fun d step_class =>
       fold_left (fun d step_name => dict_set step_name step_class d)
                 (StepClass.registered_names step_class) d)
    active_steps [].

(** [run_step(step_name, step_type, parameters, context, dry_run)]; it gives
    the context as the call leaves it next to the outcome. *)
Definition run_step (fuel : nat) (step_name step_type : string)
    (parameters : dict pyvalue) (context : dict pyvalue) (dry_run : bool)
    : dict pyvalue * outcome WorkflowStepResult.t :=
  match dict_get step_type registered_steps with
  | None => (context, Raise (PyError "ValueError" ("Unknown step type: " ++ step_type)))
  | Some step_class =>
      match construct step_class step_name parameters with
      | Ok step =>
          let '((_, context'), o) := BaseStep_run fuel step context dry_run in
          (context', o)
      | Raise e => (context, Raise e)
      | OutOfFuel => (context, OutOfFuel)
      end
  end.

(* ================================================================== *)
(** * [workflowyaml.py]: [WorkflowStep] *)

Definition with_step (self : WorkflowStep.t) (_step_class : option StepClass.t)
    (_step : option BaseStep.t) : WorkflowStep.t :=
  {| WorkflowStep.name := WorkflowStep.name self;
     WorkflowStep.type := WorkflowStep.type self;
     WorkflowStep.description := WorkflowStep.description self;
     WorkflowStep.inputs := WorkflowStep.inputs self;
     WorkflowStep.skip_validation := WorkflowStep.skip_validation self;
     WorkflowStep._step_class := _step_class;
     WorkflowStep._step := _step |}.

(** [WorkflowStep.init_input] *)
Definition init_input (self : WorkflowStep.t) : WorkflowStep.t * outcome unit :=
  let _step_class := dict_get (WorkflowStep.type self) registered_steps in
  match _step_class with
  | Some cls =>
      match construct cls (WorkflowStep.name self) (WorkflowStep.inputs self) with
      | Ok b => (with_step self _step_class (Some b), Ok tt)
      | Raise e => (with_step self _step_class (WorkflowStep._step self), Raise e)
      | OutOfFuel => (with_step self _step_class (WorkflowStep._step self), OutOfFuel)
      end
  | None => (with_step self _step_class (WorkflowStep._step self), Ok tt)
  end.

(** [WorkflowStep.run]; reading an attribute that was never set raises. *)
Definition WorkflowStep_run (fuel : nat) (self : WorkflowStep.t)
    (context : dict pyvalue) (dry_run : bool)
    : (WorkflowStep.t * dict pyvalue) * outcome WorkflowStepResult.t :=
  match WorkflowStep._step self with
  | None =>
      ((self, context),
       Raise (PyError "AttributeError"
                "'WorkflowStep' object has no attribute '_step'"))
  | Some b =>
      let '((b', context'), o) := BaseStep_run fuel b context dry_run in
      ((with_step self (WorkflowStep._step_class self) (Some b'), context'), o)
  end.


(** [WorkflowStep(name=..., type=..., inputs=..., skip_validation=...)]: the
    field validators for [name] and [type], the model validator
    [validate_input], then [init_input] unless validation is skipped. Of
    several rejected fields the first one is reported. *)
Definition custom_error (msg : string) : exn :=
  PyError "ValidationError" (validation_error_str rt msg).

Definition validate_name (v : string) : outcome string :=
  if String.eqb v "input"
  then Raise (custom_error ("Step type `" ++ v ++ "` cannot be used. "
                ++ "It is a reserved keyword for workflow inputs"))
  else Ok v.

Definition validate_type (v : string) : outcome string :=
  if dict_has v registered_steps then Ok v
  else Raise (custom_error ("Step type " ++ v ++ " not found")).

Definition validate_input (self : WorkflowStep.t) : outcome unit :=
  let step_input := WorkflowStep.inputs self in
  if WorkflowStep.skip_validation self then Ok tt else
  match dict_get (WorkflowStep.type self) registered_steps with
  | None =>
      Raise (custom_error ("Step type `" ++ WorkflowStep.type self ++ "` not found"))
  | Some step_class =>
      match find (fun _input => negb (dict_has (Param.name _input) step_input)
                                && negb (Param.optional _input))
                 (StepClass.input_parameters step_class) with
      | Some _input =>
          Raise (custom_error ("Step input value `" ++ Param.name _input
                               ++ "` required"))
      | None =>
          let necessary_inputs :=
            map Param.name (StepClass.input_parameters step_class) in
          let extra_inputs :=
            filter (fun k => negb (existsb (String.eqb k) necessary_inputs))
                   (dict_keys step_input) in
          match extra_inputs with
          | [] => Ok tt
          | _ => Raise (custom_error ("Extra input fields `"
                          ++ join ", " extra_inputs ++ "` found"))
          end
      end
  end.

Definition WorkflowStep_new (name type : string) (description : option string)
    (inputs : dict pyvalue) (skip_validation : bool) : outcome WorkflowStep.t :=
  name <- validate_name name ;;
  type <- validate_type type ;;
  let self :=
    {| WorkflowStep.name := name; WorkflowStep.type := type;
       WorkflowStep.description := description; WorkflowStep.inputs := inputs;
       WorkflowStep.skip_validation := skip_validation;
       WorkflowStep._step_class := None; WorkflowStep._step := None |} in
  _ <- validate_input self ;;
  if skip_validation then Ok self
  else let (self', o) := init_input self in _ <- o ;; Ok self'.

(* ================================================================== *)
(** * [workflowyaml.py]: [WorkflowDef] *)

Definition with_state (self : WorkflowDef.t) (inputs : list InputParameter.t)
    (steps : list WorkflowStep.t) : WorkflowDef.t :=
  {| WorkflowDef.name := WorkflowDef.name self;
     WorkflowDef.description := WorkflowDef.description self;
     WorkflowDef.inputs := inputs;
     WorkflowDef.steps := steps;
     WorkflowDef.layout_attributes := WorkflowDef.layout_attributes self;
     WorkflowDef.skip_validation := WorkflowDef.skip_validation self |}.

Definition input_name (_param : InputParameter.t) : string :=
  Param.name (InputParameter.base _param).

(** [run_inputs.get(_param.name, _param.default)] *)
Definition get_or_default (run_inputs : dict pyvalue) (_param : InputParameter.t)
    : pyvalue :=
  match dict_get (input_name _param) run_inputs with
  | Some v => v
  | None => Param.default (InputParameter.base _param)
  end.

(** The dry-run loop of [run]: every input's placeholder is stored in the
    caller's dictionary. *)
Fixpoint seed_dry_run (inputs : list InputParameter.t) (run_inputs : dict pyvalue)
    : dict pyvalue * outcome unit :=
  match inputs with
  | [] => (run_inputs, Ok tt)
  | _param :: rest =>
      match get_dry_run_value (InputParameter.base _param) with
      | Ok v => seed_dry_run rest (dict_set (input_name _param) v run_inputs)
      | Raise e => (run_inputs, Raise e)
      | OutOfFuel => (run_inputs, OutOfFuel)
      end
  end.

(** The validation loop of [run]; it rebinds [_param.value] on the definition's
    own input objects and collects the messages. *)
Fixpoint bind_inputs (inputs : list InputParameter.t) (run_inputs : dict pyvalue)
    (_input_errors : list string)
    : list InputParameter.t * outcome (list string) :=
  match inputs with
  | [] => ([], Ok _input_errors)
  | _param :: rest =>
      let (base', o) :=
        set_value (InputParameter.base _param) (get_or_default run_inputs _param) in
      let _param' :=
        {| InputParameter.base := base';
           InputParameter.user_permission := InputParameter.user_permission _param |} in
      match o with
      | Raise e => (_param' :: rest, Raise e)
      | OutOfFuel => (_param' :: rest, OutOfFuel)
      | Ok _ =>
          let errs1 :=
            if is_none (Param.value base') && negb (Param.optional base')
            then app _input_errors ["Parameter " ++ Param.name base' ++ " is required"]
            else _input_errors in
          match value_validation base' with
          | Raise e => (_param' :: rest, Raise e)
          | OutOfFuel => (_param' :: rest, OutOfFuel)
          | Ok errors =>
              let errs2 :=
                match errors with
                | [] => errs1
                | _ => app errs1 ["Invalid input value for " ++ Param.name base'
                                  ++ ": " ++ str_list errors]
                end in
              let (rest', o') := bind_inputs rest run_inputs errs2 in
              (_param' :: rest', o')
          end
      end
  end.

(** The synthetic result [run] returns when an input is rejected. *)
Definition input_failure (_input_errors : list string) : WorkflowRunResult.t :=
  {| WorkflowRunResult.status := WorkflowRunStatus.FAILURE;
     WorkflowRunResult.result :=
       [ {| WorkflowStepResult.step_name := "input";
            WorkflowStepResult.step_type := "input";
            WorkflowStepResult.status := WorkflowStepStatus.FAILURE;
            WorkflowStepResult.status_reason := Some (join "; " _input_errors);
            WorkflowStepResult.inputs := [];
            WorkflowStepResult.outputs := [] |} ] |}.

(** The loop over [self.steps]: re-initialise, run, record, note a failure. *)
Fixpoint run_steps (fuel : nat) (dry_run : bool) (steps : list WorkflowStep.t)
    (context : dict pyvalue) (status : WorkflowRunStatus.t)
    (result : list WorkflowStepResult.t)
    : (list WorkflowStep.t * dict pyvalue)
      * outcome (WorkflowRunStatus.t * list WorkflowStepResult.t) :=
  match steps with
  | [] => (([], context), Ok (status, result))
  | step :: rest =>
      let (step1, o1) := init_input step in
      match o1 with
      | Raise e => ((step1 :: rest, context), Raise e)
      | OutOfFuel => ((step1 :: rest, context), OutOfFuel)
      | Ok _ =>
          let '((step2, context'), o2) := WorkflowStep_run fuel step1 context dry_run in
          match o2 with
          | Raise e => ((step2 :: rest, context'), Raise e)
          | OutOfFuel => ((step2 :: rest, context'), OutOfFuel)
          | Ok step_result =>
              let status' :=
                if WorkflowStepStatus.eqb (WorkflowStepResult.status step_result)
                                          WorkflowStepStatus.FAILURE
                then WorkflowRunStatus.FAILURE else status in
              let '((rest', context''), o) :=
                run_steps fuel dry_run rest context' status'
                          (app result [step_result]) in
              ((step2 :: rest', context''), o)
          end
      end
  end.

(** [WorkflowDef.run(self, run_inputs, dry_run=...)]. Next to the outcome it
    gives the definition as the call leaves it and the dictionary the call
    worked on, which is the caller's own object when one was passed. *)
Definition run (fuel : nat) (self : WorkflowDef.t) (run_inputs : option (dict pyvalue))
    (dry_run : bool) : (WorkflowDef.t * dict pyvalue) * outcome WorkflowRunResult.t :=
  let run_inputs := match run_inputs with Some d => d | None => [] end in
  let (run_inputs, o0) :=
    if dry_run then seed_dry_run (WorkflowDef.inputs self) run_inputs
    else (run_inputs, Ok tt) in
  match o0 with
  | Raise e => ((self, run_inputs), Raise e)
  | OutOfFuel => ((self, run_inputs), OutOfFuel)
  | Ok _ =>
      let (inputs, o1) := bind_inputs (WorkflowDef.inputs self) run_inputs [] in
      match o1 with
      | Raise e => ((with_state self inputs (WorkflowDef.steps self), run_inputs), Raise e)
      | OutOfFuel =>
          ((with_state self inputs (WorkflowDef.steps self), run_inputs), OutOfFuel)
      | Ok ((_ :: _) as _input_errors) =>
          ((with_state self inputs (WorkflowDef.steps self), run_inputs),
           Ok (input_failure _input_errors))
      | Ok [] =>
          let context :=
            dict_of (fun _param => "input." ++ input_name _param)
                    (fun _param => Param.value (InputParameter.base _param)) inputs in
          let '((steps, _), o) :=
            run_steps fuel dry_run (WorkflowDef.steps self) context
                      WorkflowRunStatus.SUCCESS [] in
          ((with_state self inputs steps, run_inputs),
           r <- o ;;
           Ok {| WorkflowRunResult.status := fst r;
                 WorkflowRunResult.result := snd r |})
      end
  end.

(** [_param.user_permission != "READ_WRITE"] *)
Definition not_read_write (p : option InputPermissionLevel) : bool :=
  match p with Some READ_WRITE => false | _ => true end.

(** [WorkflowDef.validate_inputs(self, inputs)] *)
Fixpoint validate_inputs_loop (params : list InputParameter.t) (inputs : dict pyvalue)
    (errors : list ValidationError.t)
    : list InputParameter.t * outcome (list ValidationError.t) :=
  match params with
  | [] => ([], Ok errors)
  | _param :: rest =>
      let (base', o) :=
        set_value (InputParameter.base _param) (get_or_default inputs _param) in
      let _param' :=
        {| InputParameter.base := base';
           InputParameter.user_permission := InputParameter.user_permission _param |} in
      let error type msg :=
        {| ValidationError.loc := Some (Param.name base');
           ValidationError.msg := msg; ValidationError.type := type |} in
      let continue errors' :=
        let (rest', o') := validate_inputs_loop rest inputs errors' in
        (_param' :: rest', o') in
      match o with
      | Raise e => (_param' :: rest, Raise e)
      | OutOfFuel => (_param' :: rest, OutOfFuel)
      | Ok _ =>
          if not_read_write (InputParameter.user_permission _param)
             && negb (py_eq (Param.value base') (Param.default base'))
          then continue (app errors
                 [error "immutable_workflow_input" "Parameter is immutable"])
          else if is_none (Param.value base') && negb (Param.optional base')
          then continue (app errors
                 [error "missing_workflow_input" "Parameter is required"])
          else
            match value_validation base' with
            | Raise e => (_param' :: rest, Raise e)
            | OutOfFuel => (_param' :: rest, OutOfFuel)
            | Ok [] => continue errors
            | Ok _errors =>
                continue (app errors
                  [error "invalid_workflow_input" (str_list _errors)])
            end
      end
  end.

Definition validate_inputs (self : WorkflowDef.t) (inputs : dict pyvalue)
    : WorkflowDef.t * outcome (list ValidationError.t) :=
  let (params, o) := validate_inputs_loop (WorkflowDef.inputs self) inputs [] in
  (with_state self params (WorkflowDef.steps self), o).


(** [WorkflowDef.validate_dry_run], the model validator that ends the
    construction of a definition. *)
Definition validate_dry_run (fuel : nat) (self : WorkflowDef.t)
    : WorkflowDef.t * outcome unit :=
  if WorkflowDef.skip_validation self then (self, Ok tt) else
  let '((self', _), o) := run fuel self None true in
  (self',
   match o with
   | Ok _ => Ok tt
   | Raise (ValueReferenceError step_name incorrect_variable available_variables) =>
       Raise (custom_error
         ("Step " ++ step_name ++ " has incorrect variable reference `"
          ++ incorrect_variable ++ "`. Available variables: "
          ++ str_list available_variables))
   | Raise e =>
       Raise (custom_error ("Error running workflow in dry run mode: " ++ str_exn e))
   | OutOfFuel => OutOfFuel
   end).

(* ================================================================== *)
(** * Notions the statements use *)

(** A name of the reference grammar: [[a-zA-Z0-9_]+]. *)
Definition is_name (w : string) : Prop := w <> EmptyString /\ all_chars is_word w = true.

(** [tok] is a reference token [@{ step_name . parameter_name }] whose padding
    is drawn from the characters [ws] accepts. *)
Definition reference_token (ws : ascii -> bool) (tok step_name parameter_name : string)
    : Prop :=
  exists sp1 sp2 sp3 sp4 : string,
    all_chars ws sp1 = true /\ all_chars ws sp2 = true /\
    all_chars ws sp3 = true /\ all_chars ws sp4 = true /\
    is_name step_name /\ is_name parameter_name /\
    tok = "@{" ++ sp1 ++ step_name ++ sp2 ++ "." ++ sp3 ++ parameter_name ++ sp4 ++ "}".

(** [b] does not start with a character of the class [p]: where a greedy run
    of [p] ends. *)
Definition stops (p : ascii -> bool) (b : string) : Prop :=
  match b with
  | EmptyString => True
  | String c _ => p c = false
  end.

(** One turn of the loop as the specification words it: a key that is present
    is substituted, a key that is absent fails. *)
Definition fill_turn_spec (value_str : string) (context : dict pyvalue)
    (current_step_name : string) : turn :=
  match re_search value_str with
  | None => Break
  | Some m =>
      let key := group1 m ++ "." ++ group2 m in
      match dict_get key context with
      | Some value => Continue (replace (group0 m) (py_str value) value_str)
      | None => Fail (ValueReferenceError current_step_name key (dict_keys context))
      end
  end.

(** No value of the context prints with an at-sign, so that a substitution
    cannot bring in a new reference. *)
Definition at_free (context : dict pyvalue) : Prop :=
  forall (k : string) (v : pyvalue),
    dict_get k context = Some v -> count_char "@" (py_str v) = 0.

(** A token padded with a tab. *)
Definition tab_token : string := "@{" ++ String (ascii_of_nat 9) "a.b}".

(** [Parameter.v] as the specification words it: the value if set, else the
    default; stringified for STRING, parsed to a float for NUMBER, truth-cast
    for BOOLEAN, as it is for any other type. *)
Definition v_spec (self : Param.t) : outcome pyvalue :=
  let v := if is_none (Param.value self) then Param.default self
           else Param.value self in
  match Param.data_type self with
  | STRING => Ok (VStr (py_str v))
  | NUMBER => py_float v
  | BOOLEAN => Ok (VBool (py_bool v))
  | _ => Ok v
  end.

(** The value [Parameter.v] starts from. *)
Definition resolved (self : Param.t) : pyvalue :=
  if is_none (Param.value self) then Param.default self else Param.value self.

(** A workflow definition as the constructor leaves it, before any run. *)
Definition new_step (name type : string) (inputs : dict pyvalue) : WorkflowStep.t :=
  {| WorkflowStep.name := name; WorkflowStep.type := type;
     WorkflowStep.description := None; WorkflowStep.inputs := inputs;
     WorkflowStep.skip_validation := false;
     WorkflowStep._step_class := None; WorkflowStep._step := None |}.

Definition new_workflow (name : string) (inputs : list InputParameter.t)
    (steps : list WorkflowStep.t) : WorkflowDef.t :=
  {| WorkflowDef.name := name; WorkflowDef.description := None;
     WorkflowDef.inputs := inputs; WorkflowDef.steps := steps;
     WorkflowDef.layout_attributes := None;
     WorkflowDef.skip_validation := false |}.

(** The workflow of the round-trip property, for any names. *)
Definition hello_workflow (name step_name : string) : WorkflowDef.t :=
  new_workflow name [] [new_step step_name "dummy" [("input", VStr "Hello, World!")]].

(** A read-only input with default ["x"], echoed by a dummy step. *)
Definition read_only_input : InputParameter.t :=
  {| InputParameter.base :=
       {| Param.name := "p"; Param.data_type := STRING; Param.value := VNone;
          Param.optional := false; Param.default := VStr "x";
          Param.description := None; Param.content_type := None;
          Param.choices := None; Param.invisible := false;
          Param.mention_data_only := false |};
     InputParameter.user_permission := Some READ_ONLY |}.

Definition read_only_workflow : WorkflowDef.t :=
  new_workflow "w" [read_only_input]
    [new_step "echo" "dummy" [("input", VStr "@{input.p}")]].

(** Two definitions that differ at most in the permissions of their inputs. *)
Definition same_but_permissions (w w' : WorkflowDef.t) : Prop :=
  map InputParameter.base (WorkflowDef.inputs w)
  = map InputParameter.base (WorkflowDef.inputs w')
  /\ WorkflowDef.steps w = WorkflowDef.steps w'.

(** A step of an unregistered type has no bound instance: [validate_type]
    admits no such step, and [init_input] is the only writer of [_step]. *)
Definition consistent (step : WorkflowStep.t) : Prop :=
  dict_get (WorkflowStep.type step) registered_steps = None ->
  WorkflowStep._step step = None.

(** Two parameters that differ at most in the bound [value]. *)
Definition param_alike (p q : Param.t) : Prop :=
  forall v, Param.with_value p v = Param.with_value q v.

Definition input_alike (p q : InputParameter.t) : Prop :=
  param_alike (InputParameter.base p) (InputParameter.base q)
  /\ InputParameter.user_permission p = InputParameter.user_permission q.

(** Two steps that differ at most in what [init_input] binds. *)
Definition step_alike (s t : WorkflowStep.t) : Prop :=
  forall c b, with_step s c b = with_step t c b.

(** Two states of one definition: the same configuration, whatever the values
    and instances bound by earlier runs. *)
Definition alike (w w' : WorkflowDef.t) : Prop :=
  Forall2 input_alike (WorkflowDef.inputs w) (WorkflowDef.inputs w')
  /\ Forall2 step_alike (WorkflowDef.steps w) (WorkflowDef.steps w')
  /\ forall i st, with_state w i st = with_state w' i st.

Definition well_formed (w : WorkflowDef.t) : Prop :=
  Forall consistent (WorkflowDef.steps w).

Definition failed (r : WorkflowStepResult.t) : Prop :=
  WorkflowStepResult.status r = WorkflowStepStatus.FAILURE.

(** The data types [get_dry_run_value] has a placeholder for. *)
Definition has_placeholder (_param : InputParameter.t) : Prop :=
  exists v, get_dry_run_value (InputParameter.base _param) = Ok v.

(** The placeholder itself, None where there is none. *)
Definition placeholder (_param : InputParameter.t) : pyvalue :=
  match get_dry_run_value (InputParameter.base _param) with
  | Ok v => v
  | _ => VNone
  end.

(** What the dry-run loop stores, one entry after the other. *)
Definition seeded (inputs : list InputParameter.t) (run_inputs : dict pyvalue)
    : dict pyvalue :=
  fold_left (fun d _param => dict_set (input_name _param) (placeholder _param) d)
            inputs run_inputs.

(** The parameter named [error] of a failed step. *)
Definition error_parameter (e : exn) : Param.t :=
  Param.with_value (Param.make "error" STRING) (VStr (str_exn e)).


(** A context whose only entry maps to None. *)
Definition none_context : dict pyvalue := [("a.b", VNone)].

(** The result of a dummy step called [name] whose input resolved to [x]. *)
Definition echo_result (name : string) (x : pyvalue) : WorkflowStepResult.t :=
  {| WorkflowStepResult.step_name := name;
     WorkflowStepResult.step_type := "DummyStep";
     WorkflowStepResult.status := WorkflowStepStatus.SUCCESS;
     WorkflowStepResult.status_reason := None;
     WorkflowStepResult.inputs := [Param.with_value (Param.make "input" STRING) x];
     WorkflowStepResult.outputs := [Param.with_value (Param.make "output" STRING) x] |}.

(** The context after that step. *)
Definition echo_context (name : string) (x : pyvalue) (context : dict pyvalue)
    : dict pyvalue :=
  dict_set (name ++ ".output") x (dict_set (name ++ ".input") x context).

(** Two dummy steps, the second of which takes the output of the first. *)
Definition chained_workflow (name step1 step2 input : string) : WorkflowDef.t :=
  new_workflow name []
    [ new_step step1 "dummy" [("input", VStr input)];
      new_step step2 "dummy" [("input", VStr ("@{" ++ step1 ++ ".output}"))] ].

(** The two messages [run] records for a required input left without value. *)
Definition required_message (name : string) : string :=
  "Parameter " ++ name ++ " is required".

Definition invalid_message (name : string) (errors : list string) : string :=
  "Invalid input value for " ++ name ++ ": " ++ str_list errors.

(** The error [validate_inputs] records for an overridden input that is not
    READ_WRITE. *)
Definition immutable_error (name : string) : ValidationError.t :=
  {| ValidationError.loc := Some name;
     ValidationError.msg := "Parameter is immutable";
     ValidationError.type := "immutable_workflow_input" |}.

(** The input is not READ_WRITE and the value it would be given differs from
    its default. *)
Definition overridden (inputs : dict pyvalue) (_param : InputParameter.t) : bool :=
  not_read_write (InputParameter.user_permission _param)
  && negb (py_eq (get_or_default inputs _param)
                 (Param.default (InputParameter.base _param))).

Definition succeeded (r : WorkflowStepResult.t) : Prop :=
  WorkflowStepResult.status r = WorkflowStepStatus.SUCCESS.

(** Two dummy steps, the second of which refers to a parameter [w] of the
    first. *)
Definition referring_workflow (name step1 step2 input w : string) : WorkflowDef.t :=
  new_workflow name []
    [ new_step step1 "dummy" [("input", VStr input)];
      new_step step2 "dummy" [("input", VStr ("@{" ++ step1 ++ "." ++ w ++ "}"))] ].

(** The result of a dummy step called [name] whose input [v] did not resolve. *)
Definition unresolved_result (name : string) (v : pyvalue) (e : exn)
    : WorkflowStepResult.t :=
  {| WorkflowStepResult.step_name := name;
     WorkflowStepResult.step_type := "DummyStep";
     WorkflowStepResult.status := WorkflowStepStatus.FAILURE;
     WorkflowStepResult.status_reason := None;
     WorkflowStepResult.inputs := [Param.with_value (Param.make "input" STRING) v];
     WorkflowStepResult.outputs := [error_parameter e] |}.

(** The keyword arguments of an LLM step with a prompt, the default model and
    a text of output names. *)
Definition llm_kwargs (prompt output_names : string) : dict pyvalue :=
  [("prompt", VStr prompt); ("model", VStr "gpt-4o");
   ("output_names", VStr output_names)].

(** U+00A0, the no-break space, in UTF-8. *)
Definition no_break_space : string :=
  String (ascii_of_nat 194) (String (ascii_of_nat 160) EmptyString).

(** The names an LLM step is not free to give a single dynamic output, if the
    reply is to be lost: those of its inputs, and [result]. *)
Definition llm_taken_names : list string :=
  ["prompt"; "model"; "chat_history"; "system_message"; "output_names"; "result"].

(** The placeholder [LLMStep.process] returns for an output in a dry run. *)
Definition llm_placeholder (name : string) : pyvalue :=
  VStr ("This is the " ++ name ++ " of the LLM Dry Run").

(** The names of the inputs of an LLM step. *)
Definition llm_input_names : list string :=
  ["prompt"; "model"; "chat_history"; "system_message"; "output_names"].

(** The prompt [LLMStep.process] sends when the step has several outputs. *)
Definition llm_json_prompt (prompt : string) (names : list string) : string :=
  prompt ++ newline ++ newline
  ++ "Please provide your response in JSON format with the following keys: "
  ++ join ", " names
  ++ "Important: Return only the JSON object, no markdown, no code blocks.".


(** The instance [LLMStep(name, prompt=prompt, output_names=output)] for a
    single output name. *)
Definition llm_instance (name prompt output : string) : BaseStep.t :=
  {| BaseStep.class := LLMStep;
     BaseStep.self :=
       {| Self.name := name; Self.context := None;
          Self.inputs :=
            dict_of Param.name
              (fun p => Param.with_value p
                          (if String.eqb (Param.name p) "prompt" then VStr prompt
                           else Param.default p))
              (StepClass.input_parameters LLMStep);
          Self.outputs := [(output, Param.make output STRING)] |} |}.

(** The type of the step is the registered name of a step class. *)
Definition registered (step : WorkflowStep.t) : Prop :=
  dict_has (WorkflowStep.type step) registered_steps = true.

(** No step of the definition is an LLM step. *)
Definition provider_free (w : WorkflowDef.t) : Prop :=
  Forall (fun step => WorkflowStep.type step <> "llm") (WorkflowDef.steps w).

(** The loop of [run] as [run_step] would do it: each step is run from its
    name, its type and its declared inputs, on an instance built for the
    occasion. *)
Fixpoint steps_by_run_step (fuel : nat) (dry_run : bool)
    (steps : list WorkflowStep.t) (context : dict pyvalue)
    (status : WorkflowRunStatus.t) (result : list WorkflowStepResult.t)
    : outcome (WorkflowRunStatus.t * list WorkflowStepResult.t) :=
  match steps with
  | [] => Ok (status, result)
  | step :: rest =>
      match run_step fuel (WorkflowStep.name step) (WorkflowStep.type step)
              (WorkflowStep.inputs step) context dry_run with
      | (context', Ok step_result) =>
          steps_by_run_step fuel dry_run rest context'
            (if WorkflowStepStatus.eqb (WorkflowStepResult.status step_result)
                                       WorkflowStepStatus.FAILURE
             then WorkflowRunStatus.FAILURE else status)
            (app result [step_result])
      | (_, Raise e) => Raise e
      | (_, OutOfFuel) => OutOfFuel
      end
  end.

(** A definition with a single LLM step. *)
Definition ask_workflow : WorkflowDef.t :=
  new_workflow "w" []
    [new_step "ask" "llm"
       [("prompt", VStr "Capital of France?"); ("model", VStr "gpt-4o")]].

(** The values of the outputs of each step result of a run. *)
Definition step_outputs (o : outcome WorkflowRunResult.t) : list (list pyvalue) :=
  match o with
  | Ok r => map (fun step_result =>
                   map Param.value (WorkflowStepResult.outputs step_result))
                (WorkflowRunResult.result r)
  | _ => []
  end.

(** The text [tok] is somewhere in [s]. *)
Definition occurs (tok s : string) : Prop :=
  exists pre post, s = pre ++ tok ++ post.

(** A self-referring entry before an entry that maps to None. *)
Definition looping_context : dict pyvalue :=
  [("x.y", VStr "@{x.y}"); ("a.b", VNone)].

(** A required input without default, echoed by a dummy step. *)
Definition required_input : InputParameter.t :=
  {| InputParameter.base := Param.make "q" STRING;
     InputParameter.user_permission := Some READ_WRITE |}.

Definition required_workflow : WorkflowDef.t :=
  new_workflow "w" [required_input]
    [new_step "echo" "dummy" [("input", VStr "@{input.q}")]].

(** An input that is a choice between two models. *)
Definition choice_parameter : Param.t :=
  {| Param.name := "model"; Param.data_type := OPTION; Param.value := VNone;
     Param.optional := false; Param.default := VStr "gpt-4o";
     Param.description := None; Param.content_type := None;
     Param.choices := Some ["gpt-4o"; "gpt-4o-mini"];
     Param.invisible := false; Param.mention_data_only := false |}.

Definition choice_input : InputParameter.t :=
  {| InputParameter.base := choice_parameter;
     InputParameter.user_permission := Some READ_WRITE |}.

Definition choice_workflow : WorkflowDef.t :=
  new_workflow "w" [choice_input]
    [new_step "echo" "dummy" [("input", VStr "@{input.model}")]].

(** Proof steps used repeatedly: string comparisons between literals are
    decided by computation. *)
Ltac eqb_ground :=
  repeat match goal with
  | |- context [String.eqb ?a ?b] =>
      let r := eval cbv in (String.eqb a b) in
      match r with
      | true => change (String.eqb a b) with true
      | false => change (String.eqb a b) with false
      end
  end.

(* ================================================================== *)
(** * Verification *)

(** ** Strings *)

Lemma append_nil_r (s : string) : s ++ "" = s.
Proof. induction s as [|c s IH]; simpl; [reflexivity | now rewrite IH]. Qed.

Lemma append_assoc (a b c : string) : (a ++ b) ++ c = a ++ (b ++ c).
Proof. induction a as [|x a IH]; simpl; [reflexivity | now rewrite IH]. Qed.

Lemma all_chars_app (p : ascii -> bool) (a b : string) :
  all_chars p (a ++ b) = all_chars p a && all_chars p b.
Proof.
  induction a as [|x a IH]; simpl; [reflexivity|].
  rewrite IH. now rewrite andb_assoc.
Qed.

Lemma span_spec (p : ascii -> bool) (s a b : string) :
  span p s = (a, b) -> s = a ++ b /\ all_chars p a = true /\ stops p b.
Proof.
  revert a b. induction s as [|c s IH]; simpl; intros a b H.
  - inversion H; subst. simpl. auto.
  - destruct (p c) eqn:Hc.
    + destruct (span p s) as [a' b'] eqn:Hs. inversion H; subst.
      destruct (IH a' b eq_refl) as (E & A & S). subst s.
      simpl. rewrite Hc, A. auto.
    + inversion H; subst. simpl. auto.
Qed.

Lemma span_app (p : ascii -> bool) (a b : string) :
  all_chars p a = true -> stops p b -> span p (a ++ b) = (a, b).
Proof.
  intros A S. induction a as [|c a IH]; simpl in *.
  - destruct b as [|d b]; simpl in *; [reflexivity | now rewrite S].
  - apply andb_true_iff in A as [Hc A]. rewrite Hc, (IH A). reflexivity.
Qed.

Lemma is_empty_true (s : string) : is_empty s = true <-> s = "".
Proof. destruct s; simpl; split; intro H; congruence. Qed.

Lemma is_empty_false (s : string) : is_empty s = false <-> s <> "".
Proof. destruct s; simpl; split; intro H; congruence. Qed.

Lemma word_not_space (c : ascii) : is_word c = true -> is_space c = false.
Proof.
  intro H. unfold is_space. destruct (Ascii.eqb_spec c " "%char) as [->|]; [|reflexivity].
  discriminate H.
Qed.

Lemma name_stops_space (w r : string) : is_name w -> stops is_space (w ++ r).
Proof.
  intros [N A]. destruct w as [|c w]; [congruence|]. simpl in *.
  apply andb_true_iff in A as [Hc _]. now apply word_not_space.
Qed.


Lemma expect_spec (c : ascii) (s r : string) : expect c s = Some r <-> s = String c r.
Proof.
  destruct s as [|d s]; simpl; [split; discriminate|].
  destruct (Ascii.eqb_spec d c) as [->|N]; split; intro H; inversion H; subst;
    congruence.
Qed.

Lemma expect_cons (c : ascii) (r : string) : expect c (String c r) = Some r.
Proof. now apply expect_spec. Qed.

(** ** The reference grammar *)

Lemma match_here_sound (s : string) (m : Match) :
  match_here s = Some m ->
  (exists rest, s = group0 m ++ rest)
  /\ reference_token is_space (group0 m) (group1 m) (group2 m).
Proof.
  unfold match_here. intro H.
  destruct (expect "@" s) as [r|] eqn:E0; [|discriminate].
  destruct (expect "{" r) as [r0|] eqn:E1; [|discriminate].
  destruct (span is_space r0) as [sp1 r1] eqn:S1.
  destruct (span is_word r1) as [w1 r2] eqn:W1.
  destruct (is_empty w1) eqn:N1; [discriminate|].
  destruct (span is_space r2) as [sp2 r3] eqn:S2.
  destruct (expect "." r3) as [r4|] eqn:E2; [|discriminate].
  destruct (span is_space r4) as [sp3 r5] eqn:S3.
  destruct (span is_word r5) as [w2 r6] eqn:W2.
  destruct (is_empty w2) eqn:N2; [discriminate|].
  destruct (span is_space r6) as [sp4 r7] eqn:S4.
  destruct (expect "}" r7) as [r8|] eqn:E3; [|discriminate].
  inversion H; subst m; clear H. simpl.
  apply expect_spec in E0, E1, E2, E3.
  apply span_spec in S1 as (-> & A1 & _), W1 as (-> & B1 & _),
    S2 as (-> & A2 & _), S3 as (-> & A3 & _), W2 as (-> & B2 & _),
    S4 as (-> & A4 & _).
  apply is_empty_false in N1, N2. subst.
  split.
  - exists r8. simpl. repeat (rewrite !append_assoc; simpl). reflexivity.
  - exists sp1, sp2, sp3, sp4. unfold is_name. auto 10.
Qed.

Lemma match_here_complete (tok w1 w2 rest : string) :
  reference_token is_space tok w1 w2 ->
  match_here (tok ++ rest)
  = Some {| group0 := tok; group1 := w1; group2 := w2 |}.
Proof.
  intros (sp1 & sp2 & sp3 & sp4 & A1 & A2 & A3 & A4 & N1 & N2 & ->).
  assert (dot : forall r, stops is_space (String "." r)) by (intro; reflexivity).
  assert (dotw : forall r, stops is_word (String "." r)) by (intro; reflexivity).
  assert (brace : forall r, stops is_space (String "}" r)) by (intro; reflexivity).
  assert (bracew : forall r, stops is_word (String "}" r)) by (intro; reflexivity).
  assert (stopw : forall sp r c, all_chars is_space sp = true ->
            is_word c = false -> stops is_word (sp ++ String c r)).
  { intros sp r c A Hc. destruct sp as [|d sp]; simpl in *; [exact Hc|].
    apply andb_true_iff in A as [Hd _]. unfold is_space in Hd.
    apply Ascii.eqb_eq in Hd. now subst d. }
  unfold match_here. simpl.
  repeat (rewrite !append_assoc; simpl).
  rewrite (span_app is_space sp1 _ A1) by (now apply name_stops_space).
  rewrite (span_app is_word w1 _ (proj2 N1)) by (now apply stopw).
  rewrite (proj2 (is_empty_false w1) (proj1 N1)).
  rewrite (span_app is_space sp2 _ A2) by apply dot.
  rewrite expect_cons.
  rewrite (span_app is_space sp3 _ A3) by (now apply name_stops_space).
  rewrite (span_app is_word w2 _ (proj2 N2)) by (now apply stopw).
  rewrite (proj2 (is_empty_false w2) (proj1 N2)).
  rewrite (span_app is_space sp4 _ A4) by apply brace.
  rewrite expect_cons. reflexivity.
Qed.


Lemma match_here_iff (s : string) (m : Match) :
  match_here s = Some m <->
  (exists rest, s = group0 m ++ rest)
  /\ reference_token is_space (group0 m) (group1 m) (group2 m).
Proof.
  split; [apply match_here_sound|].
  intros [[rest ->] T]. rewrite (match_here_complete _ _ _ rest T).
  now destruct m.
Qed.

(** [re_search] returns the match at the first position that has one. *)
Lemma re_search_first (s : string) (m : Match) :
  re_search s = Some m ->
  exists k, match_here (skip k s) = Some m
            /\ forall j, j < k -> match_here (skip j s) = None.
Proof.
  induction s as [|c r IH].
  - simpl. discriminate.
  - intro H. cbn [re_search] in H.
    destruct (match_here (String c r)) as [m'|] eqn:E.
    + inversion H; subst m'. exists 0. split; [exact E|]. intros j Hj. lia.
    + destruct (IH H) as (k & Hk & Hlt). exists (S k). split; [exact Hk|].
      intros [|j] Hj; [exact E|]. apply Hlt. lia.
Qed.

Lemma re_search_none (s : string) :
  re_search s = None -> forall k, match_here (skip k s) = None.
Proof.
  induction s as [|c r IH]; intros H k.
  - destruct k; reflexivity.
  - cbn [re_search] in H.
    destruct (match_here (String c r)) eqn:E; [discriminate|].
    destruct k as [|k]; [exact E|]. simpl. now apply IH.
Qed.

Lemma re_search_token (s : string) (m : Match) :
  re_search s = Some m ->
  reference_token is_space (group0 m) (group1 m) (group2 m).
Proof.
  intro H. destruct (re_search_first s m H) as (k & Hk & _).
  now apply match_here_sound in Hk.
Qed.

(** C8, as amended. A reference token is recognised at the head of a string
    exactly when the string starts with [@{ stepName . parameterName }] where
    both names match [[a-zA-Z0-9_]+] and the padding around them consists of
    space characters (U+0020) only; the padding is not part of the captured
    names, and the key looked up is ["<stepName>.<parameterName>"]. *)
Theorem reference_grammar :
  (forall (s : string) (m : Match),
     match_here s = Some m <->
     (exists rest, s = group0 m ++ rest)
     /\ reference_token is_space (group0 m) (group1 m) (group2 m))
  /\ (forall (value_str : string) (context : dict pyvalue) (cur : string) (m : Match),
        re_search value_str = Some m ->
        is_name (group1 m) /\ is_name (group2 m)
        /\ fill_turn value_str context cur
           = if is_none (py_get (group1 m ++ "." ++ group2 m) context)
             then Fail (ValueReferenceError cur (group1 m ++ "." ++ group2 m)
                          (dict_keys context))
             else Continue (replace (group0 m)
                              (py_str (py_get (group1 m ++ "." ++ group2 m) context))
                              value_str)).
Proof.
  split; [apply match_here_iff|].
  intros value_str context cur m H.
  destruct (re_search_token _ _ H) as (? & ? & ? & ? & _ & _ & _ & _ & N1 & N2 & _).
  repeat split; try apply N1; try apply N2.
  unfold fill_turn. now rewrite H.
Qed.

(** C8, as stated, fails for white space other than the space character: a
    token padded with a tab fits the stated grammar and is not recognised. *)
Lemma tab_padding_not_recognized :
  reference_token is_whitespace tab_token "a" "b" /\ re_search tab_token = None.
Proof.
  split; [|reflexivity].
  exists (String (ascii_of_nat 9) ""), "", "", "".
  unfold is_name. repeat split; try reflexivity; discriminate.
Qed.


(** ** Replacing *)

Lemma prefix_app (a r : string) : String.prefix a (a ++ r) = true.
Proof.
  induction a as [|c a IH]; simpl; [now destruct r|].
  destruct (ascii_dec c c); [exact IH | congruence].
Qed.

Lemma prefix_split (a s : string) :
  String.prefix a s = true -> exists r, s = a ++ r.
Proof.
  revert s. induction a as [|c a IH]; intros s H.
  - now exists s.
  - destruct s as [|d s]; simpl in H; [discriminate|].
    destruct (ascii_dec c d) as [E|]; [subst d|discriminate].
    destruct (IH s H) as [r E]. subst s. now exists r.
Qed.

Lemma skip_app (a r : string) : skip (String.length a) (a ++ r) = r.
Proof. induction a as [|c a IH]; simpl; [now destruct r | exact IH]. Qed.

Lemma length_append (a b : string) :
  String.length (a ++ b) = String.length a + String.length b.
Proof. induction a as [|c a IH]; simpl; [reflexivity | now rewrite IH]. Qed.

Lemma count_char_app (c : ascii) (a b : string) :
  count_char c (a ++ b) = count_char c a + count_char c b.
Proof. induction a as [|d a IH]; simpl; [reflexivity | rewrite IH; lia]. Qed.

Lemma replace_from_pending (old new : string) (k : nat) (s : string) :
  replace_from old new k s = replace_from old new 0 (skip k s).
Proof.
  revert k. induction s as [|c s IH]; intros [|k]; simpl; try reflexivity.
  apply IH.
Qed.

(** At an occurrence the new text is emitted and the scan resumes behind it. *)
Lemma replace_from_hit (old new r : string) :
  old <> "" ->
  replace_from old new 0 (old ++ r) = new ++ replace_from old new 0 r.
Proof.
  intro N. destruct old as [|c old]; [congruence|].
  change (String c old ++ r) with (String c (old ++ r)).
  cbn [replace_from].
  change (String c (old ++ r)) with (String c old ++ r).
  rewrite prefix_app.
  rewrite replace_from_pending.
  replace (String.length (String c old) - 1) with (String.length old)
    by (simpl; lia).
  now rewrite skip_app.
Qed.

Lemma replace_from_miss (old new : string) (c : ascii) (s : string) :
  String.prefix old (String c s) = false ->
  replace_from old new 0 (String c s) = String c (replace_from old new 0 s).
Proof. intro H. cbn [replace_from]. now rewrite H. Qed.

(** Replacing cannot add a character that the new text does not have, and
    removes one for each character of an occurrence. *)
Lemma count_replace_le (c : ascii) (old new : string) :
  old <> "" -> count_char c new = 0 ->
  forall (n : nat) (s : string), String.length s <= n ->
    count_char c (replace_from old new 0 s) <= count_char c s.
Proof.
  intros N Z. induction n as [|n IH]; intros s L.
  - destruct s; simpl in *; [lia | lia].
  - destruct s as [|d s]; [simpl; lia|].
    destruct (String.prefix old (String d s)) eqn:P.
    + destruct (prefix_split _ _ P) as [r E]. rewrite E.
      rewrite replace_from_hit by exact N.
      rewrite !count_char_app, Z.
      assert (String.length r <= n).
      { assert (String.length (String d s) = String.length old + String.length r)
          by (rewrite E; apply length_append).
        destruct old; [congruence|]. simpl in *. lia. }
      specialize (IH r H). lia.
    + rewrite replace_from_miss by exact P. simpl.
      assert (String.length s <= n) by (simpl in L; lia).
      specialize (IH s H). lia.
Qed.

Lemma count_replace_lt (c : ascii) (old new : string) :
  old <> "" -> count_char c new = 0 -> 0 < count_char c old ->
  forall (n : nat) (s : string) (k : nat), String.length s <= n ->
    String.prefix old (skip k s) = true ->
    count_char c (replace_from old new 0 s) < count_char c s.
Proof.
  intros N Z O. induction n as [|n IH]; intros s k L P.
  - destruct s; [|simpl in L; lia].
    destruct old; [congruence|]. destruct k; simpl in P; discriminate.
  - destruct s as [|d s].
    + destruct old; [congruence|]. destruct k; simpl in P; discriminate.
    + destruct (String.prefix old (String d s)) eqn:P0.
      * destruct (prefix_split _ _ P0) as [r E]. rewrite E.
        rewrite replace_from_hit by exact N.
        rewrite !count_char_app, Z.
        pose proof (count_replace_le c old new N Z (String.length r) r (le_n _)).
        lia.
      * rewrite replace_from_miss by exact P0. simpl.
        destruct k as [|k]; cbn [skip] in P; [congruence|].
        assert (String.length s <= n) by (simpl in L; lia).
        specialize (IH s k H P). lia.
Qed.


(** ** [fill_value] *)

Lemma count_outside_class (p : ascii -> bool) (c : ascii) (s : string) :
  p c = false -> all_chars p s = true -> count_char c s = 0.
Proof.
  intros Hc. induction s as [|d s IH]; simpl; [reflexivity|].
  intro A. apply andb_true_iff in A as [Hd A]. rewrite (IH A).
  destruct (Ascii.eqb_spec c d) as [->|]; [congruence | reflexivity].
Qed.

(** A token has a single at-sign, the one it starts with. *)
Lemma token_one_at (tok w1 w2 : string) :
  reference_token is_space tok w1 w2 -> count_char "@" tok = 1.
Proof.
  intros (sp1 & sp2 & sp3 & sp4 & A1 & A2 & A3 & A4 & [_ B1] & [_ B2] & ->).
  repeat (rewrite ?count_char_app; simpl).
  rewrite (count_outside_class is_space "@" sp1), (count_outside_class is_space "@" sp2),
    (count_outside_class is_space "@" sp3), (count_outside_class is_space "@" sp4),
    (count_outside_class is_word "@" w1), (count_outside_class is_word "@" w2);
    auto.
Qed.

Lemma token_nonempty (tok w1 w2 : string) :
  reference_token is_space tok w1 w2 -> tok <> "".
Proof. intros (? & ? & ? & ? & _ & _ & _ & _ & _ & _ & ->). discriminate. Qed.

Lemma py_get_some (key : string) (context : dict pyvalue) :
  is_none (py_get key context) = false ->
  dict_get key context = Some (py_get key context).
Proof. unfold py_get. destruct (dict_get key context); simpl; congruence. Qed.

(** Over a context whose values print without an at-sign, each turn that
    continues has removed at least one. *)
Lemma fill_turn_decreases (value_str value_str' : string) (context : dict pyvalue)
    (cur : string) :
  at_free context ->
  fill_turn value_str context cur = Continue value_str' ->
  count_char "@" value_str' < count_char "@" value_str.
Proof.
  intros F H. unfold fill_turn in H.
  destruct (re_search value_str) as [m|] eqn:E; [|discriminate].
  destruct (is_none (py_get (group1 m ++ "." ++ group2 m) context)) eqn:V;
    [discriminate|].
  inversion H; subst value_str'; clear H.
  pose proof (re_search_token _ _ E) as T.
  destruct (re_search_first _ _ E) as (k & Hk & _).
  apply match_here_sound in Hk as [[rest R] _].
  unfold replace. rewrite (proj2 (is_empty_false _) (token_nonempty _ _ _ T)).
  apply count_replace_lt with (n := String.length value_str) (k := k).
  - exact (token_nonempty _ _ _ T).
  - exact (F _ _ (py_get_some _ _ V)).
  - rewrite (token_one_at _ _ _ T). lia.
  - lia.
  - rewrite R. apply prefix_app.
Qed.

Lemma fill_loop_terminates (fuel : nat) (value_str : string) (context : dict pyvalue)
    (cur : string) :
  at_free context -> count_char "@" value_str < fuel ->
  fill_loop fuel value_str context cur <> OutOfFuel.
Proof.
  intro F. revert value_str. induction fuel as [|fuel IH]; intros value_str L; [lia|].
  simpl. destruct (fill_turn value_str context cur) as [| e | value_str'] eqn:T;
    try discriminate.
  apply IH. pose proof (fill_turn_decreases _ _ _ _ F T). lia.
Qed.

Lemma fill_loop_no_token (fuel : nat) (value_str s : string) (context : dict pyvalue)
    (cur : string) :
  fill_loop fuel value_str context cur = Ok s -> re_search s = None.
Proof.
  revert value_str. induction fuel as [|fuel IH]; intros value_str H; [discriminate|].
  simpl in H. unfold fill_turn in H at 1.
  destruct (re_search value_str) as [m|] eqn:E.
  - destruct (is_none _); [discriminate|]. now apply IH in H.
  - inversion H; subst. exact E.
Qed.

Lemma fill_turn_by_key (value_str : string) (context : dict pyvalue) (cur : string) :
  fill_turn value_str context cur =
  match re_search value_str with
  | None => Break
  | Some m =>
      let key := group1 m ++ "." ++ group2 m in
      match dict_get key context with
      | Some VNone | None =>
          Fail (ValueReferenceError cur key (dict_keys context))
      | Some value => Continue (replace (group0 m) (py_str value) value_str)
      end
  end.
Proof.
  unfold fill_turn, py_get. destruct (re_search value_str) as [m|]; [|reflexivity].
  cbv zeta. destruct (dict_get _ context) as [[]|]; reflexivity.
Qed.

(** C3, as amended. [fill_value] returns every non-string value unchanged. On a
    string it repeats one turn: it finds the first token [@{stepName.parameterName}]
    and looks up ["<stepName>.<parameterName>"]; if the key is absent, or present
    with the value None, it raises the [ValueReferenceError] that names the
    current step, that key and all the keys of the context; otherwise it replaces
    the token by the stringified value and starts again. What it returns has no
    token left, and it does return or raise whenever no context value prints
    with an at-sign. *)
Theorem fill_value_algorithm :
  (forall fuel v context cur,
     is_str v = false -> fill_value fuel v context cur = Ok v)
  /\ (forall fuel value_str context cur,
        fill_value (S fuel) (VStr value_str) context cur =
        match fill_turn value_str context cur with
        | Break => Ok (VStr value_str)
        | Fail e => Raise e
        | Continue value_str' => fill_value fuel (VStr value_str') context cur
        end)
  /\ (forall value_str context cur,
        match re_search value_str with
        | None => fill_turn value_str context cur = Break
        | Some m =>
            let key := group1 m ++ "." ++ group2 m in
            (exists k, match_here (skip k value_str) = Some m
                       /\ forall j, j < k -> match_here (skip j value_str) = None)
            /\ fill_turn value_str context cur =
               match dict_get key context with
               | Some VNone | None =>
                   Fail (ValueReferenceError cur key (dict_keys context))
               | Some value =>
                   Continue (replace (group0 m) (py_str value) value_str)
               end
        end)
  /\ (forall value_str context cur,
        (forall key, dict_get key context <> Some VNone) ->
        fill_turn value_str context cur = fill_turn_spec value_str context cur)
  /\ (forall fuel value_str context cur v,
        fill_value fuel (VStr value_str) context cur = Ok v ->
        exists s, v = VStr s /\ re_search s = None)
  /\ (forall fuel value_str context cur,
        at_free context -> count_char "@" value_str < fuel ->
        fill_value fuel (VStr value_str) context cur <> OutOfFuel).
Proof.
  repeat split.
  - intros fuel v context cur H. destruct v; simpl in *; congruence.
  - intros fuel value_str context cur. simpl.
    destruct (fill_turn value_str context cur); reflexivity.
  - intros value_str context cur. generalize (fill_turn_by_key value_str context cur).
    destruct (re_search value_str) as [m|] eqn:E; [|auto].
    intro H. split; [now apply re_search_first | exact H].
  - intros value_str context cur H. rewrite fill_turn_by_key. unfold fill_turn_spec.
    destruct (re_search value_str) as [m|]; [|reflexivity]. cbv zeta.
    destruct (dict_get _ context) as [[]|] eqn:E; try reflexivity.
    now apply H in E.
  - intros fuel value_str context cur v H. unfold fill_value in H.
    destruct (fill_loop fuel value_str context cur) as [s| |] eqn:E; try discriminate.
    simpl in H. inversion H; subst. exists s. split; [reflexivity|].
    now apply fill_loop_no_token in E.
  - intros fuel value_str context cur F L. unfold fill_value.
    pose proof (fill_loop_terminates fuel value_str context cur F L).
    destruct (fill_loop fuel value_str context cur); simpl; congruence.
Qed.

Lemma dict_get_del {V} (k : string) (d : dict V) : dict_get k (dict_del k d) = None.
Proof.
  induction d as [|[k' v] d IH]; simpl; [reflexivity|].
  destruct (String.eqb k k') eqn:E; [exact IH|]. simpl. now rewrite E.
Qed.

(** ** [Parameter.v] *)

Lemma py_float_result (v r : pyvalue) :
  py_float v = Ok r -> exists f, r = VFloat f.
Proof.
  destruct v as [| |b|z|f|t]; simpl; try discriminate.
  - intro H; inversion H; eauto.
  - destruct (float_of_int rt z); [|discriminate]. intro H; inversion H; eauto.
  - intro H; inversion H; eauto.
  - destruct (float_of_str rt t); [|discriminate]. intro H; inversion H; eauto.
Qed.

(** C5, as amended. [Parameter.v] starts from [value] when it is not None and
    from [default] otherwise. Unless that is None or pydantic's undefined
    marker, the result is what the stated contract gives: the string of it for
    STRING, [float] of it for NUMBER, its truth value for BOOLEAN, itself for
    any other type. When it is None or the marker, the result is the string
    "None" for STRING, None for NUMBER (nothing is parsed), False for BOOLEAN,
    and None for any other type.
    A STRING always yields a string, a BOOLEAN a boolean, a NUMBER a float,
    None or an exception of the conversion. *)
Theorem resolved_value (self : Param.t) :
  let r := resolved self in
  (is_none r = false -> is_undefined r = false -> Param_v self = v_spec self)
  /\ (is_none r || is_undefined r = true ->
      Param_v self = match Param.data_type self with
                     | STRING => Ok (VStr "None")
                     | BOOLEAN => Ok (VBool false)
                     | _ => Ok VNone
                     end)
  /\ match Param.data_type self with
     | STRING => exists s, Param_v self = Ok (VStr s)
     | BOOLEAN => exists b, Param_v self = Ok (VBool b)
     | NUMBER => Param_v self = Ok VNone
                 \/ (exists f, Param_v self = Ok (VFloat f))
                 \/ (exists e, Param_v self = Raise e)
     | _ => Param_v self = Ok (if is_undefined r then VNone else r)
     end.
Proof.
  unfold resolved, Param_v, v_spec. cbv zeta.
  set (r := if is_none (Param.value self) then Param.default self
            else Param.value self).
  repeat split.
  - intros N U. rewrite U, N. reflexivity.
  - intro H. destruct r; simpl in H; try discriminate;
      destruct (Param.data_type self); reflexivity.
  - destruct (Param.data_type self); eauto.
    destruct (is_undefined r); simpl; [now left|].
    destruct (is_none r); [now left|].
    destruct (py_float r) as [x|e|] eqn:E.
    + destruct (py_float_result _ _ E) as [f ->]. right; left; eauto.
    + right; right; eauto.
    + destruct r; simpl in E; try discriminate;
        [destruct (float_of_int rt z) | destruct (float_of_str rt s)]; discriminate.
Qed.


(** ** Running one step *)

(** Whatever happens inside the [try], the step keeps its name and class. *)
Lemma try_body_identity (fuel : nat) (step : BaseStep.t) (context : dict pyvalue)
    (dry_run : bool) :
  let step' := fst (fst (try_body fuel step context dry_run)) in
  Self.name (BaseStep.self step') = Self.name (BaseStep.self step)
  /\ BaseStep.class step' = BaseStep.class step.
Proof.
  unfold try_body.
  destruct (fill_inputs fuel _ _ context) as [[inputs context1] o1].
  destruct o1 as [[]|e|]; try (split; reflexivity).
  destruct (StepClass.process _ _ dry_run) as [result|e|]; try (split; reflexivity).
  destruct (publish_outputs _ result _ context1) as [[outputs context2] o2].
  split; reflexivity.
Qed.

Lemma try_body_result (fuel : nat) (step step' : BaseStep.t)
    (context context' : dict pyvalue) (dry_run : bool) (r : WorkflowStepResult.t) :
  try_body fuel step context dry_run = ((step', context'), Ok r) ->
  WorkflowStepResult.step_name r = Self.name (BaseStep.self step)
  /\ WorkflowStepResult.status r = WorkflowStepStatus.SUCCESS.
Proof.
  unfold try_body.
  destruct (fill_inputs fuel _ _ context) as [[inputs context1] o1].
  destruct o1 as [[]|e|]; try (intro H; inversion H; fail).
  destruct (StepClass.process _ _ dry_run) as [result|e|];
    try (intro H; inversion H; fail).
  destruct (publish_outputs _ result _ context1) as [[outputs context2] o2].
  destruct o2 as [[]|e|]; simpl; try (intro H; inversion H; fail).
  destruct (build_outputs result outputs) as [l|e|]; simpl;
    intro H; inversion H; subst. split; reflexivity.
Qed.

(** A result of [BaseStep.run] carries the name of the step; it is a FAILURE
    exactly when the [try] block raised, which only a live run turns into a
    result. *)
Lemma BaseStep_run_result (fuel : nat) (step step' : BaseStep.t)
    (context context' : dict pyvalue) (dry_run : bool) (r : WorkflowStepResult.t) :
  BaseStep_run fuel step context dry_run = ((step', context'), Ok r) ->
  WorkflowStepResult.step_name r = Self.name (BaseStep.self step).
Proof.
  unfold BaseStep_run.
  destruct (context_update context _) as [context0|e|]; try (intro H; inversion H; fail).
  pose proof (try_body_identity fuel step context0 dry_run) as I.
  pose proof (try_body_result fuel step) as R.
  destruct (try_body fuel step context0 dry_run) as [[s1 c1] o] eqn:T.
  simpl in I. destruct o as [r0|e|].
  - intro H; inversion H; subst. now apply (R _ _ _ _ _ T).
  - destruct dry_run; intro H; inversion H; subst. simpl. apply I.
  - intro H; inversion H.
Qed.


(** In a live run no exception of a [try] block leaves [BaseStep.run]: the
    step returns a result, raises from [context.update], or does not finish. *)
Lemma live_step_total (fuel : nat) (step : BaseStep.t) (context : dict pyvalue) :
  (exists r, snd (BaseStep_run fuel step context false) = Ok r)
  \/ (exists e, context_update context (Self.context (BaseStep.self step)) = Raise e)
  \/ snd (BaseStep_run fuel step context false) = OutOfFuel.
Proof.
  unfold BaseStep_run.
  destruct (context_update context _) as [context0|e|] eqn:U.
  - destruct (try_body fuel step context0 false) as [[s1 c1] o].
    destruct o; simpl; eauto.
  - right; left; eauto.
  - destruct (Self.context (BaseStep.self step)) as [[| | | | |[]]|]; discriminate.
Qed.

(** ** The two concrete runs *)

(** C6. A workflow whose only step is of type [dummy] with the raw input
    ["input": "Hello, World!"], run live, succeeds, and its step result has the
    output parameter [output] with the value "Hello, World!". *)
Theorem hello_world_round_trip (fuel : nat) (name step_name : string)
    (run_inputs : option (dict pyvalue)) :
  snd (run (S fuel) (hello_workflow name step_name) run_inputs false)
  = Ok {| WorkflowRunResult.status := WorkflowRunStatus.SUCCESS;
          WorkflowRunResult.result :=
            [ {| WorkflowStepResult.step_name := step_name;
                 WorkflowStepResult.step_type := "DummyStep";
                 WorkflowStepResult.status := WorkflowStepStatus.SUCCESS;
                 WorkflowStepResult.status_reason := None;
                 WorkflowStepResult.inputs :=
                   [Param.with_value (Param.make "input" STRING)
                                     (VStr "Hello, World!")];
                 WorkflowStepResult.outputs :=
                   [Param.with_value (Param.make "output" STRING)
                                     (VStr "Hello, World!")] |} ] |}.
Proof. reflexivity. Qed.

(** C1, at the failing input. The input [p] is READ_ONLY with default "x";
    [validate_inputs] rejects the override "y" as immutable, but a live [run]
    with that override succeeds and the step echoes "y". *)
Theorem read_only_override_runs (fuel : nat) :
  snd (validate_inputs read_only_workflow [("p", VStr "y")])
  = Ok [ {| ValidationError.loc := Some "p";
            ValidationError.msg := "Parameter is immutable";
            ValidationError.type := "immutable_workflow_input" |} ]
  /\ snd (run (S (S fuel)) read_only_workflow (Some [("p", VStr "y")]) false)
     = Ok {| WorkflowRunResult.status := WorkflowRunStatus.SUCCESS;
             WorkflowRunResult.result :=
               [ {| WorkflowStepResult.step_name := "echo";
                    WorkflowStepResult.step_type := "DummyStep";
                    WorkflowStepResult.status := WorkflowStepStatus.SUCCESS;
                    WorkflowStepResult.status_reason := None;
                    WorkflowStepResult.inputs :=
                      [Param.with_value (Param.make "input" STRING) (VStr "y")];
                    WorkflowStepResult.outputs :=
                      [Param.with_value (Param.make "output" STRING) (VStr "y")] |} ] |}.
Proof. split; reflexivity. Qed.


(** ** The runner *)

Lemma bind_ok {A B} (m : outcome A) (f : A -> outcome B) (b : B) :
  bind m f = Ok b -> exists a, m = Ok a /\ f a = Ok b.
Proof. destruct m; simpl; intro H; try discriminate. eauto. Qed.

Lemma construct_identity (cls : StepClass.t) (name : string) (kwargs : dict pyvalue)
    (b : BaseStep.t) :
  construct cls name kwargs = Ok b ->
  Self.name (BaseStep.self b) = name /\ BaseStep.class b = cls.
Proof.
  unfold construct, BaseStep_init. intro H.
  repeat (apply bind_ok in H; destruct H as (? & _ & H)).
  inversion H; subst. split; reflexivity.
Qed.

(** After [init_input] a consistent step is bound to an instance of its own
    name, or to none when its type is not registered. *)
Lemma init_input_bound (step step1 : WorkflowStep.t) (o : outcome unit) :
  consistent step -> init_input step = (step1, o) ->
  WorkflowStep.name step1 = WorkflowStep.name step
  /\ WorkflowStep.type step1 = WorkflowStep.type step
  /\ (o = Ok tt -> forall b, WorkflowStep._step step1 = Some b ->
        Self.name (BaseStep.self b) = WorkflowStep.name step).
Proof.
  intros C. unfold init_input.
  destruct (dict_get (WorkflowStep.type step) registered_steps) as [cls|] eqn:G.
  - destruct (construct cls _ _) as [b0|e|] eqn:K; intro H; inversion H; subst;
      repeat split; try discriminate.
    intros _ b E. simpl in E. inversion E; subst.
    now apply construct_identity in K.
  - intro H; inversion H; subst. repeat split.
    intros _ b E. simpl in E. rewrite (C G) in E. discriminate.
Qed.

Lemma WorkflowStep_run_result (fuel : nat) (step step' : WorkflowStep.t)
    (context context' : dict pyvalue) (dry_run : bool) (r : WorkflowStepResult.t) :
  WorkflowStep_run fuel step context dry_run = ((step', context'), Ok r) ->
  exists b, WorkflowStep._step step = Some b
            /\ WorkflowStepResult.step_name r = Self.name (BaseStep.self b).
Proof.
  unfold WorkflowStep_run. destruct (WorkflowStep._step step) as [b|]; [|discriminate].
  destruct (BaseStep_run fuel b context dry_run) as [[b' c'] o] eqn:R.
  intro H; inversion H; subst. exists b. split; [reflexivity|].
  now apply BaseStep_run_result in R.
Qed.

Lemma status_eqb_failed (r : WorkflowStepResult.t) :
  WorkflowStepStatus.eqb (WorkflowStepResult.status r) WorkflowStepStatus.FAILURE = true
  <-> failed r.
Proof. unfold failed. destruct (WorkflowStepResult.status r); simpl; split; congruence. Qed.

(** What the loop over the steps adds to the results: one result per step, in
    the order of the steps, and the FAILURE status as soon as one of them
    failed. *)
Lemma run_steps_results (fuel : nat) (dry_run : bool) (steps : list WorkflowStep.t) :
  Forall consistent steps ->
  forall context status result steps' context' status' result',
    run_steps fuel dry_run steps context status result
    = ((steps', context'), Ok (status', result')) ->
    exists new,
      result' = app result new
      /\ map WorkflowStepResult.step_name new = map WorkflowStep.name steps
      /\ (Exists failed new -> status' = WorkflowRunStatus.FAILURE)
      /\ (~ Exists failed new -> status' = status).
Proof.
  induction 1 as [|step rest C _ IH]; intros context status result steps' context'
    status' result' H.
  - simpl in H. inversion H; subst. exists []. rewrite app_nil_r.
    repeat split; auto. intro E. inversion E.
  - cbn [run_steps] in H.
    destruct (init_input step) as [step1 o1] eqn:I.
    destruct (init_input_bound _ _ _ C I) as (N & _ & B).
    destruct o1 as [[]|e|]; try (inversion H; fail).
    destruct (WorkflowStep_run fuel step1 context dry_run) as [[step2 c2] o2] eqn:R.
    destruct o2 as [step_result|e|]; try (inversion H; fail).
    destruct (WorkflowStep_run_result _ _ _ _ _ _ _ R) as (b & Eb & Nb).
    rewrite (B eq_refl b Eb) in Nb.
    destruct (run_steps fuel dry_run rest c2 _ _) as [[rest' c3] o3] eqn:RS.
    inversion H; subst o3; clear H.
    destruct (IH _ _ _ _ _ _ _ RS) as (new & -> & M & F1 & F2).
    exists (step_result :: new). rewrite <- app_assoc. simpl.
    repeat split.
    + now rewrite Nb, M.
    + intro E. destruct (WorkflowStepStatus.eqb _ _) eqn:Q.
      * destruct (Exists_dec failed new) as [D|D].
        -- intro x. unfold failed. destruct (WorkflowStepResult.status x);
             [right; discriminate | now left].
        -- now apply F1.
        -- now apply F2.
      * inversion E; subst; [|now apply F1].
        apply status_eqb_failed in H0. congruence.
    + intro E. destruct (WorkflowStepStatus.eqb _ _) eqn:Q.
      * exfalso. apply E. left. now apply status_eqb_failed.
      * apply F2. intro E'. apply E. now right.
Qed.

(** C4. When [run] returns a result and the definition is consistent, the
    status of the run is FAILURE if and only if some step result is a FAILURE,
    and SUCCESS otherwise; the step results carry the names of the steps in
    declaration order, unless the run stopped at its inputs with the single
    synthetic result. *)
Theorem aggregate_status (fuel : nat) (self self' : WorkflowDef.t)
    (run_inputs : option (dict pyvalue)) (run_inputs' : dict pyvalue)
    (dry_run : bool) (r : WorkflowRunResult.t) :
  well_formed self ->
  run fuel self run_inputs dry_run = ((self', run_inputs'), Ok r) ->
  (WorkflowRunResult.status r = WorkflowRunStatus.FAILURE
   <-> Exists failed (WorkflowRunResult.result r))
  /\ (WorkflowRunResult.status r = WorkflowRunStatus.SUCCESS
      <-> ~ Exists failed (WorkflowRunResult.result r))
  /\ (map WorkflowStepResult.step_name (WorkflowRunResult.result r)
      = map WorkflowStep.name (WorkflowDef.steps self)
      \/ exists errors, errors <> [] /\ r = input_failure errors).
Proof.
  intros W. unfold run.
  destruct (if dry_run then _ else _) as [ri o0].
  destruct o0 as [[]|e|]; try (intro H; inversion H; fail).
  destruct (bind_inputs _ ri []) as [inputs o1].
  destruct o1 as [[|err errs]|e|]; try (intro H; inversion H; fail).
  - destruct (run_steps fuel dry_run _ _ _ _) as [[steps c] o] eqn:RS.
    destruct o as [[status result]|e|]; simpl; intro H; inversion H; subst; clear H.
    destruct (run_steps_results _ _ _ W _ _ _ _ _ _ _ RS) as (new & E & M & F1 & F2).
    simpl in E. subst result. simpl.
    assert (D : Exists failed new \/ ~ Exists failed new).
    { destruct (Exists_dec failed new) as [D|D]; auto.
      intro x. unfold failed. destruct (WorkflowStepResult.status x);
        [right; discriminate | now left]. }
    repeat split; auto.
    + intro S. destruct D as [D|D]; [exact D|]. rewrite (F2 D) in S. discriminate.
    + intros S D'. rewrite (F1 D') in S. discriminate.
  - intro H; inversion H; subst; clear H. simpl.
    repeat split; try discriminate.
    + intros _. left. reflexivity.
    + intro N. exfalso. apply N. left. reflexivity.
    + right. exists (err :: errs). split; [discriminate | reflexivity].
Qed.


(** ** The dry-run placeholders *)

Lemma dict_get_set_same {V} (k : string) (v : V) (d : dict V) :
  dict_get k (dict_set k v d) = Some v.
Proof.
  induction d as [|[k' v'] d IH]; simpl.
  - now rewrite String.eqb_refl.
  - destruct (String.eqb k k') eqn:E; simpl; rewrite E; [reflexivity | exact IH].
Qed.

Lemma dict_get_set_other {V} (k k' : string) (v : V) (d : dict V) :
  k <> k' -> dict_get k (dict_set k' v d) = dict_get k d.
Proof.
  intro N. induction d as [|[k0 v0] d IH]; simpl.
  - now rewrite (proj2 (String.eqb_neq k k') N).
  - destruct (String.eqb k' k0) eqn:E; simpl.
    + apply String.eqb_eq in E. subst k0.
      now rewrite (proj2 (String.eqb_neq k k') N).
    + destruct (String.eqb k k0); [reflexivity | exact IH].
Qed.

Lemma seed_dry_run_seeded (inputs : list InputParameter.t) (run_inputs : dict pyvalue) :
  Forall has_placeholder inputs ->
  seed_dry_run inputs run_inputs = (seeded inputs run_inputs, Ok tt).
Proof.
  intro F. revert run_inputs. induction F as [|p l [v Hp] _ IH]; intro run_inputs.
  - reflexivity.
  - cbn [seed_dry_run]. unfold seeded. cbn [fold_left]. unfold placeholder at 2.
    rewrite Hp. apply IH.
Qed.

Lemma seeded_frame (inputs : list InputParameter.t) (run_inputs : dict pyvalue)
    (k : string) :
  ~ In k (map input_name inputs) ->
  dict_get k (seeded inputs run_inputs) = dict_get k run_inputs.
Proof.
  revert run_inputs. induction inputs as [|p l IH]; intros run_inputs N; [reflexivity|].
  unfold seeded. cbn [fold_left]. fold (seeded l (dict_set (input_name p) (placeholder p) run_inputs)).
  rewrite IH by (intro H; apply N; now right).
  apply dict_get_set_other. intro E. apply N. left. now symmetry.
Qed.


Lemma seeded_own (inputs : list InputParameter.t) (run_inputs : dict pyvalue)
    (p : InputParameter.t) :
  NoDup (map input_name inputs) -> In p inputs ->
  dict_get (input_name p) (seeded inputs run_inputs) = Some (placeholder p).
Proof.
  revert run_inputs. induction inputs as [|x l IH]; intros run_inputs D H; [contradiction|].
  simpl in D. inversion D as [|? ? Nx Dl]; subst.
  unfold seeded. cbn [fold_left].
  fold (seeded l (dict_set (input_name x) (placeholder x) run_inputs)).
  destruct H as [->|H]; [|now apply IH].
  rewrite seeded_frame by exact Nx. apply dict_get_set_same.
Qed.




(** ** Runs do not see what earlier runs bound *)

Lemma param_alike_fields (p q : Param.t) :
  param_alike p q ->
  Param.name p = Param.name q /\ Param.data_type p = Param.data_type q
  /\ Param.default p = Param.default q.
Proof.
  intro A. specialize (A VNone). repeat split.
  - exact (f_equal Param.name A).
  - exact (f_equal Param.data_type A).
  - exact (f_equal Param.default A).
Qed.

Lemma param_alike_rebound (p : Param.t) (v : pyvalue) :
  param_alike (Param.with_value p v) p.
Proof. intro w. reflexivity. Qed.

Lemma set_value_alike (p q : Param.t) (v : pyvalue) :
  param_alike p q -> set_value p v = set_value q v.
Proof. intro A. unfold set_value. now rewrite (A v). Qed.

Lemma get_or_default_alike (p q : InputParameter.t) (run_inputs : dict pyvalue) :
  input_alike p q -> get_or_default run_inputs p = get_or_default run_inputs q.
Proof.
  intros [A _]. apply param_alike_fields in A as (N & _ & D).
  unfold get_or_default, input_name. now rewrite N, D.
Qed.

Lemma seed_dry_run_alike (l l' : list InputParameter.t) (run_inputs : dict pyvalue) :
  Forall2 input_alike l l' -> seed_dry_run l run_inputs = seed_dry_run l' run_inputs.
Proof.
  intro F. revert run_inputs. induction F as [|p q l l' [A _] _ IH]; intro run_inputs;
    [reflexivity|].
  apply param_alike_fields in A as (N & T & _).
  cbn [seed_dry_run]. unfold get_dry_run_value, input_name. rewrite N, T.
  destruct (Param.data_type (InputParameter.base q)); try reflexivity; apply IH.
Qed.

(** The validation loop gives the same outcome on two states of the inputs,
    and the same inputs when it completes; what it leaves is a state of the
    inputs it started from. *)
Lemma bind_inputs_alike (l l' : list InputParameter.t) (run_inputs : dict pyvalue) :
  Forall2 input_alike l l' ->
  forall errs,
    snd (bind_inputs l run_inputs errs) = snd (bind_inputs l' run_inputs errs)
    /\ (forall errs', snd (bind_inputs l run_inputs errs) = Ok errs' ->
          fst (bind_inputs l run_inputs errs) = fst (bind_inputs l' run_inputs errs))
    /\ Forall2 input_alike l (fst (bind_inputs l run_inputs errs)).
Proof.
  induction 1 as [|p q l l' A F IH]; intro errs.
  - repeat split; constructor.
  - cbn [bind_inputs]. rewrite (get_or_default_alike p q run_inputs A).
    destruct A as [A P]. rewrite (set_value_alike _ _ (get_or_default run_inputs q) A).
    rewrite P.
    assert (K : forall b, input_alike p
              {| InputParameter.base :=
                   Param.with_value (InputParameter.base q) b;
                 InputParameter.user_permission := InputParameter.user_permission q |}).
    { intro b. split; simpl; [|exact P]. intro w. apply (A w). }
    assert (R : Forall2 input_alike l l).
    { clear -F. induction F; constructor; auto. split; [intro; reflexivity|reflexivity]. }
    unfold set_value.
    destruct (model_validators _) as [[]|e|]; simpl;
      try (repeat split; [discriminate | constructor; [apply K | exact R]]).
    destruct (value_validation _) as [errors|e|]; simpl;
      try (repeat split; [discriminate | constructor; [apply K | exact R]]).
    match goal with
    | |- context [bind_inputs l run_inputs ?x] => destruct (IH x) as (O & S & G)
    end.
    destruct (bind_inputs l run_inputs _) as [r o], (bind_inputs l' run_inputs _) as [r' o'].
    simpl in *. repeat split.
    + exact O.
    + intros errs' E. now rewrite (S errs' E).
    + constructor; [apply K | exact G].
Qed.

Lemma step_alike_fields (s t : WorkflowStep.t) :
  step_alike s t ->
  WorkflowStep.name s = WorkflowStep.name t
  /\ WorkflowStep.type s = WorkflowStep.type t
  /\ WorkflowStep.inputs s = WorkflowStep.inputs t.
Proof.
  intro A. specialize (A None None). repeat split.
  - exact (f_equal WorkflowStep.name A).
  - exact (f_equal WorkflowStep.type A).
  - exact (f_equal WorkflowStep.inputs A).
Qed.

Lemma step_alike_rebound (s : WorkflowStep.t) c b : step_alike s (with_step s c b).
Proof. intros c' b'. reflexivity. Qed.

Lemma step_alike_trans (s t u : WorkflowStep.t) :
  step_alike s t -> step_alike t u -> step_alike s u.
Proof. intros A B c b. now rewrite (A c b), (B c b). Qed.

(** [init_input] gives the same outcome on two states of a step, and the same
    step when it completes. *)
Lemma init_input_alike (s t : WorkflowStep.t) :
  step_alike s t -> consistent s -> consistent t ->
  snd (init_input s) = snd (init_input t)
  /\ (snd (init_input s) = Ok tt -> fst (init_input s) = fst (init_input t)).
Proof.
  intros A Cs Ct. pose proof (step_alike_fields _ _ A) as (N & T & I).
  unfold init_input. rewrite <- N, <- T, <- I.
  destruct (dict_get (WorkflowStep.type s) registered_steps) as [cls|] eqn:G.
  - destruct (construct cls _ _) as [b|e|]; simpl; split; try reflexivity;
      try discriminate. intros _. apply A.
  - simpl. split; [reflexivity|]. intros _.
    rewrite (Cs G). rewrite T in G. rewrite (Ct G). apply A.
Qed.

Lemma init_input_state (s : WorkflowStep.t) :
  consistent s ->
  step_alike s (fst (init_input s)) /\ consistent (fst (init_input s)).
Proof.
  intro C. unfold init_input.
  destruct (dict_get (WorkflowStep.type s) registered_steps) as [cls|] eqn:G.
  - destruct (construct cls _ _) as [b|e|]; simpl;
      (split; [apply step_alike_rebound | intro H;
         change (dict_get (WorkflowStep.type s) registered_steps = None) in H;
         congruence]).
  - simpl. split; [apply step_alike_rebound|]. intros _. exact (C G).
Qed.

Lemma WorkflowStep_run_state (fuel : nat) (s : WorkflowStep.t)
    (context : dict pyvalue) (dry_run : bool) :
  consistent s ->
  let s' := fst (fst (WorkflowStep_run fuel s context dry_run)) in
  step_alike s s' /\ consistent s'.
Proof.
  intro C. unfold WorkflowStep_run.
  destruct (WorkflowStep._step s) as [b|] eqn:B.
  - destruct (BaseStep_run fuel b context dry_run) as [[b' c'] o]. simpl.
    split; [apply step_alike_rebound|]. intro G.
    change (dict_get (WorkflowStep.type s) registered_steps = None) in G.
    rewrite (C G) in B. discriminate.
  - simpl. split; [intros c b; reflexivity | exact C].
Qed.

Lemma Forall2_alike_refl (l : list WorkflowStep.t) : Forall2 step_alike l l.
Proof. induction l; constructor; auto. intros c b. reflexivity. Qed.


Lemma run_steps_alike (fuel : nat) (dry_run : bool) (l l' : list WorkflowStep.t) :
  Forall2 step_alike l l' -> Forall consistent l -> Forall consistent l' ->
  forall context status result,
    snd (run_steps fuel dry_run l context status result)
    = snd (run_steps fuel dry_run l' context status result).
Proof.
  induction 1 as [|s t l l' A F IH]; intros Cl Cl' context status result;
    [reflexivity|].
  inversion Cl as [|? ? Cs Cr]; inversion Cl' as [|? ? Ct Cr']; subst.
  cbn [run_steps].
  destruct (init_input_alike s t A Cs Ct) as [O S].
  destruct (init_input s) as [s1 o1], (init_input t) as [t1 o1'].
  simpl in O, S. subst o1'.
  destruct o1 as [[]|e|]; try reflexivity.
  specialize (S eq_refl). subst t1.
  destruct (WorkflowStep_run fuel s1 context dry_run) as [[s2 c2] o2].
  destruct o2 as [r|e|]; try reflexivity.
  match goal with
  | |- context [run_steps fuel dry_run l c2 ?st ?res] =>
      specialize (IH Cr Cr' c2 st res);
      destruct (run_steps fuel dry_run l c2 st res) as [[x1 x2] x3],
               (run_steps fuel dry_run l' c2 st res) as [[y1 y2] y3]
  end.
  exact IH.
Qed.

Lemma run_steps_state (fuel : nat) (dry_run : bool) (l : list WorkflowStep.t) :
  Forall consistent l ->
  forall context status result,
    let l' := fst (fst (run_steps fuel dry_run l context status result)) in
    Forall2 step_alike l l' /\ Forall consistent l'.
Proof.
  induction 1 as [|s l Cs Cl IH]; intros context status result.
  - simpl. split; constructor.
  - cbn [run_steps].
    destruct (init_input_state s Cs) as [A1 C1].
    destruct (init_input s) as [s1 o1]. simpl in A1, C1.
    assert (stop : forall s' c, step_alike s s' -> consistent s' ->
              Forall2 step_alike (s :: l) (fst (s' :: l, c))
              /\ Forall consistent (fst (s' :: l, c : dict pyvalue))).
    { intros s' c A C. simpl. split; constructor; auto. apply Forall2_alike_refl. }
    destruct o1 as [[]|e|]; try (apply stop; assumption).
    destruct (WorkflowStep_run_state fuel s1 context dry_run C1) as [A2 C2].
    destruct (WorkflowStep_run fuel s1 context dry_run) as [[s2 c2] o2].
    simpl in A2, C2. pose proof (step_alike_trans _ _ _ A1 A2) as A.
    destruct o2 as [r|e|]; try (apply stop; assumption).
    match goal with
    | |- context [run_steps fuel dry_run l c2 ?st ?res] =>
        specialize (IH c2 st res);
        destruct (run_steps fuel dry_run l c2 st res) as [[x1 x2] x3]
    end.
    simpl in *. destruct IH as [IH1 IH2]. split; constructor; auto.
Qed.

(** The outcome of [run], and what it leaves in the caller's dictionary, are
    the same from any two consistent states of one definition. *)
Lemma run_alike (fuel : nat) (w w' : WorkflowDef.t)
    (run_inputs : option (dict pyvalue)) (dry_run : bool) :
  alike w w' -> well_formed w -> well_formed w' ->
  snd (run fuel w run_inputs dry_run) = snd (run fuel w' run_inputs dry_run)
  /\ snd (fst (run fuel w run_inputs dry_run))
     = snd (fst (run fuel w' run_inputs dry_run)).
Proof.
  intros (AI & AS & _) W W'. unfold run.
  set (ri := match run_inputs with Some d => d | None => [] end).
  assert (E0 : (if dry_run then seed_dry_run (WorkflowDef.inputs w) ri else (ri, Ok tt))
             = (if dry_run then seed_dry_run (WorkflowDef.inputs w') ri else (ri, Ok tt))).
  { destruct dry_run; [|reflexivity]. now apply seed_dry_run_alike. }
  rewrite <- E0. destruct (if dry_run then _ else _) as [ri1 o0].
  destruct o0 as [[]|e|]; try (split; reflexivity).
  destruct (bind_inputs_alike _ _ ri1 AI []) as (O & S & _).
  destruct (bind_inputs (WorkflowDef.inputs w) ri1 []) as [i1 o1],
           (bind_inputs (WorkflowDef.inputs w') ri1 []) as [i1' o1'].
  simpl in O, S. subst o1'.
  destruct o1 as [[|err errs]|e|]; try (split; reflexivity).
  rewrite <- (S [] eq_refl).
  match goal with
  | |- context [run_steps fuel dry_run (WorkflowDef.steps w) ?c ?st ?res] =>
      pose proof (run_steps_alike fuel dry_run _ _ AS W W' c st res) as R;
      destruct (run_steps fuel dry_run (WorkflowDef.steps w) c st res) as [[x1 x2] x3],
               (run_steps fuel dry_run (WorkflowDef.steps w') c st res) as [[y1 y2] y3]
  end.
  simpl in R. subst y3. split; reflexivity.
Qed.

(** What [run] leaves behind is a consistent state of the same definition. *)
Lemma run_state (fuel : nat) (w : WorkflowDef.t)
    (run_inputs : option (dict pyvalue)) (dry_run : bool) :
  well_formed w ->
  let w' := fst (fst (run fuel w run_inputs dry_run)) in
  alike w w' /\ well_formed w'.
Proof.
  intro W. unfold run.
  set (ri := match run_inputs with Some d => d | None => [] end).
  assert (RI : Forall2 input_alike (WorkflowDef.inputs w) (WorkflowDef.inputs w)).
  { induction (WorkflowDef.inputs w); constructor; auto.
    split; [intro; reflexivity | reflexivity]. }
  assert (keep : forall i,
            Forall2 input_alike (WorkflowDef.inputs w) i ->
            alike w (with_state w i (WorkflowDef.steps w))
            /\ well_formed (with_state w i (WorkflowDef.steps w))).
  { intros i F. split; [|exact W].
    repeat split; [exact F | apply Forall2_alike_refl]. }
  destruct (if dry_run then _ else _) as [ri1 o0].
  destruct o0 as [[]|e|];
    try (simpl; split; [repeat split; [exact RI | apply Forall2_alike_refl] | exact W]).
  destruct (bind_inputs_alike _ _ ri1 RI []) as (_ & _ & G).
  destruct (bind_inputs (WorkflowDef.inputs w) ri1 []) as [i1 o1]. simpl in G.
  destruct o1 as [[|err errs]|e|]; try (simpl; now apply keep).
  match goal with
  | |- context [run_steps fuel dry_run (WorkflowDef.steps w) ?c ?st ?res] =>
      destruct (run_steps_state fuel dry_run _ W c st res) as [A C];
      destruct (run_steps fuel dry_run (WorkflowDef.steps w) c st res) as [[x1 x2] x3]
  end.
  simpl in *. split; [|exact C]. repeat split; assumption.
Qed.


(** ** Passing the same dictionary again *)

Lemma dict_set_id {V} (k : string) (v : V) (d : dict V) :
  dict_get k d = Some v -> dict_set k v d = d.
Proof.
  induction d as [|[k' v'] d IH]; simpl; [discriminate|].
  destruct (String.eqb_spec k k') as [->|N]; intro H.
  - now inversion H.
  - now rewrite (IH H).
Qed.

Lemma dict_set_set {V} (k : string) (v v' : V) (d : dict V) :
  dict_set k v (dict_set k v' d) = dict_set k v d.
Proof.
  induction d as [|[k0 v0] d IH]; simpl.
  - now rewrite String.eqb_refl.
  - destruct (String.eqb k k0) eqn:E; simpl; rewrite E; [reflexivity | now rewrite IH].
Qed.

Lemma dict_has_set {V} (k k' : string) (v : V) (d : dict V) :
  dict_has k d = true -> dict_has k (dict_set k' v d) = true.
Proof.
  unfold dict_has. destruct (String.eqb_spec k k') as [->|N].
  - now rewrite dict_get_set_same.
  - now rewrite (dict_get_set_other k k' v d N).
Qed.

(** Two stores commute when one of the keys is already there. *)
Lemma dict_set_comm {V} (k k' : string) (v v' : V) (d : dict V) :
  k <> k' -> dict_has k d = true ->
  dict_set k v (dict_set k' v' d) = dict_set k' v' (dict_set k v d).
Proof.
  intros N. unfold dict_has. induction d as [|[k0 v0] d IH]; simpl; [discriminate|].
  destruct (String.eqb_spec k k0) as [->|N0]; intro H.
  - rewrite (proj2 (String.eqb_neq k' k0)) by congruence. simpl.
    rewrite String.eqb_refl, (proj2 (String.eqb_neq k' k0)) by congruence.
    reflexivity.
  - destruct (String.eqb_spec k' k0) as [->|N1]; simpl.
    + rewrite (proj2 (String.eqb_neq k k0)) by congruence.
      now rewrite String.eqb_refl.
    + rewrite (proj2 (String.eqb_neq k k0)), (proj2 (String.eqb_neq k' k0))
        by congruence.
      now rewrite (IH H).
Qed.

Lemma seeded_cons (p : InputParameter.t) (l : list InputParameter.t)
    (d : dict pyvalue) :
  seeded (p :: l) d = seeded l (dict_set (input_name p) (placeholder p) d).
Proof. reflexivity. Qed.

Lemma seeded_has (l : list InputParameter.t) (d : dict pyvalue) (k : string) :
  dict_has k d = true -> dict_has k (seeded l d) = true.
Proof.
  revert d. induction l as [|p l IH]; intros d H; [exact H|].
  rewrite seeded_cons. apply IH. now apply dict_has_set.
Qed.

(** A store is lost when the key is there and the loop stores it later. *)
Lemma seeded_absorbs (l : list InputParameter.t) (d : dict pyvalue) (k : string)
    (v : pyvalue) :
  In k (map input_name l) -> dict_has k d = true ->
  seeded l (dict_set k v d) = seeded l d.
Proof.
  revert d. induction l as [|q l IH]; intros d I H; [contradiction|].
  rewrite !seeded_cons.
  destruct (string_dec (input_name q) k) as [E|N].
  - rewrite E. now rewrite dict_set_set.
  - rewrite <- (dict_set_comm k (input_name q) v (placeholder q) d)
      by (assumption || congruence).
    apply IH.
    + destruct I as [I|I]; [congruence | exact I].
    + now apply dict_has_set.
Qed.

Lemma seeded_idempotent (l : list InputParameter.t) (d : dict pyvalue) :
  seeded l (seeded l d) = seeded l d.
Proof.
  revert d. induction l as [|p l IH]; intro d; [reflexivity|].
  rewrite !seeded_cons.
  set (d1 := dict_set (input_name p) (placeholder p) d).
  assert (H1 : dict_has (input_name p) (seeded l d1) = true).
  { apply seeded_has. unfold d1, dict_has. now rewrite dict_get_set_same. }
  destruct (in_dec string_dec (input_name p) (map input_name l)) as [I|I].
  - rewrite seeded_absorbs by assumption. apply IH.
  - rewrite dict_set_id; [apply IH|].
    rewrite seeded_frame by exact I. apply dict_get_set_same.
Qed.

(** The dry-run loop stores the placeholders of a prefix of the inputs, the
    same prefix whatever the dictionary. *)
Lemma seed_dry_run_prefix (l : list InputParameter.t) :
  exists l1 o, forall d, seed_dry_run l d = (seeded l1 d, o).
Proof.
  induction l as [|p l (l1 & o & IH)].
  - exists [], (Ok tt). reflexivity.
  - destruct (get_dry_run_value (InputParameter.base p)) as [v|e|] eqn:E.
    + exists (p :: l1), o. intro d. cbn [seed_dry_run]. rewrite E, IH, seeded_cons.
      unfold placeholder. now rewrite E.
    + exists [], (Raise e). intro d. cbn [seed_dry_run]. now rewrite E.
    + exists [], OutOfFuel. intro d. cbn [seed_dry_run]. now rewrite E.
Qed.

Lemma run_same_dictionary (fuel : nat) (w : WorkflowDef.t) (run_inputs : dict pyvalue)
    (dry_run : bool) :
  run fuel w (Some (snd (fst (run fuel w (Some run_inputs) dry_run)))) dry_run
  = run fuel w (Some run_inputs) dry_run.
Proof.
  assert (D : snd (fst (run fuel w (Some run_inputs) dry_run))
              = fst (if dry_run then seed_dry_run (WorkflowDef.inputs w) run_inputs
                     else (run_inputs, Ok tt))).
  { unfold run. destruct (if dry_run then _ else _) as [ri o0].
    destruct o0 as [[]|e|]; try reflexivity.
    destruct (bind_inputs _ _ []) as [i1 o1].
    destruct o1 as [[|err errs]|e|]; try reflexivity.
    destruct (run_steps fuel dry_run _ _ _ _) as [[x1 x2] x3]. reflexivity. }
  rewrite D. destruct dry_run; [|reflexivity].
  destruct (seed_dry_run_prefix (WorkflowDef.inputs w)) as (l1 & o & P).
  unfold run. rewrite !P. simpl fst. now rewrite seeded_idempotent.
Qed.

Lemma WorkflowStep_new_consistent (name type : string) (description : option string)
    (inputs : dict pyvalue) (skip_validation : bool) (step : WorkflowStep.t) :
  WorkflowStep_new name type description inputs skip_validation = Ok step ->
  consistent step.
Proof.
  unfold WorkflowStep_new. intro H.
  apply bind_ok in H as (n & _ & H). apply bind_ok in H as (t & _ & H).
  apply bind_ok in H as (u & _ & H).
  destruct skip_validation.
  - inversion H; subst. intros _. reflexivity.
  - match type of H with
    | context [init_input ?s] =>
        assert (C : consistent s) by (intros _; reflexivity);
        pose proof (init_input_state s C) as [_ C1]; destruct (init_input s) as [s1 o]
    end.
    apply bind_ok in H as (? & _ & H). inversion H; subst. exact C1.
Qed.


(** ** What construction guarantees, and what [run] does not look at *)

Lemma seed_dry_run_ok (inputs : list InputParameter.t) (run_inputs : dict pyvalue) :
  snd (seed_dry_run inputs run_inputs) = Ok tt -> Forall has_placeholder inputs.
Proof.
  revert run_inputs. induction inputs as [|p l IH]; intros run_inputs H; [constructor|].
  cbn [seed_dry_run] in H.
  destruct (get_dry_run_value (InputParameter.base p)) as [v|e|] eqn:E;
    try discriminate.
  constructor; [now exists v | exact (IH _ H)].
Qed.

(** A definition that passed the dry run of its construction has placeholder
    types on all its inputs. *)
Lemma validated_inputs_have_placeholders (fuel : nat) (self : WorkflowDef.t) :
  WorkflowDef.skip_validation self = false ->
  snd (validate_dry_run fuel self) = Ok tt ->
  Forall has_placeholder (WorkflowDef.inputs self).
Proof.
  intros S. unfold validate_dry_run, run. rewrite S.
  destruct (seed_dry_run (WorkflowDef.inputs self) []) as [ri o0] eqn:E0.
  intro H. apply (seed_dry_run_ok _ []). rewrite E0. simpl.
  destruct o0 as [[]|e|]; [reflexivity | |]; simpl in H.
  - destruct e; discriminate.
  - discriminate.
Qed.

Lemma bind_inputs_permissions (l l' : list InputParameter.t) (run_inputs : dict pyvalue) :
  map InputParameter.base l = map InputParameter.base l' ->
  forall errs,
    snd (bind_inputs l run_inputs errs) = snd (bind_inputs l' run_inputs errs)
    /\ map InputParameter.base (fst (bind_inputs l run_inputs errs))
       = map InputParameter.base (fst (bind_inputs l' run_inputs errs)).
Proof.
  revert l'. induction l as [|p l IH]; intros [|q l'] E errs; try discriminate.
  - split; reflexivity.
  - simpl in E. inversion E as [[Ep El]]. cbn [bind_inputs].
    unfold get_or_default, input_name. rewrite Ep.
    destruct (set_value (InputParameter.base q) _) as [base' o].
    destruct o as [[]|e|]; simpl; try (split; [reflexivity | now rewrite El]).
    destruct (value_validation base') as [errors|e|]; simpl;
      try (split; [reflexivity | now rewrite El]).
    match goal with
    | |- context [bind_inputs l run_inputs ?x] => destruct (IH l' El x) as [O M]
    end.
    destruct (bind_inputs l run_inputs _) as [r o], (bind_inputs l' run_inputs _) as [r' o'].
    simpl in *. split; [exact O | now rewrite M].
Qed.

Lemma dict_of_map {A B V} (f : A -> B) (key : B -> string) (val : B -> V) (l : list A)
    (d : dict V) :
  fold_left (fun d x => dict_set (key (f x)) (val (f x)) d) l d
  = fold_left (fun d y => dict_set (key y) (val y) d) (map f l) d.
Proof. revert d. induction l as [|x l IH]; intro d; simpl; [reflexivity | apply IH]. Qed.

(** The permission of an input has no part in [run]: two definitions that
    differ in permissions only have the same outcome on the same inputs. *)
Lemma run_ignores_permissions (fuel : nat) (w w' : WorkflowDef.t)
    (run_inputs : option (dict pyvalue)) :
  same_but_permissions w w' ->
  snd (run fuel w run_inputs false) = snd (run fuel w' run_inputs false).
Proof.
  intros [EI ES]. unfold run.
  destruct (bind_inputs_permissions _ _
              (match run_inputs with Some d => d | None => [] end) EI []) as [O M].
  destruct (bind_inputs (WorkflowDef.inputs w) _ []) as [i o],
           (bind_inputs (WorkflowDef.inputs w') _ []) as [i' o'].
  simpl in O, M. subst o'. rewrite <- ES.
  destruct o as [[|err errs]|e|]; try reflexivity.
  unfold dict_of, input_name.
  rewrite (dict_of_map InputParameter.base (fun b => "input." ++ Param.name b)
             Param.value i),
          (dict_of_map InputParameter.base (fun b => "input." ++ Param.name b)
             Param.value i'), M.
  destruct (run_steps fuel false _ _ _ _) as [[x1 x2] x3]. reflexivity.
Qed.


(* ------------------------------------------------------------------ *)
(** ** More on [fill_value]: plain text, one reference, a reference to itself *)

Lemma expect_other (c d : ascii) (r : string) :
  Ascii.eqb c d = false -> expect c (String d r) = None.
Proof. intro H. simpl. now rewrite Ascii.eqb_sym, H. Qed.

Lemma re_search_here (s : string) (m : Match) :
  match_here s = Some m -> re_search s = Some m.
Proof.
  intro H. destruct s as [|c s]; [discriminate H|].
  cbn [re_search]. now rewrite H.
Qed.

(** A search skips text that has no at-sign. *)
Lemma re_search_plain_prefix (pre s : string) :
  count_char "@" pre = 0 -> re_search (pre ++ s) = re_search s.
Proof.
  induction pre as [|c pre IH]; intro H; [reflexivity|].
  cbn [count_char] in H. destruct (Ascii.eqb "@" c) eqn:E; [discriminate|].
  change (String c pre ++ s) with (String c (pre ++ s)). cbn [re_search].
  unfold match_here at 1. rewrite (expect_other _ _ _ E). now apply IH.
Qed.

Lemma re_search_plain (s : string) : count_char "@" s = 0 -> re_search s = None.
Proof.
  intro H. rewrite <- (append_nil_r s). now rewrite re_search_plain_prefix.
Qed.

Lemma prefix_other (c d : ascii) (old r : string) :
  Ascii.eqb c d = false -> String.prefix (String c old) (String d r) = false.
Proof.
  intro H. simpl. destruct (ascii_dec c d) as [->|]; [|reflexivity].
  now rewrite Ascii.eqb_refl in H.
Qed.

(** Replacing a text that starts with an at-sign leaves text without one
    alone. *)
Lemma replace_plain_prefix (old new pre s : string) :
  count_char "@" pre = 0 ->
  replace_from (String "@" old) new 0 (pre ++ s)
  = pre ++ replace_from (String "@" old) new 0 s.
Proof.
  induction pre as [|c pre IH]; intro H; [reflexivity|].
  cbn [count_char] in H. destruct (Ascii.eqb "@" c) eqn:E; [discriminate|].
  change (String c pre ++ s) with (String c (pre ++ s)).
  rewrite replace_from_miss by (now apply prefix_other).
  now rewrite IH.
Qed.

Lemma token_starts_with_at (tok w1 w2 : string) :
  reference_token is_space tok w1 w2 -> exists t, tok = String "@" t.
Proof. intros (? & ? & ? & ? & _ & _ & _ & _ & _ & _ & ->). simpl. eauto. Qed.

(** The text around a single reference stays, the reference becomes the
    value. *)
Lemma fill_turn_single (pre post tok w1 w2 : string) (context : dict pyvalue)
    (cur : string) (v : pyvalue) :
  count_char "@" pre = 0 -> count_char "@" post = 0 ->
  reference_token is_space tok w1 w2 ->
  dict_get (w1 ++ "." ++ w2) context = Some v -> is_none v = false ->
  fill_turn (pre ++ tok ++ post) context cur = Continue (pre ++ py_str v ++ post).
Proof.
  intros P Q T G N. unfold fill_turn.
  rewrite (re_search_plain_prefix pre _ P),
          (re_search_here _ _ (match_here_complete tok w1 w2 post T)).
  cbn [group0 group1 group2]. unfold py_get. rewrite G, N.
  destruct (token_starts_with_at _ _ _ T) as [t ->].
  unfold replace. cbn [is_empty].
  rewrite (replace_plain_prefix t _ pre _ P).
  rewrite replace_from_hit by discriminate.
  rewrite <- (append_nil_r post) at 1.
  rewrite (replace_plain_prefix t _ post "" Q). simpl.
  now rewrite append_nil_r.
Qed.

Lemma fill_value_plain (fuel : nat) (value_str : string)
    (context : dict pyvalue) (cur : string) :
  count_char "@" value_str = 0 ->
  fill_value (S fuel) (VStr value_str) context cur = Ok (VStr value_str).
Proof.
  intro H. simpl. unfold fill_turn. now rewrite (re_search_plain _ H).
Qed.

(** X1. A string without an at-sign holds no reference: [fill_value] returns it
    unchanged, whatever the context. *)
Theorem fill_value_plain_text (fuel : nat) (value_str : string)
    (context : dict pyvalue) (cur : string) :
  count_char "@" value_str = 0 ->
  fill_value (S fuel) (VStr value_str) context cur = Ok (VStr value_str).
Proof. apply fill_value_plain. Qed.

Lemma fill_value_single (fuel : nat) (pre post tok w1 w2 : string)
    (context : dict pyvalue) (cur : string) (v : pyvalue) :
  count_char "@" pre = 0 -> count_char "@" post = 0 ->
  reference_token is_space tok w1 w2 ->
  dict_get (w1 ++ "." ++ w2) context = Some v -> is_none v = false ->
  count_char "@" (py_str v) = 0 ->
  fill_value (S (S fuel)) (VStr (pre ++ tok ++ post)) context cur
  = Ok (VStr (pre ++ py_str v ++ post)).
Proof.
  intros P Q T G N V.
  change (fill_value (S (S fuel)) (VStr (pre ++ tok ++ post)) context cur)
    with (s <- fill_loop (S (S fuel)) (pre ++ tok ++ post) context cur ;; Ok (VStr s)).
  cbn [fill_loop]. rewrite (fill_turn_single pre post tok w1 w2 context cur v P Q T G N).
  unfold fill_turn. rewrite re_search_plain; [reflexivity|].
  rewrite !count_char_app. lia.
Qed.

(** X2. A string made of text without at-sign around one reference whose key
    maps to a value that is not None and prints without at-sign resolves to
    the same text around the printed value. *)
Theorem fill_value_single_reference (fuel : nat) (pre post tok w1 w2 : string)
    (context : dict pyvalue) (cur : string) (v : pyvalue) :
  count_char "@" pre = 0 -> count_char "@" post = 0 ->
  reference_token is_space tok w1 w2 ->
  dict_get (w1 ++ "." ++ w2) context = Some v -> is_none v = false ->
  count_char "@" (py_str v) = 0 ->
  fill_value (S (S fuel)) (VStr (pre ++ tok ++ post)) context cur
  = Ok (VStr (pre ++ py_str v ++ post)).
Proof. apply fill_value_single. Qed.

Lemma replace_same (old : string) :
  old <> "" ->
  forall (n : nat) (s : string), String.length s <= n -> replace_from old old 0 s = s.
Proof.
  intro N. induction n as [|n IH]; intros s L.
  - destruct s; [reflexivity | simpl in L; lia].
  - destruct s as [|c s]; [reflexivity|].
    destruct (String.prefix old (String c s)) eqn:P.
    + destruct (prefix_split _ _ P) as [r E]. rewrite E.
      rewrite replace_from_hit by exact N. f_equal. apply IH.
      assert (String.length (String c s) = String.length old + String.length r)
        by (rewrite E; apply length_append).
      destruct old; [congruence|]. simpl in *. lia.
    + rewrite replace_from_miss by exact P. f_equal. apply IH. simpl in L. lia.
Qed.

(** X3. When the key of the reference at hand maps to the text of that very
    reference, every turn of the loop leaves the string as it was: the loop
    of [fill_value] does not end, whatever the fuel. *)
Theorem fill_value_self_reference (value_str : string) (context : dict pyvalue)
    (cur : string) (m : Match) :
  re_search value_str = Some m ->
  dict_get (group1 m ++ "." ++ group2 m) context = Some (VStr (group0 m)) ->
  fill_turn value_str context cur = Continue value_str
  /\ forall fuel, fill_value fuel (VStr value_str) context cur = OutOfFuel.
Proof.
  intros E G.
  assert (T : fill_turn value_str context cur = Continue value_str).
  { unfold fill_turn. rewrite E. unfold py_get. rewrite G. cbn [is_none py_str].
    unfold replace.
    rewrite (proj2 (is_empty_false _) (token_nonempty _ _ _ (re_search_token _ _ E))).
    f_equal. apply (replace_same _ (token_nonempty _ _ _ (re_search_token _ _ E))
                      (String.length value_str)). lia. }
  split; [exact T|].
  induction fuel as [|fuel IH]; [reflexivity|].
  simpl. rewrite T. exact IH.
Qed.


(* ------------------------------------------------------------------ *)
(** ** What a constructed step holds *)

Lemma for_items_ok {V} (f : string -> V -> outcome V) (d d' : dict V) :
  for_items f d = Ok d' ->
  Forall2 (fun x y => fst x = fst y /\ f (fst x) (snd x) = Ok (snd y)) d d'.
Proof.
  revert d'. induction d as [|[k v] d IH]; intros d' H.
  - inversion H. constructor.
  - cbn [for_items] in H. apply bind_ok in H as (v' & Hv & H).
    apply bind_ok in H as (r' & Hr & H). inversion H; subst.
    constructor; [split; [reflexivity | exact Hv] | now apply IH].
Qed.

Lemma Forall2_in_r {A B} (R : A -> B -> Prop) (l : list A) (l' : list B) (y : B) :
  Forall2 R l l' -> In y l' -> exists x, In x l /\ R x y.
Proof.
  induction 1 as [|a b l l' Hab _ IH]; intro H; [contradiction|].
  destruct H as [->|H]; [exists a; split; [now left | exact Hab]|].
  destruct (IH H) as (x & Hx & Rx). exists x. split; [now right | exact Rx].
Qed.

Lemma Forall2_keys {V} (R : string * V -> string * V -> Prop) (d d' : dict V) :
  Forall2 (fun x y => fst x = fst y /\ R x y) d d' -> dict_keys d' = dict_keys d.
Proof.
  induction 1 as [|x y d d' [E _] _ IH]; [reflexivity|].
  unfold dict_keys in *. simpl. now rewrite E, IH.
Qed.

Lemma assign_ok (p p' : Param.t) (v : pyvalue) :
  assign p v = Ok p' -> p' = Param.with_value p v /\ model_validators p' = Ok tt.
Proof.
  unfold assign, set_value. intro H. apply bind_ok in H as ([] & V & H).
  inversion H; subst. split; [reflexivity | exact V].
Qed.

Lemma dict_get_in {V} (k : string) (v : V) (d : dict V) :
  dict_get k d = Some v -> In (k, v) d.
Proof.
  induction d as [|[k' v'] d IH]; simpl; [discriminate|].
  destruct (String.eqb_spec k k') as [->|N]; intro H.
  - inversion H; subst. now left.
  - right. now apply IH.
Qed.

Lemma dict_set_in {V} (k k' : string) (v v' : V) (d : dict V) :
  In (k, v) (dict_set k' v' d) -> (k, v) = (k', v') \/ In (k, v) d.
Proof.
  induction d as [|[k0 v0] d IH]; simpl.
  - intros [H|[]]. left. now symmetry.
  - destruct (String.eqb_spec k' k0) as [->|N]; simpl.
    + intros [H|H]; [left; now symmetry | right; now right].
    + intros [H|H]; [right; now left|].
      destruct (IH H) as [E|I]; [now left | right; now right].
Qed.

Lemma dict_of_in {A V} (key : A -> string) (val : A -> V) (l : list A)
    (k : string) (v : V) :
  In (k, v) (dict_of key val l) -> exists x, In x l /\ key x = k /\ val x = v.
Proof.
  unfold dict_of.
  assert (G : forall d, In (k, v) (fold_left (fun d x => dict_set (key x) (val x) d) l d) ->
                In (k, v) d \/ exists x, In x l /\ key x = k /\ val x = v).
  { induction l as [|a l IH]; intros d H; [now left|].
    cbn [fold_left] in H. destruct (IH _ H) as [I|(x & Hx & E)].
    - apply dict_set_in in I as [E|I]; [|now left].
      inversion E; subst. right. exists a. repeat split. now left.
    - right. exists x. split; [now right | exact E]. }
  intro H. destruct (G [] H) as [[]|E]. exact E.
Qed.

(** X4. A step that [BaseStep.__init__] has built carries the given name; its
    inputs are the declared input parameters, each bound to the keyword given
    for it or else to its default, a required one always to a keyword; its
    outputs are unbound; every parameter it holds passes the validators of
    [Parameter]; and no name is both an input and an output. *)
Theorem BaseStep_init_invariant (cls : StepClass.t) (name : string)
    (output_names : output_names_arg) (kwargs : dict pyvalue) (b : BaseStep.t) :
  BaseStep_init cls name output_names kwargs = Ok b ->
  let self := BaseStep.self b in
  Self.name self = name
  /\ Self.context self = dict_get "context" kwargs
  /\ dict_keys (Self.inputs self)
     = dict_keys (dict_of Param.name (fun k => k) (StepClass.input_parameters cls))
  /\ (forall k p, In (k, p) (Self.inputs self) ->
        (exists q, In q (StepClass.input_parameters cls)
                   /\ Param.name q = k /\ param_alike p q)
        /\ Param.value p = match dict_get k kwargs with
                           | Some v => v
                           | None => Param.default p
                           end
        /\ (Param.optional p = false -> dict_has k kwargs = true)
        /\ model_validators p = Ok tt)
  /\ (forall k p, In (k, p) (Self.outputs self) ->
        Param.value p = VNone /\ model_validators p = Ok tt)
  /\ (forall k, dict_has k (Self.inputs self) = true ->
        dict_has k (Self.outputs self) = false).
Proof.
  unfold BaseStep_init. intro H.
  apply bind_ok in H as (ops & _ & H).
  apply bind_ok in H as (i1 & H1 & H).
  apply bind_ok in H as (o1 & H2 & H).
  apply bind_ok in H as (i2 & H3 & H).
  apply bind_ok in H as (chk & H4 & H).
  inversion H; subst b; clear H. cbn [BaseStep.self Self.name Self.context
    Self.inputs Self.outputs].
  apply for_items_ok in H1, H2, H3, H4.
  repeat split.
  - rewrite (Forall2_keys _ _ _ H3). apply (Forall2_keys _ _ _ H1).
  - destruct (Forall2_in_r _ _ _ _ H3 H) as ([k1 p1] & I1 & Ek & F3).
    destruct (Forall2_in_r _ _ _ _ H1 I1) as ([k0 p0] & I0 & Ek0 & F1).
    simpl in *. subst k1 k0. apply assign_ok in F1 as [-> _].
    apply dict_of_in in I0 as (q & Hq & Nq & Eq). subst p0.
    exists q. repeat split; auto.
    destruct (dict_get k kwargs).
    + apply assign_ok in F3 as [-> _]. intro w. reflexivity.
    + destruct (negb (Param.optional _)); [discriminate|].
      destruct (negb (is_none _)).
      * apply assign_ok in F3 as [-> _]. intro w. reflexivity.
      * inversion F3; subst. intro w. reflexivity.
  - destruct (Forall2_in_r _ _ _ _ H3 H) as ([k1 p1] & I1 & Ek & F3).
    destruct (Forall2_in_r _ _ _ _ H1 I1) as ([k0 p0] & I0 & Ek0 & F1).
    simpl in *. subst k1 k0. apply assign_ok in F1 as [-> _].
    destruct (dict_get k kwargs).
    + now apply assign_ok in F3 as [-> _].
    + destruct (negb (Param.optional _)); [discriminate|].
      destruct (negb (is_none _)) eqn:D.
      * now apply assign_ok in F3 as [-> _].
      * inversion F3; subst. simpl in *.
        destruct (Param.default p0); simpl in D; try discriminate. reflexivity.
  - destruct (Forall2_in_r _ _ _ _ H3 H) as ([k1 p1] & I1 & Ek & F3).
    destruct (Forall2_in_r _ _ _ _ H1 I1) as ([k0 p0] & I0 & Ek0 & F1).
    simpl in *. subst k1 k0. apply assign_ok in F1 as [-> _].
    intro O. unfold dict_has. destruct (dict_get k kwargs); [reflexivity|].
    destruct (negb (Param.optional _)) eqn:D; [discriminate|].
    assert (Param.optional p = Param.optional p0).
    { destruct (negb (is_none _)).
      - now apply assign_ok in F3 as [-> _].
      - now inversion F3. }
    simpl in D. rewrite <- H0, O in D. discriminate.
  - destruct (Forall2_in_r _ _ _ _ H3 H) as ([k1 p1] & I1 & Ek & F3).
    destruct (Forall2_in_r _ _ _ _ H1 I1) as ([k0 p0] & I0 & Ek0 & F1).
    simpl in *. subst k1 k0. apply assign_ok in F1 as [E1 V1].
    destruct (dict_get k kwargs).
    + now apply assign_ok in F3 as [_ V].
    + destruct (negb (Param.optional _)); [discriminate|].
      destruct (negb (is_none _)).
      * now apply assign_ok in F3 as [_ V].
      * inversion F3; subst. exact V1.
  - destruct (Forall2_in_r _ _ _ _ H2 H) as ([k0 p0] & I0 & Ek0 & F).
    simpl in *. now apply assign_ok in F as [-> _].
  - destruct (Forall2_in_r _ _ _ _ H2 H) as ([k0 p0] & I0 & Ek0 & F).
    simpl in *. now apply assign_ok in F as [_ V].
  - intros k D. unfold dict_has in D.
    destruct (dict_get k i2) as [p|] eqn:G; [|discriminate].
    apply dict_get_in in G.
    assert (K : forall d', Forall2 (fun x y : string * Param.t =>
                  fst x = fst y /\
                  (if dict_has (fst x) o1
                   then Raise (PyError "ValueError" ("Duplicate parameter name " ++ fst x))
                   else Ok (snd x)) = Ok (snd y)) i2 d' ->
                dict_has k o1 = false).
    { clear -G. induction i2 as [|[k0 p0] i2 IH]; [contradiction|].
      intros d' F. inversion F as [|? ? ? ? [_ C] F']; subst.
      destruct G as [E|G]; [|now apply (IH G l')].
      inversion E; subst. simpl in C. destruct (dict_has k o1); [discriminate|reflexivity]. }
    exact (K _ H4).
Qed.


(* ------------------------------------------------------------------ *)
(** ** What a validated [WorkflowStep] is *)

Lemma find_none_forall {A} (f : A -> bool) (l : list A) :
  find f l = None -> forall x, In x l -> f x = false.
Proof.
  induction l as [|a l IH]; simpl; [contradiction|].
  destruct (f a) eqn:E; [discriminate|]. intros H x [->|I]; auto.
Qed.

Lemma filter_nil_forall {A} (f : A -> bool) (l : list A) :
  filter f l = [] -> forall x, In x l -> f x = false.
Proof.
  induction l as [|a l IH]; simpl; [contradiction|].
  destruct (f a) eqn:E; [discriminate|]. intros H x [->|I]; auto.
Qed.

(** X5. A step that the constructor of [WorkflowStep] accepts with validation
    on is not called "input", has a registered type, supplies every required
    input of that type and no input the type does not declare, and is bound to
    an instance of that type carrying its name. *)
Theorem WorkflowStep_new_valid (name type : string) (description : option string)
    (inputs : dict pyvalue) (step : WorkflowStep.t) :
  WorkflowStep_new name type description inputs false = Ok step ->
  WorkflowStep.name step = name /\ WorkflowStep.type step = type
  /\ WorkflowStep.inputs step = inputs
  /\ name <> "input"
  /\ exists cls,
       dict_get type registered_steps = Some cls
       /\ (forall p, In p (StepClass.input_parameters cls) ->
             Param.optional p = false -> dict_has (Param.name p) inputs = true)
       /\ (forall k, In k (dict_keys inputs) ->
             In k (map Param.name (StepClass.input_parameters cls)))
       /\ exists b, WorkflowStep._step step = Some b
                    /\ BaseStep.class b = cls
                    /\ Self.name (BaseStep.self b) = name.
Proof.
  unfold WorkflowStep_new. intro H.
  apply bind_ok in H as (n & Hn & H). apply bind_ok in H as (t & Ht & H).
  apply bind_ok in H as ([] & Hv & H).
  unfold validate_name in Hn. destruct (String.eqb_spec name "input") as [|Nn];
    [discriminate|]. inversion Hn; subst n; clear Hn.
  unfold validate_type in Ht. destruct (dict_has type registered_steps) eqn:Dt;
    [|discriminate]. inversion Ht; subst t; clear Ht.
  unfold validate_input in Hv. cbn [WorkflowStep.skip_validation WorkflowStep.type
    WorkflowStep.inputs] in Hv.
  unfold init_input in H. cbn [WorkflowStep.type WorkflowStep.name WorkflowStep.inputs] in H.
  destruct (dict_get type registered_steps) as [cls|] eqn:G; [|discriminate].
  destruct (find _ (StepClass.input_parameters cls)) eqn:F; [discriminate|].
  destruct (filter _ (dict_keys inputs)) eqn:X; [|discriminate].
  destruct (construct cls name inputs) as [b|e|] eqn:K; simpl in H; try discriminate.
  inversion H; subst step; clear H. cbn.
  repeat split; auto. exists cls. repeat split.
  - intros p I O. pose proof (find_none_forall _ _ F p I) as Q. cbv beta in Q.
    rewrite O in Q. simpl in Q. rewrite andb_true_r in Q.
    now apply negb_false_iff in Q.
  - intros k I. pose proof (filter_nil_forall _ _ X k I) as Q. cbv beta in Q.
    apply negb_false_iff in Q. apply existsb_exists in Q as (x & Hx & E).
    apply String.eqb_eq in E. now subst x.
  - exists b. apply construct_identity in K as [Nb Cb]. auto.
Qed.

(** X6. For a registered type, [run_step] does what the loop of
    [WorkflowDef.run] does with a step of the same name, type and inputs:
    [init_input], then [run]; it gives the same result and leaves the same
    context. *)
Theorem run_step_as_workflow_step (fuel : nat) (step : WorkflowStep.t)
    (context : dict pyvalue) (dry_run : bool) :
  dict_has (WorkflowStep.type step) registered_steps = true ->
  run_step fuel (WorkflowStep.name step) (WorkflowStep.type step)
           (WorkflowStep.inputs step) context dry_run
  = match init_input step with
    | (step1, Ok _) =>
        let '((_, context'), o) := WorkflowStep_run fuel step1 context dry_run in
        (context', o)
    | (_, Raise e) => (context, Raise e)
    | (_, OutOfFuel) => (context, OutOfFuel)
    end.
Proof.
  unfold dict_has, run_step, init_input. intro H.
  destruct (dict_get (WorkflowStep.type step) registered_steps) as [cls|];
    [|discriminate].
  destruct (construct cls _ _) as [b|e|]; try reflexivity.
  unfold WorkflowStep_run. cbn [with_step WorkflowStep._step WorkflowStep._step_class].
  destruct (BaseStep_run fuel b context dry_run) as [[b' c'] o]. reflexivity.
Qed.

(* ------------------------------------------------------------------ *)
(** ** What a step writes into the context *)








(* ------------------------------------------------------------------ *)
(** ** The dummy step *)

Lemma fill_value_not_none (fuel : nat) (v x : pyvalue) (context : dict pyvalue)
    (cur : string) :
  is_none v = false -> fill_value fuel v context cur = Ok x -> is_none x = false.
Proof.
  intros N H. destruct v; simpl in *; try discriminate; try (inversion H; reflexivity).
  apply bind_ok in H as (s0 & _ & H). now inversion H.
Qed.

(** A dummy step built from the single input [v], run where [v] resolves to
    [x]. *)
Lemma dummy_step_runs (fuel : nat) (name : string) (v x : pyvalue)
    (context : dict pyvalue) (dry_run : bool) :
  is_none v = false -> fill_value fuel v context name = Ok x ->
  exists b, construct DummyStep name [("input", v)] = Ok b
    /\ snd (fst (BaseStep_run fuel b context dry_run)) = echo_context name x context
    /\ snd (BaseStep_run fuel b context dry_run) = Ok (echo_result name x).
Proof.
  intros N H. pose proof (fill_value_not_none _ _ _ _ _ N H) as Nx.
  eexists. split; [reflexivity|].
  unfold BaseStep_run, try_body. cbn -[fill_value is_none].
  rewrite N. cbn -[fill_value is_none]. rewrite H. cbn -[is_none]. rewrite ?Nx.
  cbn -[is_none]. rewrite ?Nx. split; reflexivity.
Qed.


(** X8. [run_step] on a dummy step whose input is not None and resolves to [x]
    succeeds in either mode, returns [x] as the output [output], and leaves
    [x] in the context under ["<name>.input"] and ["<name>.output"]. *)
Theorem dummy_step_echo (fuel : nat) (name : string) (v x : pyvalue)
    (context : dict pyvalue) (dry_run : bool) :
  is_none v = false -> fill_value fuel v context name = Ok x ->
  run_step fuel name "dummy" [("input", v)] context dry_run
  = (echo_context name x context, Ok (echo_result name x)).
Proof.
  intros N H. destruct (dummy_step_runs fuel name v x context dry_run N H)
    as (b & K & C & R).
  unfold run_step. change (dict_get "dummy" registered_steps) with (Some DummyStep).
  cbv iota beta. rewrite K. destruct (BaseStep_run fuel b context dry_run) as [[b' c'] o].
  simpl in C, R. now subst.
Qed.

(** The loop of [run] over a dummy step whose input resolves to [x]. *)
Lemma dummy_in_loop (fuel : nat) (dry_run : bool) (name : string) (v x : pyvalue)
    (rest : list WorkflowStep.t) (context : dict pyvalue)
    (status : WorkflowRunStatus.t) (result : list WorkflowStepResult.t) :
  is_none v = false -> fill_value fuel v context name = Ok x ->
  snd (run_steps fuel dry_run (new_step name "dummy" [("input", v)] :: rest)
         context status result)
  = snd (run_steps fuel dry_run rest (echo_context name x context) status
           (app result [echo_result name x])).
Proof.
  intros N H. destruct (dummy_step_runs fuel name v x context dry_run N H)
    as (b & K & C & R).
  cbn [run_steps]. unfold init_input.
  cbn [new_step WorkflowStep.type WorkflowStep.name WorkflowStep.inputs].
  change (dict_get "dummy" registered_steps) with (Some DummyStep).
  cbv iota beta. rewrite K. unfold WorkflowStep_run. cbn [with_step WorkflowStep._step].
  destruct (BaseStep_run fuel b context dry_run) as [[b' c'] o].
  simpl in C, R. subst c' o. cbn [echo_result WorkflowStepResult.status
    WorkflowStepStatus.eqb].
  destruct (run_steps fuel dry_run rest _ status _) as [[x1 x2] x3]. reflexivity.
Qed.

(** X9. In a workflow of two dummy steps where the first has a plain input and
    the input of the second is the reference [@{<first>.output}], a live run
    succeeds and the second step receives and returns the input of the
    first. *)
Theorem reference_to_previous_output (fuel : nat) (name step1 step2 input : string)
    (run_inputs : option (dict pyvalue)) :
  is_name step1 -> count_char "@" input = 0 ->
  snd (run (S (S fuel)) (chained_workflow name step1 step2 input) run_inputs false)
  = Ok {| WorkflowRunResult.status := WorkflowRunStatus.SUCCESS;
          WorkflowRunResult.result :=
            [echo_result step1 (VStr input); echo_result step2 (VStr input)] |}.
Proof.
  intros N1 P. unfold run, chained_workflow.
  cbn [new_workflow WorkflowDef.inputs WorkflowDef.steps bind_inputs dict_of fold_left].
  assert (T : reference_token is_space ("@{" ++ step1 ++ ".output}") step1 "output").
  { exists "", "", "", "". unfold is_name. repeat split; try reflexivity;
      try apply N1; discriminate. }
  assert (F2 : fill_value (S (S fuel)) (VStr ("@{" ++ step1 ++ ".output}"))
                 (echo_context step1 (VStr input) []) step2 = Ok (VStr input)).
  { pose proof (fill_value_single fuel "" "" _ _ _
                  (echo_context step1 (VStr input) []) step2 (VStr input)
                  eq_refl eq_refl T) as F.
    cbn [append py_str] in F.
    specialize (F (dict_get_set_same _ _ _) eq_refl P).
    rewrite !append_nil_r in F. exact F. }
  match goal with
  | |- snd (let '(_, o) := ?rs in _) = _ =>
      assert (R : snd rs = Ok (WorkflowRunStatus.SUCCESS,
                    [echo_result step1 (VStr input); echo_result step2 (VStr input)]));
      [|destruct rs as [[x1 x2] x3]; simpl in R; subst x3; reflexivity]
  end.
  rewrite (dummy_in_loop (S (S fuel)) false step1 (VStr input) (VStr input)
             _ [] _ [] eq_refl (fill_value_plain (S fuel) input [] step1 P)).
  rewrite (dummy_in_loop (S (S fuel)) false step2
             (VStr ("@{" ++ step1 ++ ".output}")) (VStr input) [] _ _ _ eq_refl F2).
  reflexivity.
Qed.


(* ------------------------------------------------------------------ *)
(** ** Inputs that stop a run *)

Lemma bind_inputs_errors (l : list InputParameter.t) (run_inputs : dict pyvalue) :
  forall errs0 errs,
    snd (bind_inputs l run_inputs errs0) = Ok errs ->
    (forall e, In e errs0 -> In e errs)
    /\ (forall p, In p l ->
          Param.optional (InputParameter.base p) = false ->
          get_or_default run_inputs p = VNone ->
          In (required_message (input_name p)) errs
          /\ In (invalid_message (input_name p) [required_message (input_name p)]) errs).
Proof.
  induction l as [|q l IH]; intros errs0 errs H.
  - simpl in H. inversion H; subst. split; [auto | contradiction].
  - cbn [bind_inputs] in H. unfold set_value in H.
    destruct (model_validators _) as [[]|e|]; try discriminate.
    destruct (value_validation _) as [errors|e|] eqn:V; try discriminate.
    match type of H with
    | context [bind_inputs l run_inputs ?x] =>
        specialize (IH x errs);
        destruct (bind_inputs l run_inputs x) as [r o] eqn:B
    end.
    simpl in H. subst o. destruct (IH eq_refl) as [K M]. clear IH. split.
    + intros e I. apply K.
      destruct errors; destruct (_ && _);
        repeat first [assumption | apply in_or_app; left].
    + intros p [->|I] O D; [|now apply M].
      unfold value_validation in V. cbn [Param.with_value Param.value Param.optional
        Param.name] in *.
      rewrite D, O in *. cbn [is_none negb andb] in *. inversion V; subst errors.
      split; apply K.
      * apply in_or_app; left. apply in_or_app; right. now left.
      * apply in_or_app; right. now left.
Qed.

Lemma value_validation_finishes (p : Param.t) : value_validation p <> OutOfFuel.
Proof.
  unfold value_validation.
  destruct (is_none _); [discriminate|].
  destruct (Param.data_type p); try discriminate.
  - destruct (negb _); discriminate.
  - destruct (Param.value p) as [| |b|z|f|s]; simpl; try discriminate.
    destruct (float_of_str rt s); discriminate.
Qed.

Lemma model_validators_finishes (p : Param.t) : model_validators p <> OutOfFuel.
Proof.
  unfold model_validators.
  destruct (check_content_type_for_file p); [discriminate|].
  destruct (check_choices_for_option p); [discriminate|].
  destruct (check_value_for_option p); discriminate.
Qed.

Lemma bind_inputs_finishes (l : list InputParameter.t) (run_inputs : dict pyvalue) :
  forall errs0, snd (bind_inputs l run_inputs errs0) <> OutOfFuel.
Proof.
  induction l as [|q l IH]; intro errs0; [discriminate|].
  cbn [bind_inputs]. unfold set_value.
  match goal with
  | |- context [model_validators ?x] =>
      pose proof (model_validators_finishes x) as V;
      destruct (model_validators x) as [[]|e|]; try discriminate; try congruence
  end.
  match goal with
  | |- context [value_validation ?x] =>
      pose proof (value_validation_finishes x) as W;
      destruct (value_validation x) as [errors|e|]; try discriminate; try congruence
  end.
  match goal with
  | |- context [bind_inputs l run_inputs ?x] =>
      specialize (IH x); destruct (bind_inputs l run_inputs x)
  end.
  exact IH.
Qed.

(** X10. When a required workflow input has neither a supplied value nor a
    default, a live [run] executes no step: the steps of the definition are
    left as they were, and the call either raises while binding another input
    or returns the run result with status FAILURE and the single step result
    named [input], of type [input] and status FAILURE, without inputs or
    outputs, whose reason is the messages joined by a semicolon and a space;
    among them are the message that the input is required and the message
    that its value is invalid for being required. *)
Theorem missing_required_input_aborts (fuel : nat) (self : WorkflowDef.t)
    (run_inputs : dict pyvalue) (p : InputParameter.t) :
  In p (WorkflowDef.inputs self) ->
  Param.optional (InputParameter.base p) = false ->
  get_or_default run_inputs p = VNone ->
  WorkflowDef.steps (fst (fst (run fuel self (Some run_inputs) false)))
  = WorkflowDef.steps self
  /\ match snd (run fuel self (Some run_inputs) false) with
     | Ok r =>
         exists errs,
           In (required_message (input_name p)) errs
           /\ In (invalid_message (input_name p) [required_message (input_name p)]) errs
           /\ r = {| WorkflowRunResult.status := WorkflowRunStatus.FAILURE;
                     WorkflowRunResult.result :=
                       [ {| WorkflowStepResult.step_name := "input";
                            WorkflowStepResult.step_type := "input";
                            WorkflowStepResult.status := WorkflowStepStatus.FAILURE;
                            WorkflowStepResult.status_reason :=
                              Some (join "; " errs);
                            WorkflowStepResult.inputs := [];
                            WorkflowStepResult.outputs := [] |} ] |}
     | Raise _ => True
     | OutOfFuel => False
     end.
Proof.
  intros I O D. unfold run.
  pose proof (bind_inputs_errors (WorkflowDef.inputs self) run_inputs []) as B.
  pose proof (bind_inputs_finishes (WorkflowDef.inputs self) run_inputs []) as F.
  destruct (bind_inputs (WorkflowDef.inputs self) run_inputs []) as [inputs o1].
  simpl in B, F. destruct o1 as [errs|e|]; [| simpl; auto | congruence].
  destruct (B errs eq_refl) as [_ M]. destruct (M p I O D) as [M1 M2].
  destruct errs as [|err errs]; [contradiction|].
  simpl. split; [reflexivity|]. exists (err :: errs). auto.
Qed.


(* ------------------------------------------------------------------ *)
(** ** [validate_inputs] *)

Lemma validate_inputs_loop_errors (l : list InputParameter.t) (inputs : dict pyvalue) :
  forall errs0 errs,
    snd (validate_inputs_loop l inputs errs0) = Ok errs ->
    exists new,
      errs = app errs0 new
      /\ List.length new <= List.length l
      /\ (forall e, In e new ->
            exists p, In p l /\ ValidationError.loc e = Some (input_name p)
                      /\ (ValidationError.type e = "immutable_workflow_input" ->
                          overridden inputs p = true))
      /\ (forall p, In p l -> overridden inputs p = true ->
            In (immutable_error (input_name p)) new).
Proof.
  induction l as [|q l IH]; intros errs0 errs H.
  - simpl in H. inversion H; subst. exists []. rewrite app_nil_r.
    repeat split; auto; contradiction.
  - cbn [validate_inputs_loop] in H. unfold set_value in H.
    destruct (model_validators _) as [[]|e|]; try discriminate.
    cbn [Param.with_value Param.value Param.default Param.optional Param.name] in H.
    fold (input_name q) in H.
    assert (step : forall added errs',
              snd (validate_inputs_loop l inputs errs') = Ok errs ->
              errs' = app errs0 added -> List.length added <= 1 ->
              (forall e, In e added ->
                 ValidationError.loc e = Some (input_name q)
                 /\ (ValidationError.type e = "immutable_workflow_input" ->
                     overridden inputs q = true)) ->
              (overridden inputs q = true -> In (immutable_error (input_name q)) added) ->
              exists new,
                errs = app errs0 new
                /\ List.length new <= S (List.length l)
                /\ (forall e, In e new ->
                      exists p, In p (q :: l)
                        /\ ValidationError.loc e = Some (input_name p)
                        /\ (ValidationError.type e = "immutable_workflow_input" ->
                            overridden inputs p = true))
                /\ (forall p, In p (q :: l) -> overridden inputs p = true ->
                      In (immutable_error (input_name p)) new)).
    { intros added errs' R E L A O. destruct (IH errs' errs R) as (new & -> & Ln & An & On).
      subst errs'. exists (app added new). rewrite app_assoc. repeat split.
      - rewrite length_app. lia.
      - intros e I. apply in_app_or in I as [I|I].
        + destruct (A e I) as [Le Te]. exists q. repeat split; auto. now left.
        + destruct (An e I) as (p & Ip & Lp & Tp). exists p. repeat split; auto. now right.
      - intros p [->|I] Ov; apply in_or_app; [left; now apply O | right; now apply On]. }
    change (not_read_write (InputParameter.user_permission q)
            && negb (py_eq (get_or_default inputs q)
                           (Param.default (InputParameter.base q))))
      with (overridden inputs q) in H.
    destruct (overridden inputs q) eqn:C.
    + match type of H with
      | context [validate_inputs_loop l inputs ?x] =>
          destruct (validate_inputs_loop l inputs x) as [r o] eqn:B
      end.
      simpl in H. subst o.
      eapply (step [_]); [rewrite B; reflexivity | reflexivity | simpl; lia | |].
      * intros e [<-|[]]. split; [reflexivity | intros _; reflexivity].
      * intros _. now left.
    + destruct (is_none _ && negb _) eqn:Rq.
      * match type of H with
        | context [validate_inputs_loop l inputs ?x] =>
            destruct (validate_inputs_loop l inputs x) as [r o] eqn:B
        end.
        simpl in H. subst o.
        eapply (step [_]); [rewrite B; reflexivity | reflexivity | simpl; lia | |].
        -- intros e [<-|[]]. split; [reflexivity | discriminate].
        -- discriminate.
      * destruct (value_validation _) as [[|v0 vs]|e|]; try discriminate.
        -- match type of H with
           | context [validate_inputs_loop l inputs ?x] =>
               destruct (validate_inputs_loop l inputs x) as [r o] eqn:B
           end.
           simpl in H. subst o.
           eapply (step []); [rewrite B; reflexivity | now rewrite app_nil_r
                              | simpl; lia | contradiction |].
           discriminate.
        -- match type of H with
           | context [validate_inputs_loop l inputs ?x] =>
               destruct (validate_inputs_loop l inputs x) as [r o] eqn:B
           end.
           simpl in H. subst o.
           eapply (step [_]); [rewrite B; reflexivity | reflexivity | simpl; lia | |].
           ++ intros e [<-|[]]. split; [reflexivity | discriminate].
           ++ discriminate.
Qed.

(** X11. When [validate_inputs] returns, it reports at most one error per
    declared input, each located at the name of an input; an input that is not
    READ_WRITE and whose supplied value differs from its default is reported as
    immutable, and nothing else is. *)
Theorem validate_inputs_reports (self : WorkflowDef.t) (inputs : dict pyvalue)
    (errors : list ValidationError.t) :
  snd (validate_inputs self inputs) = Ok errors ->
  List.length errors <= List.length (WorkflowDef.inputs self)
  /\ (forall e, In e errors ->
        exists p, In p (WorkflowDef.inputs self)
                  /\ ValidationError.loc e = Some (input_name p)
                  /\ (ValidationError.type e = "immutable_workflow_input" ->
                      overridden inputs p = true))
  /\ (forall p, In p (WorkflowDef.inputs self) -> overridden inputs p = true ->
        In (immutable_error (input_name p)) errors).
Proof.
  unfold validate_inputs. intro H.
  pose proof (validate_inputs_loop_errors (WorkflowDef.inputs self) inputs [] errors) as L.
  destruct (validate_inputs_loop (WorkflowDef.inputs self) inputs []) as [params o].
  simpl in H, L. destruct (L H) as (new & E & Ln & An & On). simpl in E. subst new.
  auto.
Qed.


(* ------------------------------------------------------------------ *)
(** ** A dry run reports no failure *)

Lemma BaseStep_run_dry (fuel : nat) (b b' : BaseStep.t)
    (context context' : dict pyvalue) (r : WorkflowStepResult.t) :
  BaseStep_run fuel b context true = ((b', context'), Ok r) -> succeeded r.
Proof.
  unfold BaseStep_run.
  destruct (context_update context _) as [context0|e|]; try (intro H; inversion H; fail).
  pose proof (try_body_result fuel b) as R.
  destruct (try_body fuel b context0 true) as [[s1 c1] o] eqn:T.
  destruct o as [r0|e|]; intro H; inversion H; subst.
  now apply (R _ _ _ _ _ T).
Qed.

Lemma run_steps_dry (fuel : nat) (steps : list WorkflowStep.t) :
  forall context status result steps' context' status' result',
    run_steps fuel true steps context status result
    = ((steps', context'), Ok (status', result')) ->
    status' = status
    /\ exists new, result' = app result new /\ Forall succeeded new.
Proof.
  induction steps as [|step rest IH]; intros context status result steps' context'
    status' result' H.
  - simpl in H. inversion H; subst. split; [reflexivity|]. exists [].
    now rewrite app_nil_r.
  - cbn [run_steps] in H.
    destruct (init_input step) as [step1 o1].
    destruct o1 as [[]|e|]; try (inversion H; fail).
    destruct (WorkflowStep_run fuel step1 context true) as [[step2 c2] o2] eqn:R.
    destruct o2 as [step_result|e|]; try (inversion H; fail).
    assert (S : succeeded step_result).
    { unfold WorkflowStep_run in R. destruct (WorkflowStep._step step1) as [b|];
        [|inversion R].
      destruct (BaseStep_run fuel b context true) as [[b' c'] o] eqn:B.
      inversion R; subst. now apply BaseStep_run_dry in B. }
    unfold succeeded in S. rewrite S in H. cbn [WorkflowStepStatus.eqb] in H.
    destruct (run_steps fuel true rest c2 status _) as [[rest' c3] o3] eqn:RS.
    inversion H; subst o3; clear H.
    destruct (IH _ _ _ _ _ _ _ RS) as (-> & new & -> & F).
    split; [reflexivity|]. exists (step_result :: new).
    rewrite <- app_assoc. split; [reflexivity|]. constructor; assumption.
Qed.

Lemma run_steps_length (fuel : nat) (dry_run : bool) (l : list WorkflowStep.t) :
  forall context status result l' c status' result',
    run_steps fuel dry_run l context status result = (l', c, Ok (status', result')) ->
    List.length result' = List.length result + List.length l.
Proof.
  induction l as [|s0 l IH]; intros context status result l' c status' result' H.
  - simpl in H. inversion H; subst. simpl. lia.
  - cbn [run_steps] in H. destruct (init_input s0) as [s1 o1].
    destruct o1 as [[]|e|]; try (inversion H; fail).
    destruct (WorkflowStep_run fuel s1 context dry_run) as [[s2 c2] o2].
    destruct o2 as [sr|e|]; try (inversion H; fail).
    destruct (run_steps fuel dry_run l c2 _ _) as [[l1 c3] o3] eqn:RS.
    inversion H; subst o3. apply IH in RS. rewrite length_app in RS.
    simpl in *. lia.
Qed.

(** Bound to their own placeholders, the inputs raise no complaint. *)
Lemma bind_inputs_placeholders (l : list InputParameter.t) (run_inputs : dict pyvalue) :
  (forall p, In p l -> has_placeholder p /\ get_or_default run_inputs p = placeholder p) ->
  forall errs, snd (bind_inputs l run_inputs errs) = Ok errs.
Proof.
  induction l as [|q l IH]; intros A errs; [reflexivity|].
  cbn [bind_inputs]. destruct (A q (or_introl eq_refl)) as [[v Hv] G].
  rewrite G. unfold placeholder. rewrite Hv.
  unfold get_dry_run_value in Hv. unfold set_value, model_validators,
    check_content_type_for_file, check_choices_for_option, check_value_for_option,
    value_validation.
  cbn [Param.with_value Param.data_type Param.value Param.optional Param.name
       Param.content_type Param.choices Param.default].
  specialize (IH (fun p I => A p (or_intror I))).
  destruct (Param.data_type (InputParameter.base q)); try discriminate;
    inversion Hv; subst v; cbn;
    match goal with
    | |- context [bind_inputs l run_inputs ?x] =>
        specialize (IH x); destruct (bind_inputs l run_inputs x)
    end; exact IH.
Qed.

(** X12. A dry run of a definition whose inputs have distinct names never
    reports a failure: if it returns at all, the status is SUCCESS and every
    step result is a SUCCESS; a failing step or a rejected input shows as a
    raised exception instead. *)
Theorem dry_run_reports_no_failure (fuel : nat) (self self' : WorkflowDef.t)
    (run_inputs : option (dict pyvalue)) (run_inputs' : dict pyvalue)
    (r : WorkflowRunResult.t) :
  NoDup (map input_name (WorkflowDef.inputs self)) ->
  run fuel self run_inputs true = ((self', run_inputs'), Ok r) ->
  WorkflowRunResult.status r = WorkflowRunStatus.SUCCESS
  /\ Forall succeeded (WorkflowRunResult.result r)
  /\ List.length (WorkflowRunResult.result r) = List.length (WorkflowDef.steps self).
Proof.
  intros D. unfold run.
  set (ri := match run_inputs with Some d => d | None => [] end).
  pose proof (seed_dry_run_ok (WorkflowDef.inputs self) ri) as P.
  destruct (seed_dry_run (WorkflowDef.inputs self) ri) as [ri1 o0] eqn:E0.
  destruct o0 as [[]|e|]; try (intro H; inversion H; fail).
  specialize (P eq_refl).
  rewrite (seed_dry_run_seeded _ ri P) in E0. inversion E0; subst ri1; clear E0.
  rewrite (surjective_pairing (bind_inputs _ _ [])).
  rewrite (bind_inputs_placeholders (WorkflowDef.inputs self)
             (seeded (WorkflowDef.inputs self) ri)).
  - destruct (run_steps fuel true _ _ _ _) as [[steps c] o] eqn:RS.
    destruct o as [[status result]|e|]; simpl; intro H; inversion H; subst; clear H.
    destruct (run_steps_dry _ _ _ _ _ _ _ _ _ RS) as (-> & new & E & F).
    simpl in E. subst result. simpl. repeat split; [exact F|].
    apply run_steps_length in RS. simpl in RS. exact RS.
  - intros p I. rewrite Forall_forall in P. split; [now apply P|].
    unfold get_or_default. now rewrite (seeded_own _ ri p D I).
Qed.


(* ------------------------------------------------------------------ *)
(** ** A reference to a parameter the earlier step does not have *)

Lemma eqb_append_l (n a b : string) : String.eqb (n ++ a) (n ++ b) = String.eqb a b.
Proof.
  induction n as [|c n IH]; [reflexivity|]. simpl. now rewrite Ascii.eqb_refl.
Qed.

Lemma echo_context_empty (name : string) (x : pyvalue) :
  echo_context name x [] = [(name ++ ".input", x); (name ++ ".output", x)].
Proof. unfold echo_context. simpl. now rewrite eqb_append_l. Qed.

(** A dummy step built from the single input [v], run where resolving [v]
    raises [e]. *)
Lemma dummy_in_loop_unresolved (fuel : nat) (dry_run : bool) (name : string)
    (v : pyvalue) (e : exn) (rest : list WorkflowStep.t) (context : dict pyvalue)
    (status : WorkflowRunStatus.t) (result : list WorkflowStepResult.t) :
  is_none v = false -> fill_value fuel v context name = Raise e ->
  snd (run_steps fuel dry_run (new_step name "dummy" [("input", v)] :: rest)
         context status result)
  = if dry_run then Raise e
    else snd (run_steps fuel false rest context WorkflowRunStatus.FAILURE
                (app result [unresolved_result name v e])).
Proof.
  intros N H. cbn [run_steps]. unfold init_input.
  cbn [new_step WorkflowStep.type WorkflowStep.name WorkflowStep.inputs].
  change (dict_get "dummy" registered_steps) with (Some DummyStep). cbv iota beta.
  change (construct DummyStep name [("input", v)])
    with (Ok {| BaseStep.class := DummyStep;
                BaseStep.self :=
                  {| Self.name := name; Self.context := None;
                     Self.inputs :=
                       [("input", Param.with_value (Param.make "input" STRING) v)];
                     Self.outputs :=
                       [("output", Param.make "output" STRING)] |} |}).
  unfold WorkflowStep_run, BaseStep_run, try_body. cbn -[fill_value is_none].
  rewrite N. cbn -[fill_value is_none]. rewrite H.
  destruct dry_run; cbn -[is_none]; [reflexivity|].
  unfold failure_result, bound. cbn -[is_none]. rewrite N.
  destruct (run_steps fuel false rest context _ _) as [[x1 x2] x3]. reflexivity.
Qed.

(** X13. In a workflow of two dummy steps where the input of the second refers
    to a parameter of the first that is neither [input] nor [output], a dry
    run raises the [ValueReferenceError] that names the second step, the
    missing key and the two keys the first step published; a live run returns
    FAILURE, with the first step a SUCCESS and the second a FAILURE whose
    input is still the unresolved reference. *)
Theorem reference_to_missing_output (fuel : nat) (name step1 step2 input w : string)
    (run_inputs : option (dict pyvalue)) :
  is_name step1 -> is_name w -> w <> "input" -> w <> "output" ->
  count_char "@" input = 0 ->
  let e := ValueReferenceError step2 (step1 ++ "." ++ w)
             [step1 ++ ".input"; step1 ++ ".output"] in
  snd (run (S fuel) (referring_workflow name step1 step2 input w) run_inputs true)
  = Raise e
  /\ snd (run (S fuel) (referring_workflow name step1 step2 input w) run_inputs false)
     = Ok {| WorkflowRunResult.status := WorkflowRunStatus.FAILURE;
             WorkflowRunResult.result :=
               [ echo_result step1 (VStr input);
                 unresolved_result step2
                   (VStr ("@{" ++ step1 ++ "." ++ w ++ "}")) e ] |}.
Proof.
  intros N1 Nw Wi Wo P e.
  assert (T : reference_token is_space ("@{" ++ step1 ++ "." ++ w ++ "}") step1 w).
  { exists "", "", "", "". unfold is_name. repeat split; try reflexivity;
      try apply N1; try apply Nw. }
  assert (F2 : fill_value (S fuel) (VStr ("@{" ++ step1 ++ "." ++ w ++ "}"))
                 (echo_context step1 (VStr input) []) step2 = Raise e).
  { pose proof (re_search_here _ _ (match_here_complete _ _ _ "" T)) as R.
    rewrite append_nil_r in R.
    cbn [fill_value fill_loop bind]. unfold fill_turn. rewrite R.
    cbn [group0 group1 group2]. rewrite echo_context_empty. unfold py_get.
    cbn [dict_get dict_keys map fst].
    change (step1 ++ "." ++ w) with (step1 ++ ("." ++ w)).
    rewrite !eqb_append_l.
    change ("." ++ w =? ".input") with (w =? "input").
    change ("." ++ w =? ".output") with (w =? "output").
    rewrite (proj2 (String.eqb_neq w "input") Wi),
            (proj2 (String.eqb_neq w "output") Wo).
    reflexivity. }
  assert (L : forall dry_run,
            snd (run_steps (S fuel) dry_run
                   (WorkflowDef.steps (referring_workflow name step1 step2 input w))
                   [] WorkflowRunStatus.SUCCESS [])
            = if dry_run then Raise e
              else Ok (WorkflowRunStatus.FAILURE,
                       [ echo_result step1 (VStr input);
                         unresolved_result step2
                           (VStr ("@{" ++ step1 ++ "." ++ w ++ "}")) e ])).
  { intro dry_run. cbn [referring_workflow new_workflow WorkflowDef.steps].
    rewrite (dummy_in_loop (S fuel) dry_run step1 (VStr input) (VStr input)
               _ [] _ [] eq_refl (fill_value_plain fuel input [] step1 P)).
    rewrite (dummy_in_loop_unresolved (S fuel) dry_run step2
               (VStr ("@{" ++ step1 ++ "." ++ w ++ "}")) e [] _ _ _ eq_refl F2).
    destruct dry_run; reflexivity. }
  split.
  - unfold run. cbn [referring_workflow new_workflow WorkflowDef.inputs seed_dry_run
      bind_inputs dict_of fold_left].
    specialize (L true). cbn [referring_workflow new_workflow WorkflowDef.steps] in *.
    destruct (run_steps (S fuel) true _ [] _ []) as [[x1 x2] x3].
    simpl in L. subst x3. reflexivity.
  - unfold run. cbn [referring_workflow new_workflow WorkflowDef.inputs
      bind_inputs dict_of fold_left].
    specialize (L false). cbn [referring_workflow new_workflow WorkflowDef.steps] in *.
    destruct (run_steps (S fuel) false _ [] _ []) as [[x1 x2] x3].
    simpl in L. subst x3. reflexivity.
Qed.


(* ------------------------------------------------------------------ *)
(** ** Keys of [process] that are no declared output *)

Lemma dict_has_set_present {V} (k k' : string) (v v' : V) (d : dict V) :
  dict_get k' d = Some v -> dict_has k (dict_set k' v' d) = dict_has k d.
Proof.
  intro H. unfold dict_has. destruct (String.eqb_spec k k') as [->|N].
  - now rewrite dict_get_set_same, H.
  - now rewrite (dict_get_set_other k k' v' d N).
Qed.

Lemma publish_outputs_declared (name : string) (result : dict pyvalue)
    (outputs : dict Param.t) (context : dict pyvalue) (k' : string) :
  dict_has k' (fst (fst (publish_outputs name result outputs context)))
  = dict_has k' outputs.
Proof.
  revert outputs context.
  induction result as [|[k v] rest IH]; intros outputs context; [reflexivity|].
  cbn [publish_outputs]. destruct (dict_get k outputs) as [p|] eqn:G; [|apply IH].
  destruct (set_value p v) as [p' o].
  destruct o as [[]|e|]; cbn [fst]; try rewrite IH;
    apply (dict_has_set_present k' k p p' outputs G).
Qed.

Lemma build_outputs_values (result : dict pyvalue) (outputs : dict Param.t)
    (l : list Param.t) :
  build_outputs result outputs = Ok l ->
  map Param.value l
  = map snd (filter (fun kv => dict_has (fst kv) outputs) result).
Proof.
  revert l. induction result as [|[k v] rest IH]; intros l H.
  - inversion H. reflexivity.
  - cbn [build_outputs] in H. cbn [filter fst]. unfold dict_has at 1.
    destruct (dict_get k outputs) as [p|]; [|now apply IH].
    apply bind_ok in H as (p' & A & H). apply bind_ok in H as (l' & B & H).
    inversion H; subst l. apply assign_ok in A as [-> _].
    cbn [map snd Param.with_value Param.value]. f_equal. now apply IH.
Qed.

(** X14. When [BaseStep.run] returns a SUCCESS, the outputs of the result are
    the values [process] returned under the names of the declared outputs, in
    the order [process] returned them: a key of [process] that is no declared
    output is not in the result, and no error is reported for it. *)
Theorem undeclared_outputs_are_dropped (fuel : nat) (step step' : BaseStep.t)
    (context context' : dict pyvalue) (dry_run : bool) (r : WorkflowStepResult.t) :
  BaseStep_run fuel step context dry_run = ((step', context'), Ok r) ->
  succeeded r ->
  exists result,
    StepClass.process (BaseStep.class step)
      (with_inputs (BaseStep.self step) (Self.inputs (BaseStep.self step'))) dry_run
    = Ok result
    /\ map Param.value (WorkflowStepResult.outputs r)
       = map snd (filter (fun kv =>
                    dict_has (fst kv) (Self.outputs (BaseStep.self step))) result).
Proof.
  unfold BaseStep_run, succeeded. intros H S.
  destruct (context_update context _) as [context0|e|]; try discriminate.
  destruct (try_body fuel step context0 dry_run) as [[s1 c1] o] eqn:T.
  assert (O : s1 = step' /\ o = Ok r).
  { destruct o as [r0|e|]; [now inversion H | | discriminate].
    destruct dry_run; [discriminate|]. inversion H; subst.
    cbn [failure_result WorkflowStepResult.status] in S. discriminate. }
  destruct O as [-> ->]. clear H. unfold try_body in T.
  destruct (fill_inputs fuel _ _ context0) as [[inputs context1] o1].
  destruct o1 as [[]|e|]; try (inversion T; fail).
  destruct (StepClass.process _ _ dry_run) as [result|e|] eqn:P;
    try (inversion T; fail).
  pose proof (publish_outputs_declared (Self.name (BaseStep.self step)) result
                (Self.outputs (with_inputs (BaseStep.self step) inputs)) context1) as D.
  destruct (publish_outputs _ result _ context1) as [[outputs context2] o2].
  cbn [fst] in D. inversion T as [[T1 T2 T3]]. clear T.
  apply bind_ok in T3 as ([] & _ & T3). apply bind_ok in T3 as (l & B & T3).
  inversion T3; subst r. exists result. split.
  - cbn [with_self with_outputs with_inputs BaseStep.self Self.inputs]. exact P.
  - cbn [WorkflowStepResult.outputs]. rewrite (build_outputs_values _ _ _ B).
    f_equal. apply filter_ext. intros [k v]. apply D.
Qed.


(* ------------------------------------------------------------------ *)
(** ** An LLM step with one output name of its own *)

Lemma dict_get_cons {V} (k k' : string) (v : V) (d : dict V) :
  dict_get k ((k', v) :: d) = if String.eqb k k' then Some v else dict_get k d.
Proof. reflexivity. Qed.

Lemma dict_get_nil {V} (k : string) : @dict_get V k [] = None.
Proof. reflexivity. Qed.

Lemma dict_set_cons {V} (k k' : string) (v v' : V) (d : dict V) :
  dict_set k v ((k', v') :: d)
  = if String.eqb k k' then (k', v) :: d else (k', v') :: dict_set k v d.
Proof. reflexivity. Qed.

Lemma dict_set_nil {V} (k : string) (v : V) : dict_set k v [] = [(k, v)].
Proof. reflexivity. Qed.

Lemma dict_del_cons {V} (k k' : string) (v' : V) (d : dict V) :
  dict_del k ((k', v') :: d)
  = if String.eqb k k' then dict_del k d else (k', v') :: dict_del k d.
Proof. reflexivity. Qed.

Lemma dict_del_nil {V} (k : string) : @dict_del V k [] = [].
Proof. reflexivity. Qed.

(** Evaluation of a step on dictionaries whose keys are literals or names
    [E] tells apart from the literals. *)
Ltac crunch E :=
  repeat (progress
    (cbn -[String.eqb dict_get dict_set dict_del py_bool split_comma strip fill_value];
     unfold dict_has;
     rewrite ?dict_get_cons, ?dict_get_nil, ?dict_set_cons, ?dict_set_nil,
             ?dict_del_cons, ?dict_del_nil, ?String.eqb_refl;
     eqb_ground; try rewrite !E by (simpl; tauto))).

(** X15. An LLM step given a prompt without references and one output name
    that is neither [result] nor the name of an input declares that one
    output.  A dry run succeeds with the placeholder under that name; a live
    run in which the provider answers succeeds too, but with no output at
    all: [process] returns the answer under [result], which is not declared,
    so the answer is dropped. *)
Theorem llm_single_named_output_is_lost (fuel : nat) (name prompt names output : string)
    (context : dict pyvalue) :
  count_char "@" prompt = 0 ->
  names <> "" ->
  map strip (split_comma names) = [output] ->
  ~ In output llm_taken_names ->
  (exists r,
     snd (run_step (S fuel) name "llm" (llm_kwargs prompt names) context true) = Ok r
     /\ succeeded r
     /\ WorkflowStepResult.outputs r
        = [Param.with_value (Param.make output STRING) (llm_placeholder output)])
  /\ (forall completion,
        llm_qa rt (VStr "") (VStr prompt) (VStr "gpt-4o") = Ok completion ->
        exists r,
          snd (run_step (S fuel) name "llm" (llm_kwargs prompt names) context false)
          = Ok r
          /\ succeeded r /\ WorkflowStepResult.outputs r = []).
Proof.
  intros P T S N.
  assert (T' : py_bool (VStr names) = true) by (destruct names; [contradiction|reflexivity]).
  assert (E : forall k, In k llm_taken_names -> String.eqb k output = false).
  { intros k I. apply String.eqb_neq. intro; subst. contradiction. }
  unfold llm_taken_names in E.
  assert (R : forall dry_run,
            (dry_run = false ->
             exists completion,
               llm_qa rt (VStr "") (VStr prompt) (VStr "gpt-4o") = Ok completion) ->
            exists r,
              snd (run_step (Datatypes.S fuel) name "llm" (llm_kwargs prompt names)
                     context dry_run) = Ok r
              /\ succeeded r
              /\ WorkflowStepResult.outputs r
                 = if dry_run
                   then [Param.with_value (Param.make output STRING)
                           (llm_placeholder output)]
                   else []).
  { intros dry_run Q. unfold succeeded, run_step, llm_kwargs.
    change (dict_get "llm" registered_steps) with (Some LLMStep). cbv iota beta.
    unfold construct. cbn [LLMStep StepClass.init_args]. unfold LLMStep_init_args.
    crunch E. rewrite T', S. crunch E.
    unfold BaseStep_init. crunch E.
    unfold BaseStep_run, try_body. crunch E.
    rewrite !fill_value_plain by first [exact P | reflexivity].
    crunch E. cbn [fill_value]. crunch E.
    unfold LLMStep_process, _get_completion, input_value. crunch E.
    destruct dry_run.
    - crunch E. eexists. repeat split; reflexivity.
    - destruct (Q eq_refl) as (completion & Q'). crunch E.
      change (py_bool (VStr "")) with false. cbv iota. rewrite Q'. crunch E.
      eexists. repeat split; reflexivity. }
  split.
  - apply (R true). intro; discriminate.
  - intros completion Q. apply (R false). intros _. now exists completion.
Qed.


(* ------------------------------------------------------------------ *)
(** ** Inputs a dry run has no placeholder for *)

Lemma seed_dry_run_raises (inputs : list InputParameter.t) (run_inputs : dict pyvalue)
    (p : InputParameter.t) :
  In p inputs -> ~ has_placeholder p ->
  snd (seed_dry_run inputs run_inputs) = Raise (PyError "AssertionError" "").
Proof.
  intros I N. revert run_inputs.
  induction inputs as [|q rest IH]; intro run_inputs; [contradiction|].
  cbn [seed_dry_run].
  destruct (get_dry_run_value (InputParameter.base q)) as [v|e|] eqn:G.
  - destruct I as [->|I]; [|now apply IH].
    exfalso. apply N. now exists v.
  - unfold get_dry_run_value in G.
    destruct (Param.data_type (InputParameter.base q)); inversion G; reflexivity.
  - unfold get_dry_run_value in G.
    destruct (Param.data_type (InputParameter.base q)); discriminate.
Qed.

(** X16. A workflow one of whose inputs has a data type other than STRING,
    NUMBER or BOOLEAN cannot be run dry: [run] raises the [AssertionError] of
    [get_dry_run_value] before any input is validated or any step is run,
    whatever the caller passed; so [validate_dry_run] rejects the definition
    unless validation is skipped. *)
Theorem dry_run_needs_placeholders (fuel : nat) (self : WorkflowDef.t)
    (run_inputs : option (dict pyvalue)) (p : InputParameter.t) :
  In p (WorkflowDef.inputs self) -> ~ has_placeholder p ->
  snd (run fuel self run_inputs true) = Raise (PyError "AssertionError" "")
  /\ fst (fst (run fuel self run_inputs true)) = self
  /\ (WorkflowDef.skip_validation self = false ->
      snd (validate_dry_run fuel self)
      = Raise (custom_error "Error running workflow in dry run mode: ")).
Proof.
  intros I N.
  assert (R : forall run_inputs,
            snd (run fuel self run_inputs true) = Raise (PyError "AssertionError" "")
            /\ fst (fst (run fuel self run_inputs true)) = self).
  { intro ri. unfold run.
    pose proof (seed_dry_run_raises (WorkflowDef.inputs self)
                  (match ri with Some d => d | None => [] end) p I N) as S.
    destruct (seed_dry_run _ _) as [d o]. cbn [snd] in S. subst o.
    split; reflexivity. }
  destruct (R run_inputs) as [R1 R2]. repeat split; try assumption.
  intro K. unfold validate_dry_run. rewrite K.
  destruct (R None) as [R3 _].
  destruct (run fuel self None true) as [[self' d] o]. cbn [snd] in *. subst o.
  reflexivity.
Qed.

(* ------------------------------------------------------------------ *)
(** ** Assignment to an option parameter *)

Lemma py_in_string (v : pyvalue) (l : list string) :
  py_in v l = true -> exists s, v = VStr s /\ In s l.
Proof.
  destruct v as [| | | | |s]; simpl; try discriminate. intro H.
  apply existsb_exists in H as (x & I & E). apply String.eqb_eq in E. subst x.
  now exists s.
Qed.

(** X17. An assignment [obj.value = v] to a parameter of type OPTION goes
    through only if the parameter has a non-empty list of choices and [v] is
    None or one of the choices; the same holds of its default.  A parameter
    of type FILE accepts an assignment only if it has a content type. *)
Theorem option_assignment_checks_choices (p p' : Param.t) (v : pyvalue) :
  assign p v = Ok p' ->
  (Param.data_type p = OPTION ->
   exists l, Param.choices p = Some l /\ l <> []
     /\ (v = VNone \/ exists s, v = VStr s /\ In s l)
     /\ (Param.default p = VNone \/ exists s, Param.default p = VStr s /\ In s l))
  /\ (Param.data_type p = FILE -> Param.content_type p <> None).
Proof.
  intro H. apply assign_ok in H as [-> V].
  unfold model_validators, check_content_type_for_file, check_choices_for_option,
    check_value_for_option in V.
  cbn [Param.with_value Param.data_type Param.content_type Param.choices
       Param.default Param.value] in V.
  split; intro T; rewrite T in V.
  - destruct (Param.choices p) as [[|c l]|]; try discriminate.
    exists (c :: l). split; [reflexivity|]. split; [discriminate|].
    destruct (negb (is_none (Param.default p)) && negb (py_in (Param.default p) (c :: l)))
      eqn:D; [discriminate|].
    destruct (negb (is_none v) && negb (py_in v (c :: l))) eqn:W; [discriminate|].
    split.
    + destruct (is_none v) eqn:Nv; [destruct v; try discriminate; now left|].
      right. apply py_in_string. now destruct (py_in v (c :: l)).
    + destruct (is_none (Param.default p)) eqn:Nd;
        [destruct (Param.default p); try discriminate; now left|].
      right. apply py_in_string. now destruct (py_in (Param.default p) (c :: l)).
  - destruct (Param.content_type p); discriminate.
Qed.


(** The same evaluation where [E] tells apart pairs of names. *)
Ltac crunch2 E :=
  repeat (progress
    (cbn -[String.eqb dict_get dict_set dict_del py_bool split_comma strip fill_value
           llm_qa json_loads join newline append];
     unfold dict_has;
     rewrite ?dict_get_cons, ?dict_get_nil, ?dict_set_cons, ?dict_set_nil,
             ?dict_del_cons, ?dict_del_nil, ?String.eqb_refl;
     eqb_ground; try rewrite !E by (simpl; tauto))).

(** X18. An LLM step given two distinct output names, neither the name of an
    input, asks the provider for a JSON object with these keys.  When the
    reply is not JSON, the live run succeeds and both outputs hold the whole
    reply.  When the reply is JSON but no object, the live run is a FAILURE:
    its only output is the error of calling [items] on what [json.loads]
    returned. *)
Theorem llm_reply_not_json (fuel : nat) (name prompt names output1 output2 : string)
    (context : dict pyvalue) (completion : string) :
  count_char "@" prompt = 0 ->
  map strip (split_comma names) = [output1; output2] ->
  output1 <> output2 ->
  ~ In output1 llm_input_names -> ~ In output2 llm_input_names ->
  llm_qa rt (VStr "") (VStr (llm_json_prompt prompt [output1; output2])) (VStr "gpt-4o")
  = Ok completion ->
  (json_loads rt completion = None ->
   exists r,
     snd (run_step (S fuel) name "llm" (llm_kwargs prompt names) context false) = Ok r
     /\ succeeded r
     /\ WorkflowStepResult.outputs r
        = [ Param.with_value (Param.make output1 STRING) (VStr completion);
            Param.with_value (Param.make output2 STRING) (VStr completion) ])
  /\ (forall type_name,
        json_loads rt completion = Some (NotMapping type_name) ->
        exists r,
          snd (run_step (S fuel) name "llm" (llm_kwargs prompt names) context false)
          = Ok r
          /\ failed r
          /\ WorkflowStepResult.outputs r
             = [ error_parameter
                   (PyError "AttributeError"
                      ("'" ++ type_name ++ "' object has no attribute 'items'")) ]).
Proof.
  intros P S D N1 N2 Q.
  assert (T : py_bool (VStr names) = true).
  { destruct names; [discriminate|reflexivity]. }
  assert (E : forall a b,
            (In a llm_input_names /\ (b = output1 \/ b = output2))
            \/ (a = output1 /\ b = output2) \/ (a = output2 /\ b = output1) ->
            String.eqb a b = false).
  { intros a b H. apply String.eqb_neq. intro; subst b.
    destruct H as [[I [->| ->]]|[[-> E']|[-> E']]]; auto. }
  unfold llm_input_names in E.
  assert (R : match json_loads rt completion with
              | None =>
                  exists r,
                    snd (run_step (Datatypes.S fuel) name "llm"
                           (llm_kwargs prompt names) context false) = Ok r
                    /\ succeeded r
                    /\ WorkflowStepResult.outputs r
                       = [ Param.with_value (Param.make output1 STRING)
                             (VStr completion);
                           Param.with_value (Param.make output2 STRING)
                             (VStr completion) ]
              | Some (NotMapping type_name) =>
                  exists r,
                    snd (run_step (Datatypes.S fuel) name "llm"
                           (llm_kwargs prompt names) context false) = Ok r
                    /\ failed r
                    /\ WorkflowStepResult.outputs r
                       = [ error_parameter
                             (PyError "AttributeError"
                                ("'" ++ type_name
                                 ++ "' object has no attribute 'items'")) ]
              | Some (Mapping _) => True
              end).
  { unfold succeeded, failed, run_step, llm_kwargs.
    change (dict_get "llm" registered_steps) with (Some LLMStep). cbv iota beta.
    unfold construct. cbn [LLMStep StepClass.init_args]. unfold LLMStep_init_args.
    crunch2 E. rewrite T, S. crunch2 E.
    unfold BaseStep_init. crunch2 E.
    unfold BaseStep_run, try_body. crunch2 E.
    rewrite !fill_value_plain by first [exact P | reflexivity].
    crunch2 E. cbn [fill_value]. crunch2 E.
    unfold LLMStep_process, _get_completion, input_value. crunch2 E.
    change (py_bool (VStr "")) with false. cbv iota.
    change (py_str (VStr prompt)) with prompt.
    fold (llm_json_prompt prompt [output1; output2]). rewrite Q. crunch2 E.
    destruct (json_loads rt completion) as [[items|type_name]|]; [exact I | |];
      crunch2 E; eexists; repeat split; reflexivity. }
  split.
  - intro J. now rewrite J in R.
  - intros type_name J. now rewrite J in R.
Qed.

(* ------------------------------------------------------------------ *)
(** ** A token whose key has no value, anywhere in the string *)

(** A token ends with its only closing brace. *)
Lemma token_one_brace (tok w1 w2 : string) :
  reference_token is_space tok w1 w2 ->
  exists u, tok = u ++ "}" /\ count_char "}" u = 0.
Proof.
  intros (sp1 & sp2 & sp3 & sp4 & A1 & A2 & A3 & A4 & [_ B1] & [_ B2] & ->).
  exists ("@{" ++ sp1 ++ w1 ++ sp2 ++ "." ++ sp3 ++ w2 ++ sp4).
  split.
  - now rewrite !append_assoc.
  - repeat (rewrite ?count_char_app; simpl).
    rewrite (count_outside_class is_space "}" sp1), (count_outside_class is_space "}" sp2),
      (count_outside_class is_space "}" sp3), (count_outside_class is_space "}" sp4),
      (count_outside_class is_word "}" w1), (count_outside_class is_word "}" w2);
      auto.
Qed.

Lemma first_occurrence (c : ascii) (a b x y : string) :
  count_char c a = 0 -> count_char c b = 0 ->
  a ++ String c x = b ++ String c y -> a = b.
Proof.
  revert b. induction a as [|d a IH]; intros [|e b] Ca Cb E; simpl in *.
  - reflexivity.
  - inversion E; subst. rewrite Ascii.eqb_refl in Cb. discriminate.
  - inversion E; subst. rewrite Ascii.eqb_refl in Ca. discriminate.
  - inversion E; subst. f_equal. apply (IH b); try assumption.
    + destruct (Ascii.eqb c e); [discriminate | assumption].
    + destruct (Ascii.eqb c e); [discriminate | assumption].
Qed.

(** Two tokens that start at the same place are the same token. *)
Lemma token_at_token (old tok post o1 o2 w1 w2 : string) :
  reference_token is_space old o1 o2 -> reference_token is_space tok w1 w2 ->
  String.prefix old (tok ++ post) = true -> old = tok.
Proof.
  intros To Tt P. apply prefix_split in P as [r E].
  destruct (token_one_brace _ _ _ To) as (uo & -> & Co).
  destruct (token_one_brace _ _ _ Tt) as (ut & -> & Ct).
  rewrite !append_assoc in E. simpl in E.
  now rewrite (first_occurrence "}" ut uo post r Ct Co E).
Qed.

(** An occurrence of a text with a single at-sign, its first character, ends
    before the next at-sign. *)
Lemma occurrence_before_at (old p r rest : string) :
  count_char "@" old = 0 ->
  p ++ String "@" rest = old ++ r ->
  exists p2, p = old ++ p2 /\ r = p2 ++ String "@" rest.
Proof.
  revert p. induction old as [|d old IH]; intros p C E.
  - exists p. split; [reflexivity | symmetry; exact E].
  - cbn [count_char] in C. destruct (Ascii.eqb "@" d) eqn:D; [discriminate|].
    destruct p as [|c p]; simpl in E; inversion E; subst.
    + rewrite Ascii.eqb_refl in D. discriminate.
    + destruct (IH p C H1) as (p2 & -> & ->). now exists p2.
Qed.

Lemma replace_before_token (old new rest : string) :
  count_char "@" old = 0 ->
  forall (n : nat) (pre : string), String.length pre <= n ->
    exists pre',
      replace_from (String "@" old) new 0 (pre ++ String "@" rest)
      = pre' ++ replace_from (String "@" old) new 0 (String "@" rest).
Proof.
  intro C. induction n as [|n IH]; intros pre L.
  - destruct pre; [now exists "" | simpl in L; lia].
  - destruct pre as [|c pre]; [now exists ""|].
    change (String c pre ++ String "@" rest) with (String c (pre ++ String "@" rest)).
    destruct (String.prefix (String "@" old) (String c (pre ++ String "@" rest))) eqn:P.
    + destruct (prefix_split _ _ P) as [r E]. inversion E; subst c.
      destruct (occurrence_before_at old pre r rest C H1) as (p2 & -> & ->).
      change (String "@" ((old ++ p2) ++ String "@" rest))
        with (String "@" (old ++ p2) ++ String "@" rest).
      replace (String "@" (old ++ p2) ++ String "@" rest)
        with (String "@" old ++ (p2 ++ String "@" rest))
        by (simpl; now rewrite <- append_assoc).
      rewrite replace_from_hit by discriminate.
      destruct (IH p2) as [pre' E'].
      { simpl in L. rewrite length_append in L. lia. }
      exists (new ++ pre'). rewrite E'. now rewrite <- append_assoc.
    + rewrite replace_from_miss by exact P.
      destruct (IH pre) as [pre' E']; [simpl in L; lia|].
      exists (String c pre'). now rewrite E'.
Qed.

(** Replacing a token leaves every occurrence of another token in place. *)
Lemma replace_keeps_token (old new tok s o1 o2 w1 w2 : string) :
  reference_token is_space old o1 o2 -> reference_token is_space tok w1 w2 ->
  old <> tok -> occurs tok s -> occurs tok (replace old new s).
Proof.
  intros To Tt N (pre & post & ->).
  unfold replace. rewrite (proj2 (is_empty_false old) (token_nonempty _ _ _ To)).
  destruct (token_starts_with_at _ _ _ To) as [o' Eo].
  destruct (token_starts_with_at _ _ _ Tt) as [t' Et].
  pose proof (token_one_at _ _ _ To) as Co. pose proof (token_one_at _ _ _ Tt) as Ct.
  subst old tok. cbn [count_char] in Co, Ct. rewrite Ascii.eqb_refl in Co, Ct.
  change (String "@" t' ++ post) with (String "@" (t' ++ post)).
  destruct (replace_before_token o' new (t' ++ post) ltac:(lia)
              (String.length pre) pre (le_n _)) as [pre' E].
  rewrite E. exists pre', (replace_from (String "@" o') new 0 post).
  f_equal.
  rewrite replace_from_miss.
  - change (String "@" t' ++ replace_from (String "@" o') new 0 post)
      with (String "@" (t' ++ replace_from (String "@" o') new 0 post)).
    f_equal. apply replace_plain_prefix. lia.
  - destruct (String.prefix (String "@" o') (String "@" (t' ++ post))) eqn:P;
      [|reflexivity].
    exfalso. apply N.
    exact (token_at_token (String "@" o') (String "@" t') post o1 o2 w1 w2 To Tt P).
Qed.

Lemma occurs_found (tok s w1 w2 : string) :
  reference_token is_space tok w1 w2 -> occurs tok s -> re_search s <> None.
Proof.
  intros T (pre & post & ->) R.
  pose proof (re_search_none _ R (String.length pre)) as M.
  rewrite skip_app, (match_here_complete tok w1 w2 post T) in M. discriminate.
Qed.

Lemma token_names (tok w1 w2 v1 v2 : string) :
  reference_token is_space tok w1 w2 -> reference_token is_space tok v1 v2 ->
  w1 = v1 /\ w2 = v2.
Proof.
  intros A B.
  pose proof (match_here_complete tok w1 w2 "" A) as Ma.
  pose proof (match_here_complete tok v1 v2 "" B) as Mb.
  rewrite Ma in Mb. inversion Mb. split; reflexivity.
Qed.

Lemma fill_loop_none_anywhere (context : dict pyvalue) (cur : string)
    (tok w1 w2 : string) :
  at_free context ->
  reference_token is_space tok w1 w2 ->
  is_none (py_get (w1 ++ "." ++ w2) context) = true ->
  forall (fuel : nat) (s : string),
    count_char "@" s < fuel -> occurs tok s ->
    exists key,
      fill_loop fuel s context cur
      = Raise (ValueReferenceError cur key (dict_keys context))
      /\ is_none (py_get key context) = true.
Proof.
  intros F T V. induction fuel as [|fuel IH]; intros s L O; [lia|].
  cbn [fill_loop].
  destruct (fill_turn s context cur) as [|e|s'] eqn:Turn.
  - unfold fill_turn in Turn. pose proof (occurs_found _ _ _ _ T O) as R.
    destruct (re_search s) as [m|]; [|congruence].
    destruct (is_none (py_get (group1 m ++ "." ++ group2 m) context)); discriminate.
  - unfold fill_turn in Turn. destruct (re_search s) as [m|]; [|discriminate].
    destruct (is_none (py_get (group1 m ++ "." ++ group2 m) context)) eqn:K;
      [|discriminate].
    inversion Turn; subst e. now exists (group1 m ++ "." ++ group2 m).
  - pose proof (fill_turn_decreases _ _ _ _ F Turn) as D.
    apply IH; [lia|].
    unfold fill_turn in Turn. destruct (re_search s) as [m|] eqn:R; [|discriminate].
    destruct (is_none (py_get (group1 m ++ "." ++ group2 m) context)) eqn:K;
      [discriminate|].
    inversion Turn; subst s'.
    apply (replace_keeps_token _ _ tok s (group1 m) (group2 m) w1 w2);
      try assumption; [now apply re_search_token in R|].
    intro E. pose proof (re_search_token _ _ R) as Tm. rewrite E in Tm.
    destruct (token_names _ _ _ _ _ T Tm) as [E1 E2].
    rewrite <- E1, <- E2 in K. congruence.
Qed.

Lemma dict_get_del_other {V} (k key : string) (d : dict V) :
  k <> key -> dict_get k (dict_del key d) = dict_get k d.
Proof.
  intro N. induction d as [|[k' v] d IH]; simpl; [reflexivity|].
  destruct (String.eqb_spec key k') as [<-|N'].
  - now rewrite (proj2 (String.eqb_neq k key) N).
  - simpl. now rewrite IH.
Qed.

Lemma dict_keys_get {V} (k : string) (d : dict V) :
  In k (dict_keys d) <-> dict_get k d <> None.
Proof.
  induction d as [|[k' v] d IH]; simpl; [tauto|].
  destruct (String.eqb_spec k k') as [->|N].
  - split; [discriminate | now left].
  - rewrite <- IH. split; [intros [E|I]; [congruence | exact I] | now right].
Qed.

Lemma at_free_del (key : string) (context : dict pyvalue) :
  at_free context -> at_free (dict_del key context).
Proof.
  intros F k v G. destruct (String.eqb_spec k key) as [->|N].
  - now rewrite dict_get_del in G.
  - rewrite dict_get_del_other in G by exact N. exact (F k v G).
Qed.

Lemma fill_value_none_anywhere (context : dict pyvalue) (cur : string)
    (tok w1 w2 : string) (fuel : nat) (s : string) :
  at_free context -> reference_token is_space tok w1 w2 ->
  py_get (w1 ++ "." ++ w2) context = VNone ->
  count_char "@" s < fuel -> occurs tok s ->
  exists k,
    fill_value fuel (VStr s) context cur
    = Raise (ValueReferenceError cur k (dict_keys context))
    /\ py_get k context = VNone.
Proof.
  intros F T V L O.
  destruct (fill_loop_none_anywhere context cur tok w1 w2 F T
              ltac:(now rewrite V) fuel s L O) as (k & E & K).
  exists k. unfold fill_value. rewrite E. split; [reflexivity|].
  now destruct (py_get k context).
Qed.

(** C9, as amended. An entry of the context that maps to None is looked up as
    a missing key is.  When the first token of the string names the key of
    such an entry, [fill_value] raises the [ValueReferenceError] for the
    current step and that key, as it does once the entry is deleted; the two
    errors differ in [available_variables], which lists the keys of the
    context, the key of the None entry among them.  When the token is
    anywhere in the string and no value of the context prints with an
    at-sign, [fill_value] raises a [ValueReferenceError] too, with the entry
    or without it: for this token, or for an earlier one whose key has no
    value either. *)
Theorem none_entry_is_missing (context : dict pyvalue) (cur key : string) :
  dict_get key context = Some VNone ->
  let without := dict_del key context in
  py_get key context = py_get key without
  /\ In key (dict_keys context) /\ ~ In key (dict_keys without)
  /\ (forall fuel value_str m,
        re_search value_str = Some m -> group1 m ++ "." ++ group2 m = key ->
        fill_value (S fuel) (VStr value_str) context cur
        = Raise (ValueReferenceError cur key (dict_keys context))
        /\ fill_value (S fuel) (VStr value_str) without cur
           = Raise (ValueReferenceError cur key (dict_keys without)))
  /\ (forall fuel value_str tok step_name parameter_name,
        reference_token is_space tok step_name parameter_name ->
        step_name ++ "." ++ parameter_name = key ->
        occurs tok value_str -> at_free context ->
        count_char "@" value_str < fuel ->
        (exists k, fill_value fuel (VStr value_str) context cur
                   = Raise (ValueReferenceError cur k (dict_keys context))
                   /\ py_get k context = VNone)
        /\ (exists k, fill_value fuel (VStr value_str) without cur
                      = Raise (ValueReferenceError cur k (dict_keys without))
                      /\ py_get k without = VNone)).
Proof.
  intros G without.
  assert (P : py_get key context = VNone) by (unfold py_get; now rewrite G).
  assert (P' : py_get key without = VNone)
    by (unfold py_get, without; now rewrite dict_get_del).
  split; [now rewrite P, P'|].
  split; [apply dict_keys_get; congruence|].
  split; [intro I; apply dict_keys_get in I; apply I; apply dict_get_del|].
  split.
  - intros fuel value_str m E K. subst key. split.
    + simpl. rewrite fill_turn_by_key, E. cbv zeta. now rewrite G.
    + simpl. rewrite fill_turn_by_key, E. cbv zeta. unfold without.
      now rewrite dict_get_del.
  - intros fuel value_str tok w1 w2 T K O F L. subst key. split.
    + now apply (fill_value_none_anywhere context cur tok w1 w2).
    + apply (fill_value_none_anywhere without cur tok w1 w2); try assumption.
      now apply at_free_del.
Qed.

End WithRuntime.

(* ================================================================== *)
(** * Two calls of [run], each in its environment *)

Lemma same_but_provider_with (rt rt' : Runtime) :
  same_but_provider rt rt' -> rt' = with_provider rt (llm_qa rt').
Proof.
  destruct rt, rt'. unfold same_but_provider, with_provider. simpl.
  intros (-> & -> & -> & -> & -> & -> & ->). reflexivity.
Qed.

Lemma registered_steps_are (rt : Runtime) :
  registered_steps rt = [("dummy", DummyStep); ("llm", LLMStep rt)].
Proof. reflexivity. Qed.

Lemma registered_anywhere (rt rt' : Runtime) (t : string) :
  dict_get t (registered_steps rt) = None
  <-> dict_get t (registered_steps rt') = None.
Proof.
  rewrite !registered_steps_are. simpl.
  destruct (String.eqb t "dummy"); [split; discriminate|].
  destruct (String.eqb t "llm"); [split; discriminate|]. tauto.
Qed.

Lemma well_formed_anywhere (rt rt' : Runtime) (w : WorkflowDef.t) :
  well_formed rt w -> well_formed rt' w.
Proof.
  unfold well_formed. apply Forall_impl. intros s C G.
  apply C. now apply (registered_anywhere rt rt').
Qed.

(** The loop of [run] does what [run_step] does with the name, the type and
    the declared inputs of each step, whatever instance the step holds. *)
Lemma run_steps_by_run_step (rt : Runtime) (fuel : nat) (dry_run : bool)
    (steps : list WorkflowStep.t) :
  Forall (registered rt) steps ->
  forall context status result,
    snd (run_steps rt fuel dry_run steps context status result)
    = steps_by_run_step rt fuel dry_run steps context status result.
Proof.
  induction 1 as [|step rest R _ IH]; intros context status result; [reflexivity|].
  cbn [run_steps steps_by_run_step]. unfold registered, dict_has in R.
  unfold init_input, run_step.
  destruct (dict_get (WorkflowStep.type step) (registered_steps rt)) as [cls|];
    [|discriminate].
  destruct (construct rt cls _ _) as [b|e|]; try reflexivity.
  unfold WorkflowStep_run.
  cbn [with_step WorkflowStep._step WorkflowStep._step_class].
  destruct (BaseStep_run rt fuel b context dry_run) as [[b' c'] o].
  destruct o as [r|e|]; try reflexivity.
  specialize (IH c'
    (if WorkflowStepStatus.eqb (WorkflowStepResult.status r) WorkflowStepStatus.FAILURE
     then WorkflowRunStatus.FAILURE else status) (app result [r])).
  destruct (run_steps rt fuel dry_run rest c' _ _) as [[x1 x2] x3]. exact IH.
Qed.

Lemma steps_by_run_step_alike (rt : Runtime) (fuel : nat) (dry_run : bool)
    (l l' : list WorkflowStep.t) :
  Forall2 step_alike l l' ->
  forall context status result,
    steps_by_run_step rt fuel dry_run l context status result
    = steps_by_run_step rt fuel dry_run l' context status result.
Proof.
  induction 1 as [|s t l l' A _ IH]; intros context status result; [reflexivity|].
  cbn [steps_by_run_step]. destruct (step_alike_fields _ _ A) as (-> & -> & ->).
  destruct (run_step rt fuel _ _ _ context dry_run) as [c' [r|e|]]; try reflexivity.
  apply IH.
Qed.

(** [BaseStep.run] reads of the class of its step the name and [process]. *)
Lemma BaseStep_run_agree (rt : Runtime) (fuel : nat) (b b' : BaseStep.t)
    (context : dict pyvalue) (dry_run : bool) :
  BaseStep.self b = BaseStep.self b' ->
  StepClass.__name__ (BaseStep.class b) = StepClass.__name__ (BaseStep.class b') ->
  (forall self, StepClass.process (BaseStep.class b) self dry_run
                = StepClass.process (BaseStep.class b') self dry_run) ->
  snd (fst (BaseStep_run rt fuel b context dry_run))
  = snd (fst (BaseStep_run rt fuel b' context dry_run))
  /\ snd (BaseStep_run rt fuel b context dry_run)
     = snd (BaseStep_run rt fuel b' context dry_run).
Proof.
  destruct b as [cls self], b' as [cls' self']. cbn [BaseStep.self BaseStep.class].
  intros <- N P. unfold BaseStep_run, try_body, failure_result, with_self.
  cbn [BaseStep.self BaseStep.class].
  rewrite N.
  destruct (context_update context (Self.context self)) as [context0|e|];
    try (split; reflexivity).
  destruct (fill_inputs rt fuel (Self.name self) (Self.inputs self) context0)
    as [[inputs context1] o1].
  destruct o1 as [[]|e|]; try (destruct dry_run; cbn [BaseStep.self BaseStep.class snd fst]; rewrite ?N; split; reflexivity).
  rewrite P.
  destruct (StepClass.process cls' _ dry_run) as [result|e|];
    try (destruct dry_run; cbn [BaseStep.self BaseStep.class snd fst]; rewrite ?N; split; reflexivity).
  destruct (publish_outputs rt (Self.name self) result _ context1)
    as [[outputs context2] o2].
  destruct o2 as [[]|e|]; cbn [bind];
    try (destruct dry_run; cbn [BaseStep.self BaseStep.class snd fst]; rewrite ?N; split; reflexivity).
  destruct (build_outputs rt result outputs) as [l|e|]; cbn [bind];
    try (destruct dry_run; cbn [BaseStep.self BaseStep.class snd fst]; rewrite ?N; split; reflexivity).
Qed.

(** The instance a constructor builds depends on the class through its
    parameters and its way with the keyword arguments, not through [process]. *)
Lemma construct_agree (rt : Runtime) (cls cls' : StepClass.t) (name : string)
    (kwargs : dict pyvalue) :
  StepClass.init_args cls = StepClass.init_args cls' ->
  StepClass.allow_dynamic_outputs cls = StepClass.allow_dynamic_outputs cls' ->
  StepClass.input_parameters cls = StepClass.input_parameters cls' ->
  StepClass.output_parameters cls = StepClass.output_parameters cls' ->
  match construct rt cls name kwargs, construct rt cls' name kwargs with
  | Ok b, Ok b' =>
      BaseStep.self b = BaseStep.self b'
      /\ BaseStep.class b = cls /\ BaseStep.class b' = cls'
  | Raise e, Raise e' => e = e'
  | OutOfFuel, OutOfFuel => True
  | _, _ => False
  end.
Proof.
  intros E1 E2 E3 E4. unfold construct, BaseStep_init. rewrite E1, E2, E3, E4.
  repeat match goal with
         | |- context [bind ?m _] =>
             destruct m; cbn [bind]; try reflexivity; try exact I
         end.
  repeat split.
Qed.

Lemma LLMStep_dry_run (rt rt' : Runtime) (self : Self.t) :
  same_but_provider rt rt' ->
  StepClass.process (LLMStep rt') self true = StepClass.process (LLMStep rt) self true.
Proof.
  intro S. rewrite (same_but_provider_with _ _ S). reflexivity.
Qed.

Lemma WorkflowStep_run_class (rt : Runtime) (fuel : nat) (step : WorkflowStep.t)
    (c c' : option StepClass.t) (b : option BaseStep.t) (context : dict pyvalue)
    (dry_run : bool) :
  snd (fst (WorkflowStep_run rt fuel (with_step step c b) context dry_run))
  = snd (fst (WorkflowStep_run rt fuel (with_step step c' b) context dry_run))
  /\ snd (WorkflowStep_run rt fuel (with_step step c b) context dry_run)
     = snd (WorkflowStep_run rt fuel (with_step step c' b) context dry_run).
Proof.
  unfold WorkflowStep_run. cbn [with_step WorkflowStep._step].
  destruct b as [b|]; [|split; reflexivity].
  destruct (BaseStep_run rt fuel b context dry_run) as [[x1 x2] x3].
  split; reflexivity.
Qed.

(** One turn of the loop of [run] in two environments that differ in the
    provider: the same context and the same outcome, in a dry run or for a
    step that is no LLM step. *)
Lemma step_other_provider (rt rt' : Runtime) (fuel : nat) (dry_run : bool)
    (step : WorkflowStep.t) (context : dict pyvalue) :
  same_but_provider rt rt' ->
  dry_run = true \/ WorkflowStep.type step <> "llm" ->
  snd (init_input rt' step) = snd (init_input rt step)
  /\ snd (fst (WorkflowStep_run rt' fuel (fst (init_input rt' step)) context dry_run))
     = snd (fst (WorkflowStep_run rt fuel (fst (init_input rt step)) context dry_run))
  /\ snd (WorkflowStep_run rt' fuel (fst (init_input rt' step)) context dry_run)
     = snd (WorkflowStep_run rt fuel (fst (init_input rt step)) context dry_run).
Proof.
  intros S D. pose proof (LLMStep_dry_run rt rt') as L.
  rewrite (same_but_provider_with _ _ S) in *.
  set (q := llm_qa rt') in *. clearbody q. clear S.
  unfold init_input. rewrite !registered_steps_are. cbn [dict_get].
  destruct (String.eqb (WorkflowStep.type step) "dummy");
    [split; [reflexivity | split; reflexivity]|].
  destruct (String.eqb_spec (WorkflowStep.type step) "llm") as [T|T];
    [|split; [reflexivity | split; reflexivity]].
  destruct D as [->|D]; [|contradiction].
  change (construct (with_provider rt q)) with (construct rt).
  pose proof (construct_agree rt (LLMStep (with_provider rt q)) (LLMStep rt)
                (WorkflowStep.name step) (WorkflowStep.inputs step)
                eq_refl eq_refl eq_refl eq_refl) as C.
  destruct (construct rt (LLMStep (with_provider rt q)) _ _) as [b'|e'|],
           (construct rt (LLMStep rt) _ _) as [b|e|];
    try contradiction; cbn [fst snd];
    [| subst e'; split; [reflexivity|];
       change (WorkflowStep_run (with_provider rt q)) with (WorkflowStep_run rt);
       apply WorkflowStep_run_class
     | split; [reflexivity|];
       change (WorkflowStep_run (with_provider rt q)) with (WorkflowStep_run rt);
       apply WorkflowStep_run_class].
  destruct C as (Es & C' & C). split; [reflexivity|].
  unfold WorkflowStep_run. cbn [with_step WorkflowStep._step WorkflowStep._step_class].
  change (BaseStep_run (with_provider rt q)) with (BaseStep_run rt).
  destruct (BaseStep_run_agree rt fuel b' b context true Es) as [A1 A2].
  - now rewrite C', C.
  - intro self. rewrite C', C. apply L.
    unfold same_but_provider, with_provider. cbn. repeat split.
  - destruct (BaseStep_run rt fuel b' context true) as [[x1 x2] x3],
             (BaseStep_run rt fuel b context true) as [[y1 y2] y3].
    cbn [fst snd] in *. now split.
Qed.

Lemma run_steps_other_provider (rt rt' : Runtime) (fuel : nat) (dry_run : bool)
    (steps : list WorkflowStep.t) :
  same_but_provider rt rt' ->
  dry_run = true \/ Forall (fun step => WorkflowStep.type step <> "llm") steps ->
  forall context status result,
    snd (run_steps rt' fuel dry_run steps context status result)
    = snd (run_steps rt fuel dry_run steps context status result).
Proof.
  intros S D. induction steps as [|step rest IH]; intros context status result;
    [reflexivity|].
  assert (D1 : dry_run = true \/ WorkflowStep.type step <> "llm").
  { destruct D as [D|D]; [now left | right; now inversion D]. }
  assert (D2 : dry_run = true
               \/ Forall (fun step => WorkflowStep.type step <> "llm") rest).
  { destruct D as [D|D]; [now left | right; now inversion D]. }
  specialize (IH D2). cbn [run_steps].
  destruct (step_other_provider rt rt' fuel dry_run step context S D1)
    as (I & C & O).
  destruct (init_input rt' step) as [s1' o1'], (init_input rt step) as [s1 o1].
  cbn [fst snd] in *. subst o1'. destruct o1 as [[]|e|]; try reflexivity.
  destruct (WorkflowStep_run rt' fuel s1' context dry_run) as [[s2' c'] o2'],
           (WorkflowStep_run rt fuel s1 context dry_run) as [[s2 c] o2].
  cbn [fst snd] in *. subst c' o2'. destruct o2 as [r|e|]; try reflexivity.
  match goal with
  | |- context [run_steps rt' fuel dry_run rest c ?st ?res] =>
      specialize (IH c st res);
      destruct (run_steps rt' fuel dry_run rest c st res) as [[x1 x2] x3],
               (run_steps rt fuel dry_run rest c st res) as [[y1 y2] y3]
  end.
  exact IH.
Qed.

(** The outcome of a dry run, and of any run without LLM step, is the same in
    two environments that differ in the provider. *)
Lemma run_other_provider (rt rt' : Runtime) (fuel : nat) (w : WorkflowDef.t)
    (run_inputs : option (dict pyvalue)) (dry_run : bool) :
  same_but_provider rt rt' -> dry_run = true \/ provider_free w ->
  snd (run rt' fuel w run_inputs dry_run) = snd (run rt fuel w run_inputs dry_run).
Proof.
  intros S D. pose proof (run_steps_other_provider rt rt' fuel dry_run
                            (WorkflowDef.steps w) S D) as R.
  rewrite (same_but_provider_with _ _ S) in *.
  set (q := llm_qa rt') in *. clearbody q. clear S.
  unfold run. change (bind_inputs (with_provider rt q)) with (bind_inputs rt).
  destruct (if dry_run then _ else _) as [ri o0].
  destruct o0 as [[]|e|]; try reflexivity.
  destruct (bind_inputs rt (WorkflowDef.inputs w) ri []) as [inputs o1].
  destruct o1 as [[|err errs]|e|]; try reflexivity.
  match goal with
  | |- context [run_steps rt fuel dry_run (WorkflowDef.steps w) ?c ?st ?res] =>
      specialize (R c st res);
      destruct (run_steps (with_provider rt q) fuel dry_run (WorkflowDef.steps w)
                  c st res) as [[x1 x2] x3],
               (run_steps rt fuel dry_run (WorkflowDef.steps w) c st res)
                 as [[y1 y2] y3]
  end.
  cbn [snd] in *. now subst x3.
Qed.

(** What [run] leaves in the dictionary of the caller depends on neither the
    steps nor the environment. *)
Lemma run_dictionary (rt : Runtime) (fuel : nat) (w : WorkflowDef.t)
    (run_inputs : option (dict pyvalue)) (dry_run : bool) :
  snd (fst (run rt fuel w run_inputs dry_run))
  = fst (if dry_run
         then seed_dry_run (WorkflowDef.inputs w)
                (match run_inputs with Some d => d | None => [] end)
         else (match run_inputs with Some d => d | None => [] end, Ok tt)).
Proof.
  unfold run. destruct (if dry_run then _ else _) as [ri o0].
  destruct o0 as [[]|e|]; try reflexivity.
  destruct (bind_inputs rt _ _ []) as [i1 o1].
  destruct o1 as [[|err errs]|e|]; try reflexivity.
  destruct (run_steps rt fuel dry_run _ _ _ _) as [[x1 x2] x3]. reflexivity.
Qed.

Lemma registered_alike (rt : Runtime) (l l' : list WorkflowStep.t) :
  Forall2 step_alike l l' -> Forall (registered rt) l -> Forall (registered rt) l'.
Proof.
  induction 1 as [|s t l l' A _ IH]; intro R; [constructor|].
  inversion R; subst. constructor; [|now apply IH].
  unfold registered in *. now destruct (step_alike_fields _ _ A) as (_ & <- & _).
Qed.

(** C7, as amended. Let a consistent definition be run, dry or live, in one
    environment, and then again in an environment that may differ in what the
    provider replies.  The second call sees nothing the first call bound: its
    outcome is the outcome it would have had on the definition as it was, and
    when the step types are registered its loop computes what [run_step]
    computes from the name, the type and the declared inputs of each step,
    that is with an instance built anew.  With identical inputs, be it an
    equal dictionary or the very dictionary the first call got, the second
    call has the outcome of the first, step outputs included, when the
    environment is the same, when the runs are dry, or when no step is an LLM
    step. *)
Theorem run_is_repeatable (rt rt' : Runtime) (fuel : nat) (self : WorkflowDef.t)
    (run_inputs : dict pyvalue) (dry_run : bool) :
  same_but_provider rt rt' -> well_formed rt self ->
  let first := run rt fuel self (Some run_inputs) dry_run in
  let self1 := fst (fst first) in
  (forall run_inputs' dry_run',
     snd (run rt' fuel self1 run_inputs' dry_run')
     = snd (run rt' fuel self run_inputs' dry_run'))
  /\ (Forall (registered rt') (WorkflowDef.steps self) ->
      forall dry_run' context status result,
        snd (run_steps rt' fuel dry_run' (WorkflowDef.steps self1)
               context status result)
        = steps_by_run_step rt' fuel dry_run' (WorkflowDef.steps self)
            context status result)
  /\ (rt' = rt \/ dry_run = true \/ provider_free self ->
      snd (run rt' fuel self1 (Some run_inputs) dry_run) = snd first
      /\ snd (run rt' fuel self1 (Some (snd (fst first))) dry_run) = snd first)
  /\ well_formed rt' self1.
Proof.
  intros S W first self1.
  destruct (run_state rt fuel self (Some run_inputs) dry_run W) as [A W1].
  fold first in A, W1. fold self1 in A, W1.
  pose proof (well_formed_anywhere rt rt' _ W) as W'.
  pose proof (well_formed_anywhere rt rt' _ W1) as W1'.
  assert (K : forall ri d,
            snd (run rt' fuel self1 ri d) = snd (run rt' fuel self ri d)).
  { intros ri d. symmetry. now apply run_alike. }
  split; [exact K|]. split; [|split; [|exact W1']].
  - intros R dry_run' context status result.
    destruct A as (_ & AS & _).
    rewrite run_steps_by_run_step by (now apply (registered_alike rt' _ _ AS)).
    symmetry. now apply steps_by_run_step_alike.
  - intro C.
    assert (P : snd (run rt' fuel self (Some run_inputs) dry_run) = snd first).
    { destruct C as [->|C]; [reflexivity|]. now apply run_other_provider. }
    split; [now rewrite K|]. rewrite K. rewrite <- P. unfold first.
    replace (snd (fst (run rt fuel self (Some run_inputs) dry_run)))
      with (snd (fst (run rt' fuel self (Some run_inputs) dry_run)))
      by (now rewrite !run_dictionary).
    now rewrite run_same_dictionary.
Qed.

(* ================================================================== *)
(** * Instances *)

Lemma hello_well_formed : well_formed example_runtime (hello_workflow "w" "s").
Proof. repeat constructor. Qed.

Lemma read_only_well_formed : well_formed example_runtime read_only_workflow.
Proof. repeat constructor. Qed.

(** C3, as stated, fails on an entry that maps to None: the key is present, so
    the stated algorithm substitutes "None", but [fill_value] raises. *)
Lemma none_entry_not_substituted :
  fill_turn_spec example_runtime "@{a.b}" none_context "s" = Continue "None"
  /\ fill_turn example_runtime "@{a.b}" none_context "s"
     = Fail (ValueReferenceError "s" "a.b" ["a.b"])
  /\ fill_value example_runtime 2 (VStr "@{a.b}") none_context "s"
     = Raise (ValueReferenceError "s" "a.b" ["a.b"]).
Proof. repeat split. Qed.

(** C5, as stated, fails on a NUMBER with neither value nor default: parsing
    None to a float raises, but [Parameter.v] returns None. *)
Lemma unset_number_is_none :
  v_spec example_runtime (Param.make "n" NUMBER)
  = Raise (PyError "TypeError"
      "float() argument must be a string or a real number, not 'NoneType'")
  /\ Param_v example_runtime (Param.make "n" NUMBER) = Ok VNone.
Proof. split; reflexivity. Qed.

(** C9, as stated, fails twice.  The error raised for an entry that maps to
    None is not the error raised once the entry is deleted: the first lists
    the key among the available variables.  And a string that contains a
    token whose key maps to None need not raise: behind a token that refers
    to itself the loop never reaches it. *)
Lemma none_entry_is_told_apart :
  fill_value example_runtime 1 (VStr "@{a.b}") none_context "s"
  = Raise (ValueReferenceError "s" "a.b" ["a.b"])
  /\ fill_value example_runtime 1 (VStr "@{a.b}") (dict_del "a.b" none_context) "s"
     = Raise (ValueReferenceError "s" "a.b" [])
  /\ str_exn (ValueReferenceError "s" "a.b" ["a.b"])
     <> str_exn (ValueReferenceError "s" "a.b" [])
  /\ dict_get "a.b" looping_context = Some VNone
  /\ occurs "@{a.b}" "@{x.y} @{a.b}"
  /\ forall fuel,
       fill_value example_runtime fuel (VStr "@{x.y} @{a.b}") looping_context "s"
       = OutOfFuel.
Proof.
  split; [reflexivity|]. split; [reflexivity|]. split; [discriminate|].
  split; [reflexivity|]. split; [now exists "@{x.y} ", ""|].
  assert (T : fill_turn example_runtime "@{x.y} @{a.b}" looping_context "s"
              = Continue "@{x.y} @{a.b}") by reflexivity.
  induction fuel as [|fuel IH]; [reflexivity|].
  cbn [fill_value fill_loop bind] in *. now rewrite T.
Qed.

Lemma none_entry_is_missing_witness :
  dict_get "a.b" none_context = Some VNone
  /\ re_search "@{a.b}" = Some {| group0 := "@{a.b}"; group1 := "a"; group2 := "b" |}
  /\ fill_value example_runtime 1 (VStr "@{a.b}") none_context "s"
     = Raise (ValueReferenceError "s" "a.b" (dict_keys none_context))
  /\ fill_value example_runtime 1 (VStr "@{a.b}") (dict_del "a.b" none_context) "s"
     = Raise (ValueReferenceError "s" "a.b" (dict_keys (dict_del "a.b" none_context))).
Proof.
  split; [reflexivity|]. split; [reflexivity|].
  exact (proj1 (proj2 (proj2 (proj2
           (none_entry_is_missing example_runtime none_context "s" "a.b" eq_refl))))
           0 "@{a.b}" {| group0 := "@{a.b}"; group1 := "a"; group2 := "b" |}
           eq_refl eq_refl).
Defined.


Lemma aggregate_status_witness :
  well_formed example_runtime (hello_workflow "w" "s")
  /\ exists r,
       snd (run example_runtime 1 (hello_workflow "w" "s") None false) = Ok r
       /\ (WorkflowRunResult.status r = WorkflowRunStatus.SUCCESS
           <-> ~ Exists failed (WorkflowRunResult.result r)).
Proof.
  split; [exact hello_well_formed|]. eexists. split; [reflexivity|].
  exact (proj1 (proj2 (aggregate_status example_runtime 1 (hello_workflow "w" "s")
                         _ None _ false _ hello_well_formed eq_refl))).
Defined.

(** C7, as stated, fails for an LLM step: the provider is asked again in the
    second run, and when it replies otherwise the step outputs differ. *)
Lemma provider_replies_differ :
  same_but_provider (answering_runtime "Paris") (answering_runtime "Lyon")
  /\ well_formed (answering_runtime "Paris") ask_workflow
  /\ step_outputs (snd (run (answering_runtime "Paris") 1 ask_workflow (Some []) false))
     = [[VStr "Paris"]]
  /\ step_outputs
       (snd (run (answering_runtime "Lyon") 1
               (fst (fst (run (answering_runtime "Paris") 1 ask_workflow
                            (Some []) false)))
               (Some []) false))
     = [[VStr "Lyon"]].
Proof.
  split; [repeat split|]. split; [repeat constructor|].
  split; vm_compute; reflexivity.
Qed.

Lemma read_only_provider_free : provider_free read_only_workflow.
Proof. repeat constructor. discriminate. Qed.

Lemma paris_lyon : same_but_provider (answering_runtime "Paris") (answering_runtime "Lyon").
Proof. repeat split. Qed.

Lemma read_only_well_formed_paris :
  well_formed (answering_runtime "Paris") read_only_workflow.
Proof. repeat constructor. Qed.

Lemma run_is_repeatable_witness :
  same_but_provider (answering_runtime "Paris") (answering_runtime "Lyon")
  /\ well_formed (answering_runtime "Paris") read_only_workflow
  /\ provider_free read_only_workflow
  /\ snd (run (answering_runtime "Lyon") 2
            (fst (fst (run (answering_runtime "Paris") 2 read_only_workflow
                         (Some [("p", VStr "x")]) false)))
            (Some [("p", VStr "x")]) false)
     = snd (run (answering_runtime "Paris") 2 read_only_workflow
              (Some [("p", VStr "x")]) false)
  /\ step_outputs (snd (run (answering_runtime "Paris") 2 read_only_workflow
                          (Some [("p", VStr "x")]) false))
     = [[VStr "x"]].
Proof.
  split; [exact paris_lyon|]. split; [exact read_only_well_formed_paris|].
  split; [exact read_only_provider_free|].
  split; [|vm_compute; reflexivity].
  exact (proj1 (proj1 (proj2 (proj2
           (run_is_repeatable (answering_runtime "Paris") (answering_runtime "Lyon")
              2 read_only_workflow [("p", VStr "x")] false
              paris_lyon read_only_well_formed_paris)))
           (or_intror (or_intror read_only_provider_free)))).
Defined.


(* ------------------------------------------------------------------ *)
(** ** Instances of the further properties *)

Lemma fill_value_plain_text_witness :
  count_char "@" "Hello, World!" = 0
  /\ fill_value example_runtime 1 (VStr "Hello, World!") [] "s"
     = Ok (VStr "Hello, World!").
Proof.
  split; [reflexivity|].
  exact (fill_value_plain_text example_runtime 0 "Hello, World!" [] "s" eq_refl).
Defined.

Lemma token_a_b : reference_token is_space "@{a.b}" "a" "b".
Proof.
  exists "", "", "", "". unfold is_name.
  repeat split; try reflexivity; discriminate.
Qed.

Lemma fill_value_single_reference_witness :
  reference_token is_space "@{a.b}" "a" "b"
  /\ dict_get "a.b" [("a.b", VStr "you")] = Some (VStr "you")
  /\ fill_value example_runtime 2 (VStr "Hi @{a.b}!") [("a.b", VStr "you")] "s"
     = Ok (VStr "Hi you!").
Proof.
  split; [exact token_a_b|]. split; [reflexivity|].
  exact (fill_value_single_reference example_runtime 0 "Hi " "!" "@{a.b}" "a" "b"
           [("a.b", VStr "you")] "s" (VStr "you")
           eq_refl eq_refl token_a_b eq_refl eq_refl eq_refl).
Defined.

Lemma fill_value_self_reference_witness :
  re_search "@{a.b}" = Some {| group0 := "@{a.b}"; group1 := "a"; group2 := "b" |}
  /\ dict_get "a.b" [("a.b", VStr "@{a.b}")] = Some (VStr "@{a.b}")
  /\ forall fuel,
       fill_value example_runtime fuel (VStr "@{a.b}") [("a.b", VStr "@{a.b}")] "s"
       = OutOfFuel.
Proof.
  split; [reflexivity|]. split; [reflexivity|].
  exact (proj2 (fill_value_self_reference example_runtime "@{a.b}"
                  [("a.b", VStr "@{a.b}")] "s"
                  {| group0 := "@{a.b}"; group1 := "a"; group2 := "b" |}
                  eq_refl eq_refl)).
Defined.

Lemma BaseStep_init_invariant_witness :
  exists b,
    BaseStep_init example_runtime DummyStep "s" NamesNone
      [("input", VStr "x")] = Ok b
    /\ Self.name (BaseStep.self b) = "s".
Proof.
  eexists. split; [reflexivity|].
  exact (proj1 (BaseStep_init_invariant example_runtime DummyStep
                  "s" NamesNone [("input", VStr "x")] _ eq_refl)).
Defined.

Lemma WorkflowStep_new_valid_witness :
  exists step,
    WorkflowStep_new example_runtime "s" "dummy" None [("input", VStr "x")] false
    = Ok step
    /\ WorkflowStep.name step = "s".
Proof.
  eexists. split; [reflexivity|].
  exact (proj1 (WorkflowStep_new_valid example_runtime "s" "dummy" None
                  [("input", VStr "x")] _ eq_refl)).
Defined.

Lemma run_step_as_workflow_step_witness :
  dict_has "dummy" (registered_steps example_runtime) = true
  /\ run_step example_runtime 1 "s" "dummy" [("input", VStr "x")] [] false
     = match init_input example_runtime (new_step "s" "dummy" [("input", VStr "x")]) with
       | (step1, Ok _) =>
           let '((_, context'), o) :=
             WorkflowStep_run example_runtime 1 step1 [] false in
           (context', o)
       | (_, Raise e) => ([], Raise e)
       | (_, OutOfFuel) => ([], OutOfFuel)
       end.
Proof.
  split; [reflexivity|].
  exact (run_step_as_workflow_step example_runtime 1
           (new_step "s" "dummy" [("input", VStr "x")]) [] false eq_refl).
Defined.

Lemma dummy_step_echo_witness :
  is_none (VStr "x") = false
  /\ fill_value example_runtime 1 (VStr "x") [] "s" = Ok (VStr "x")
  /\ run_step example_runtime 1 "s" "dummy" [("input", VStr "x")] [] false
     = (echo_context "s" (VStr "x") [], Ok (echo_result "s" (VStr "x"))).
Proof.
  split; [reflexivity|]. split; [reflexivity|].
  exact (dummy_step_echo example_runtime 1 "s" (VStr "x") (VStr "x") [] false
           eq_refl eq_refl).
Defined.

Lemma name_a : is_name "a".
Proof. split; [discriminate | reflexivity]. Qed.

Lemma name_c : is_name "c".
Proof. split; [discriminate | reflexivity]. Qed.

Lemma reference_to_previous_output_witness :
  is_name "a" /\ count_char "@" "x" = 0
  /\ snd (run example_runtime 2 (chained_workflow "w" "a" "b" "x") None false)
     = Ok {| WorkflowRunResult.status := WorkflowRunStatus.SUCCESS;
             WorkflowRunResult.result :=
               [echo_result "a" (VStr "x"); echo_result "b" (VStr "x")] |}.
Proof.
  split; [exact name_a|]. split; [reflexivity|].
  exact (reference_to_previous_output example_runtime 0 "w" "a" "b" "x" None
           name_a eq_refl).
Defined.

Lemma missing_required_input_aborts_witness :
  In required_input (WorkflowDef.inputs required_workflow)
  /\ Param.optional (InputParameter.base required_input) = false
  /\ get_or_default [] required_input = VNone
  /\ WorkflowDef.steps
       (fst (fst (run example_runtime 1 required_workflow (Some []) false)))
     = WorkflowDef.steps required_workflow
  /\ exists errs,
       In (required_message "q") errs
       /\ snd (run example_runtime 1 required_workflow (Some []) false)
          = Ok {| WorkflowRunResult.status := WorkflowRunStatus.FAILURE;
                  WorkflowRunResult.result :=
                    [ {| WorkflowStepResult.step_name := "input";
                         WorkflowStepResult.step_type := "input";
                         WorkflowStepResult.status := WorkflowStepStatus.FAILURE;
                         WorkflowStepResult.status_reason := Some (join "; " errs);
                         WorkflowStepResult.inputs := [];
                         WorkflowStepResult.outputs := [] |} ] |}.
Proof.
  split; [left; reflexivity|]. split; [reflexivity|]. split; [reflexivity|].
  destruct (missing_required_input_aborts example_runtime 1 required_workflow []
              required_input (or_introl eq_refl) eq_refl eq_refl)
    as [H (errs & I & _ & E)].
  split; [exact H|]. exists errs. split; [exact I | now rewrite <- E].
Defined.

Lemma validate_inputs_reports_witness :
  snd (validate_inputs example_runtime read_only_workflow [("p", VStr "y")])
  = Ok [immutable_error "p"]
  /\ List.length [immutable_error "p"]
     <= List.length (WorkflowDef.inputs read_only_workflow).
Proof.
  split; [reflexivity|].
  exact (proj1 (validate_inputs_reports example_runtime read_only_workflow
                  [("p", VStr "y")] [immutable_error "p"] eq_refl)).
Defined.

Lemma read_only_names_differ :
  NoDup (map input_name (WorkflowDef.inputs read_only_workflow)).
Proof. repeat constructor. intros []. Qed.

Lemma dry_run_reports_no_failure_witness :
  NoDup (map input_name (WorkflowDef.inputs read_only_workflow))
  /\ exists r,
       snd (run example_runtime 2 read_only_workflow None true) = Ok r
       /\ WorkflowRunResult.status r = WorkflowRunStatus.SUCCESS.
Proof.
  split; [exact read_only_names_differ|]. eexists. split; [reflexivity|].
  exact (proj1 (dry_run_reports_no_failure example_runtime 2 read_only_workflow
                  _ None _ _ read_only_names_differ eq_refl)).
Defined.

Lemma c_not_input : "c" <> "input".
Proof. discriminate. Qed.

Lemma c_not_output : "c" <> "output".
Proof. discriminate. Qed.

Lemma reference_to_missing_output_witness :
  is_name "a" /\ is_name "c" /\ "c" <> "input" /\ "c" <> "output"
  /\ count_char "@" "x" = 0
  /\ snd (run example_runtime 1 (referring_workflow "w" "a" "b" "x" "c") None true)
     = Raise (ValueReferenceError "b" "a.c" ["a.input"; "a.output"]).
Proof.
  split; [exact name_a|]. split; [exact name_c|].
  split; [exact c_not_input|]. split; [exact c_not_output|]. split; [reflexivity|].
  exact (proj1 (reference_to_missing_output example_runtime 0 "w" "a" "b" "x" "c" None
                  name_a name_c
                  c_not_input c_not_output
                  eq_refl)).
Defined.
Lemma pair_of_projections {A B C} (x : A * B * C) :
  x = (fst (fst x), snd (fst x), snd x).
Proof. destruct x as [[a b] c]. reflexivity. Qed.

Lemma undeclared_outputs_are_dropped_witness :
  let rt := answering_runtime "Paris" in
  let step := llm_instance rt "s" "Capital of France?" "answer" in
  construct rt (LLMStep rt) "s" (llm_kwargs "Capital of France?" "answer") = Ok step
  /\ exists step' context' r,
       BaseStep_run rt 1 step [] false = ((step', context'), Ok r)
       /\ succeeded r
       /\ WorkflowStepResult.outputs r = []
       /\ exists result,
            StepClass.process (BaseStep.class step)
              (with_inputs (BaseStep.self step) (Self.inputs (BaseStep.self step')))
              false
            = Ok result
            /\ map Param.value (WorkflowStepResult.outputs r)
               = map snd (filter (fun kv =>
                            dict_has (fst kv) (Self.outputs (BaseStep.self step)))
                          result).
Proof.
  intros rt step. split; [reflexivity|].
  assert (E : exists r, snd (BaseStep_run rt 1 step [] false) = Ok r
                        /\ succeeded r /\ WorkflowStepResult.outputs r = []).
  { eexists. split; [vm_compute; reflexivity | split; reflexivity]. }
  destruct E as (r & E & S & O).
  exists (fst (fst (BaseStep_run rt 1 step [] false))),
         (snd (fst (BaseStep_run rt 1 step [] false))), r.
  assert (H : BaseStep_run rt 1 step [] false
              = (fst (fst (BaseStep_run rt 1 step [] false)),
                 snd (fst (BaseStep_run rt 1 step [] false)), Ok r)).
  { rewrite <- E. apply pair_of_projections. }
  split; [exact H|]. split; [exact S|]. split; [exact O|].
  exact (undeclared_outputs_are_dropped rt 1 step _ [] _ false r H S).
Defined.

Lemma answer_is_free : ~ In "answer" llm_taken_names.
Proof. simpl. intuition discriminate. Qed.

Lemma answer_not_empty : "answer" <> "".
Proof. discriminate. Qed.

Lemma llm_single_named_output_is_lost_witness :
  count_char "@" "Capital of France?" = 0
  /\ "answer" <> ""
  /\ map strip (split_comma "answer") = ["answer"]
  /\ ~ In "answer" llm_taken_names
  /\ llm_qa (answering_runtime "Paris") (VStr "") (VStr "Capital of France?")
       (VStr "gpt-4o") = Ok "Paris"
  /\ exists r,
       snd (run_step (answering_runtime "Paris") 1 "s" "llm"
              (llm_kwargs "Capital of France?" "answer") [] false) = Ok r
       /\ succeeded r /\ WorkflowStepResult.outputs r = [].
Proof.
  split; [reflexivity|]. split; [exact answer_not_empty|]. split; [reflexivity|].
  split; [exact answer_is_free|]. split; [reflexivity|].
  exact (proj2 (llm_single_named_output_is_lost (answering_runtime "Paris") 0 "s"
                  "Capital of France?" "answer" "answer" []
                  eq_refl answer_not_empty eq_refl answer_is_free)
           "Paris" eq_refl).
Defined.

Lemma choice_has_no_placeholder : ~ has_placeholder choice_input.
Proof. intros [v H]. discriminate H. Qed.

Lemma dry_run_needs_placeholders_witness :
  In choice_input (WorkflowDef.inputs choice_workflow)
  /\ ~ has_placeholder choice_input
  /\ snd (run example_runtime 1 choice_workflow (Some [("model", VStr "gpt-4o")]) true)
     = Raise (PyError "AssertionError" "").
Proof.
  split; [left; reflexivity|]. split; [exact choice_has_no_placeholder|].
  exact (proj1 (dry_run_needs_placeholders example_runtime 1 choice_workflow
                  (Some [("model", VStr "gpt-4o")]) choice_input
                  (or_introl eq_refl) choice_has_no_placeholder)).
Defined.

Lemma option_assignment_checks_choices_witness :
  assign example_runtime choice_parameter (VStr "gpt-4o-mini")
  = Ok (Param.with_value choice_parameter (VStr "gpt-4o-mini"))
  /\ (Param.data_type choice_parameter = FILE ->
      Param.content_type choice_parameter <> None).
Proof.
  split; [reflexivity|].
  exact (proj2 (option_assignment_checks_choices example_runtime choice_parameter _
                  (VStr "gpt-4o-mini") eq_refl)).
Defined.

Lemma a_is_not_b : "a" <> "b".
Proof. discriminate. Qed.

Lemma a_is_free : ~ In "a" llm_input_names.
Proof. simpl. intuition discriminate. Qed.

Lemma b_is_free : ~ In "b" llm_input_names.
Proof. simpl. intuition discriminate. Qed.

Lemma llm_reply_not_json_witness :
  count_char "@" "Capital of France?" = 0
  /\ map strip (split_comma "a, b") = ["a"; "b"]
  /\ "a" <> "b" /\ ~ In "a" llm_input_names /\ ~ In "b" llm_input_names
  /\ llm_qa (parsing_runtime "Paris" None) (VStr "")
       (VStr (llm_json_prompt "Capital of France?" ["a"; "b"])) (VStr "gpt-4o")
     = Ok "Paris"
  /\ json_loads (parsing_runtime "Paris" None) "Paris" = None
  /\ (exists r,
        snd (run_step (parsing_runtime "Paris" None) 1 "s" "llm"
               (llm_kwargs "Capital of France?" "a, b") [] false) = Ok r
        /\ succeeded r
        /\ WorkflowStepResult.outputs r
           = [ Param.with_value (Param.make "a" STRING) (VStr "Paris");
               Param.with_value (Param.make "b" STRING) (VStr "Paris") ])
  /\ json_loads (parsing_runtime "42" (Some (NotMapping "int"))) "42"
     = Some (NotMapping "int")
  /\ exists r,
       snd (run_step (parsing_runtime "42" (Some (NotMapping "int"))) 1 "s" "llm"
              (llm_kwargs "Capital of France?" "a, b") [] false) = Ok r
       /\ failed r
       /\ WorkflowStepResult.outputs r
          = [ error_parameter
                (PyError "AttributeError" "'int' object has no attribute 'items'") ].
Proof.
  split; [reflexivity|]. split; [reflexivity|]. split; [exact a_is_not_b|].
  split; [exact a_is_free|]. split; [exact b_is_free|].
  split; [reflexivity|]. split; [reflexivity|].
  split.
  - exact (proj1 (llm_reply_not_json (parsing_runtime "Paris" None) 0 "s"
                    "Capital of France?" "a, b" "a" "b" [] "Paris"
                    eq_refl eq_refl a_is_not_b a_is_free b_is_free eq_refl)
             eq_refl).
  - split; [reflexivity|].
    exact (proj2 (llm_reply_not_json (parsing_runtime "42" (Some (NotMapping "int")))
                    0 "s" "Capital of France?" "a, b" "a" "b" [] "42"
                    eq_refl eq_refl a_is_not_b a_is_free b_is_free eq_refl)
             "int" eq_refl).
Defined.


(** [str.strip] drops white space beyond ASCII: an output name given as
    [result] followed by a no-break space is the declared output [result],
    and the reply of the provider is kept under it. *)
Lemma strip_no_break_space :
  strip ("result" ++ no_break_space) = "result"
  /\ map strip (split_comma ("a" ++ no_break_space ++ ", b")) = ["a"; "b"]
  /\ step_outputs
       (r <- snd (run_step (answering_runtime "Paris") 1 "s" "llm"
                    (llm_kwargs "Capital of France?" ("result" ++ no_break_space))
                    [] false) ;;
        Ok {| WorkflowRunResult.status := WorkflowRunStatus.SUCCESS;
              WorkflowRunResult.result := [r] |})
     = [[VStr "Paris"]].
Proof. repeat split; vm_compute; reflexivity. Qed.
